(* ===== verification/_CoqProject ===== *)
-Q . S2P
Prelude.v
Vision.v
Distance.v
Encode.v
Decision.v
Cadence.v
TkLoop.v
Handlers.v
Session.v
SessionFM.v
SessionDF.v
Engine.v
Mainloop.v
