(* ===== verification/Prelude.v ===== *)
(** * FaceMatching-PeopleDetector: a verification development

    ** The program

    The repository holds three variants of one Tk desktop application
    that compares the person in front of a webcam with one enrolled
    reference photo:

    - [src/FinalProject.py]: face_recognition embeddings gated by a
      YOLOv8 person count that is refreshed every fifth frame;
    - [src/FaceMatching.py]: the same embedding test on every face of
      every frame, without person gating;
    - [src/FaceMatching-UsingDeepface.py]: [DeepFace.verify] on the
      reference file and a snapshot of the live frame.

    Each variant keeps its state in module globals ([reference_encoding]
    or [reference_set], [video_capture], [running], and in FinalProject
    [frame_counter] and [current_person_count]), and is driven by four
    buttons ([capture_reference_photo], [upload_reference_photo],
    [recognize_live], [stop_camera]) and by the Tk timer that re-runs
    [update_frame] ten milliseconds after each frame
    ([video_label.after(10, update_frame)]).  The computer-vision
    libraries (OpenCV, face_recognition, ultralytics, DeepFace) are
    external collaborators.

    ** Layout of the development

    - [Prelude] (this file): the Python effects the handlers have,
      as a state-and-exception monad [PyM] with its notation in
      [py_scope], the exceptions ([exn]) the modelled code raises, the
      pure [outcome] type, the hint databases [facematch] and
      [facematch_rw] and the tactics shared by the other files.
    - [Vision]: the external collaborators as type classes (OpenCV's
      [cvtColor], [equalizeHist], [bilateralFilter], [resize];
      face_recognition's [face_locations] and [face_encodings]; YOLO's
      [predict]; DeepFace's [verify]) with the contracts of spec
      section 6 as class laws, the data the program exchanges with them
      (face locations, 128-dimensional encodings as lists of
      rationals), the file system ([cv2.imwrite], [cv2.imread],
      [load_image_file], [os.path.exists]) with its write/read round
      trips, and a synthetic instance on which witnesses compute.
    - [Distance]: [face_recognition.face_distance] and
      [compare_faces] (Euclidean norm, tolerance 0.6), with the
      distance kept exact as its rational square so that comparisons
      with thresholds compute; the refinement theorem relating them to
      the real-valued norm [sqrt (sum (a_i - b_i)^2)].
    - [Encode]: [preprocess_image] and [encode_face], and
      FaceMatching.py's own copies of them.
    - [Decision]: the per-frame classification of each variant
      (lines 125-159 of FinalProject.py, 105-136 of FaceMatching.py,
      95-113 of the DeepFace variant) and the verifier interface
      [IdentityVerifier] of spec section 9 that both embedding and
      DeepFace strategies implement.
    - [Cadence]: the YOLO refresh policy of FinalProject
      ([frame_counter % 5 == 0]) as a cached value with a refresh rule.
    - [TkLoop]: the Tk main loop, written once for the three variants
      against the interface [TkApp] (the four button commands, the
      timer callback of [video_label.after(10, update_frame)], the
      start-up states and the count of pending timers) and its laws
      [TkAppLaws]: [dispatch] on one event, the relation [step], the
      reachable states, [run_events] on a list of events; the generic
      facts: timers are inert when the callback is, and a timer chain
      whose callback consumes a finite resource ends.
    - [Handlers]: the globals record [State Image X] of the two
      embedding variants, parameterised by the variant's own globals
      [X], and the four handlers whose text FinalProject.py and
      FaceMatching.py share ([capture_reference_photo] with its loop
      [capture_loop], [upload_reference_photo], [recognize_live],
      [stop_camera]) and [read_frame]; [embedding_app] wires them to a
      variant's [update_frame], and the Prop class [UpdateFrameLaws]
      states what the loop theorems need of it.  The invariant, the
      single-loop property, inert timers after Stop and termination
      are proved here once, for every [update_frame] with the laws.
    - [Session]: FinalProject.py: its [update_frame] (lines 95-171)
      with the detector cache as [X], the instance [fp_app], and its
      defects stated for every state in which they arise.
    - [SessionFM]: FaceMatching.py: its [update_frame] (lines 92-144,
      every face compared, no person gate), the shared handlers at
      [X = unit] and [fm_app].
    - [SessionDF]: FaceMatching-UsingDeepface.py: its own globals
      ([reference_set], no encoding) as [DFState], its five handlers
      (capture with [os.path.exists], upload with [cv2.imread] and
      [cv2.imwrite] inside [try], [update_frame] writing
      [live_frame.jpg] and catching every model exception) and
      [df_app].
    - [Mainloop]: [window.mainloop()] itself as an interaction tree
      (ITree's [iter] over the visible event [NextEvent st]: the window
      shows [st] and waits), of result type [void], with [feed], which
      observes it against a finite list of events.
    - [Engine]: the engine state machine of spec sections 4.2-4.3
      (phases [Idle], [Ready] for ReferenceReady and the re-entrant
      Stopped, [Running], with the enrolled identity) as a labelled
      relation [engine_step], the abstraction of each variant's state
      into it, and the refinement theorems.

    ** What the theorems show

    - Decision: the person-count gate of FinalProject.py is exhaustive
      and dominant (0 persons: "No person detected"; more than one:
      "More than one person detected!", no verdict; one person: the
      verdict of the embedding test on the first face, or "No face
      detected"); the error paths ([TypeError] without a reference).
      With a reference of the right shape the only exception left is
      that [TypeError].  FaceMatching.py's face loop equals comparing
      every face in order and keeping the last verdict
      ([label_faces_last_verdict] against the reference semantics
      [verify_all]); the DeepFace variant turns every exception into
      "Error in recognition".
    - Distance: [match and face_distance < 0.6] equals the single
      strict test (the [compare_faces] call is redundant); the rational
      comparisons decide the real ones ([dist_lt_sqrt]); reflexivity,
      symmetry, threshold monotonicity, [TypeError] and [ValueError].
    - Cadence: YOLO runs exactly once in every window of five processed
      frames; the cached count gating a frame comes from one of the
      last five frames of the run, or from before the run.
    - TkLoop: [dispatch] and [step] describe the same transitions;
      the reflexive-transitive closure [steps] of [step] and
      [run_events] on event lists describe the same runs
      ([steps_iff_run_events], a lemma); [run_events] stays among the reachable
      states; a relation respected by every callback is a
      bisimulation of the loop.
    - Mainloop (model lemmas, not properties of the program): the
      interaction tree of [window.mainloop()] agrees with the finite
      loop: fed [evs] it shows [run_events evs] once the fuel exceeds
      [2 * length evs], and not before ([feed_mainloop_iff]), so the
      states it shows are the reachable states the invariants are
      proved of.
    - Files (model lemmas): the list of writes is a map up to
      [fs_equiv]; capture, upload and the whole loops of the three
      variants respect it ([run_events_files_equiv] and its FM and DF
      counterparts), so representing the disk by its history adds no
      behaviour.
    - Engine: every event of each variant's loop is a step of the
      spec's state machine on the abstract states, except the
      departures the theorems list: enrollment during a session (no
      [EngineBusy]) and Start during a session for every variant, and,
      for the embedding variants only, an enrollment that leaves no
      reference.
    - Handlers and Session (FinalProject.py): the exact effect of a
      processed frame; an invariant of all reachable states (no
      running loop or pending timer without a capture object) by rule
      induction; the shape of the reference in every reachable state
      (a lemma, [embedding_reachable_reference_wf]), from which,
      composing Encode, Distance, Decision and Session, a frame read on
      a reachable state ends the loop only when no reference is set
      ([reachable_loop_ends_only_without_reference]); with Start
      pressed only when no timer is pending at most one loop exists; timers after Stop are inert; the
      recognition loop terminates on a finite camera stream; the
      capture round trip (the frame shown when 'c' is pressed is
      written, read back and encoded).  The defects are stated for every
      state where they arise: Start adds a timer whatever is pending
      ([start_adds_timer], so a double Start or a quick Stop/Start
      leaves two loops), a failed read or an exception ends the loop
      while [running] stays true, a failed upload clears the
      reference, a failed capture re-encodes a stale [reference.jpg],
      a frame between detections is gated by the cached count whatever
      persons it shows ([cached_count_gates_frame]), and the count
      survives Stop/Start ([restart_keeps_cached_count]).
    - SessionFM: the effect of a frame (the last face's verdict), the
      cleared label on a frame without a face, the loop's end at the
      first frame with a face when no reference is set; the loop theorems of
      [Handlers] through [UpdateFrameLaws].
    - SessionDF: every frame read is labelled and rescheduled, model
      errors included; the upload round trip through [reference.jpg]
      into [DeepFace.verify]; undecodable uploads are refused without
      effect; an invariant ([reference_set] only with a
      [reference.jpg] on disk, no loop without a capture object); the
      loop terminates; the defects: a failed capture reported as
      captured from a stale file, a face-less upload accepted.
    - Encode: preprocessing keeps the frame's shape; [encode_face] is
      [None] exactly when no face is located, and its encodings have
      128 components.
    - The capture key: [cv2.waitKey(1) & 0xFF == ord('c')] is written
      with [Z.land] on the key code, so a 'c' with modifier bits in the
      high bytes captures and [-1] (no key) does not.

    ** Bounds, fuel and constants

    Only [feed], the observer of the interaction tree of
    [window.mainloop()], takes fuel: the tree makes one visible step
    (the wait) and one silent step (the iteration) per event, so
    [2 * length evs + 1] is enough, and [feed_mainloop_iff] shows it is
    also needed.  No other definition needs fuel: the capture loop is structural on the
    camera stream (a finite list of frames, [None] for a failed read,
    the end of the list for a device that stops delivering), and the
    event loop is a relation, or [run_events] on a finite list of
    events.  The [update_frame] loop, which Tk keeps alive through its
    timer, is shown to end: with [k] more expiries than the frames the
    camera has left no timer remains ([timer_chain_ends], measure: the
    length of the camera stream).  The constants are the source's: 5
    for the YOLO cadence, 0.3 for its confidence, 0.6 for
    [compare_faces]' tolerance and for the literal threshold, 128
    encoding components.  Python integers are unbounded, so counters
    are [nat].

    ** What is not modelled

    Each handler runs atomically between two events.  In Tk the modal
    dialogs the handlers open ([messagebox.showinfo] at lines 45 and
    59, [filedialog.askopenfilename] at line 72, [messagebox.showerror]
    at line 88 of FinalProject.py, and their counterparts in the other
    scripts) run a nested event loop, in which a pending
    [update_frame] timer can fire before the handler resumes; the
    model runs the handler to its end before the next event, so the
    interleavings inside a dialog are not covered.

    The collaborators' internals: OpenCV's image operations,
    face_recognition's detector and dlib descriptor, YOLO and DeepFace
    are libraries outside the repository, which spec section 1 treats
    as black boxes; they are type classes with the contracts of spec
    section 6 (the components listed as partly modelled), discharged
    by the synthetic instance of [Vision] so that the contracts are
    known to be consistent.

    The module-level GUI set-up (the [import]s, [tk.Tk()], the window
    title and geometry, the [tk.Label] and [tk.Frame] widgets and their
    packing: lines 1-8 and 18-29 of FinalProject.py, 15-26 of
    FaceMatching.py, 15-26 of the DeepFace variant) has no state the
    handlers read.  Pixel drawing ([cv2.rectangle], [cv2.putText]), with
    the doubling of the face box coordinates before it (FaceMatching.py
    lines 126-129, FinalProject.py lines 146-150), is the overlay
    drawing that spec section 1 leaves to the rendering collaborator;
    the drawing only changes the frame that is shown, after the frame
    was classified and written.  Tk widgets other
    than the text and colour of [result_label] and the frame shown,
    message boxes (no effect on the state), and the numerical internals
    of the vision models, which are abstract functions constrained
    only by their contracts.  Floating-point rounding is not modelled:
    encodings are exact rationals and distances exact reals.  Image
    files keep the picture they were written with (the JPEG codec and
    the BGR/RGB channel order are not modelled); [cv2.imwrite] is
    assumed to succeed, so the [except] branch of the DeepFace upload,
    which only shows a message box, is modelled but never taken.
*)

From Stdlib Require Import List Arith Lia.
Import ListNotations.

(** Exceptions that the modelled Python code can raise.  Each names
    the Python exception and the statement that raises it. *)
Inductive exn : Type :=
| TypeError
    (** [np.array([None]) - encoding] in [face_distance] when
        [reference_encoding] is [None] *)
| ValueError
    (** numpy broadcasting of two encodings of different lengths *)
| FileNotFoundError
    (** [face_recognition.load_image_file] on a path with no file *)
| UnidentifiedImageError
    (** PIL cannot decode the selected file *)
| IndexError
    (** [xs[0]] on an empty list *)
| AttributeError
    (** [video_capture.read()] while [video_capture] is [None] *)
| LibraryError.
    (** any exception raised inside an external model call *)

(** The result of a pure Python expression: a value or an exception. *)
Inductive outcome (A : Type) : Type :=
| Normal (a : A)
| Raised (e : exn).
Arguments Normal {A} a.
Arguments Raised {A} e.

Definition obind {A B : Type} (o : outcome A) (k : A -> outcome B) : outcome B :=
  match o with
  | Normal a => k a
  | Raised e => Raised e
  end.

Definition omap {A B : Type} (f : A -> B) (o : outcome A) : outcome B :=
  obind o (fun a => Normal (f a)).

(** A statement sequence of a Python function that reads and writes
    module globals of type [S] and may raise: the state reached at the
    point of the exception is kept, as in Python. *)
Definition PyM (S A : Type) : Type := S -> outcome A * S.

Definition py_ret {S A : Type} (a : A) : PyM S A := fun s => (Normal a, s).

Definition py_bind {S A B : Type} (m : PyM S A) (k : A -> PyM S B) : PyM S B :=
  fun s =>
    match m s with
    | (Normal a, s') => k a s'
    | (Raised e, s') => (Raised e, s')
    end.

Definition py_get {S : Type} : PyM S S := fun s => (Normal s, s).

Definition py_modify {S : Type} (f : S -> S) : PyM S unit := fun s => (Normal tt, f s).

Definition py_lift {S A : Type} (o : outcome A) : PyM S A := fun s => (o, s).

Definition py_when {S : Type} (b : bool) (m : PyM S unit) : PyM S unit :=
  if b then m else py_ret tt.

(** [try: m except: h]: the handler runs in the state the exception
    left behind. *)
Definition py_try {S A : Type} (m : PyM S A) (h : exn -> PyM S A) : PyM S A :=
  fun s =>
    match m s with
    | (Raised e, s') => h e s'
    | r => r
    end.

(** Run a handler for its effect on the state: this is what Tk does
    with a callback, whose exception it prints and discards. *)
Definition py_exec {S A : Type} (m : PyM S A) (s : S) : S := snd (m s).

Declare Scope py_scope.
Delimit Scope py_scope with py.
Notation "x <- m ;; k" := (py_bind m (fun x => k))
  (at level 100, m at next level, k at level 200, right associativity) : py_scope.
Notation "m ;; k" := (py_bind m (fun _ => k))
  (at level 100, k at level 200, right associativity) : py_scope.
Notation "'let?' x ':=' o 'in' k" := (obind o (fun x => k))
  (at level 10, x name, o at level 100, k at level 200) : py_scope.

(** ** Shared lemmas *)

(** A prefix of [seq s l] is a [seq]. *)
Lemma firstn_seq_le (k s l : nat) : k <= l -> firstn k (seq s l) = seq s k.
Proof.
  revert s l. induction k as [|k IH]; intros s [|l] Hk; cbn; try reflexivity; [lia|].
  f_equal. apply IH. lia.
Qed.

Lemma map_seq_offset {A : Type} (f : nat -> A) (i k : nat) :
  map f (seq i k) = map (fun j => f (i + j)) (seq 0 k).
Proof.
  revert f i. induction k as [|k IH]; intros f i; cbn; [reflexivity|].
  rewrite Nat.add_0_r. f_equal.
  rewrite (IH f (S i)), (IH (fun j => f (i + j)) 1).
  apply map_ext. intros j. f_equal. lia.
Qed.

(** The last element of a list with a head is the last element of its
    tail, with the head as the default. *)
Lemma last_cons_default {A : Type} (x d : A) (l : list A) :
  last (x :: l) d = last l x.
Proof.
  revert x. induction l as [|y l IH]; intros x; [reflexivity|].
  cbn [last]. destruct l; [reflexivity|]. apply IH.
Qed.

(** [n mod m] for consecutive [n] cycles through [0 .. m-1]. *)
Lemma mod_succ_cases (n m : nat) :
  m <> 0 -> S n mod m = 0 \/ S n mod m = S (n mod m).
Proof.
  intros Hm.
  destruct (Nat.eq_dec (S (n mod m)) m) as [E|E].
  - left. replace (S n) with (S (n mod m) + (n / m) * m)
      by (pose proof (Nat.div_mod_eq n m); lia).
    rewrite Nat.Div0.mod_add, E. apply Nat.Div0.mod_same.
  - right. replace (S n) with (S (n mod m) + (n / m) * m)
      by (pose proof (Nat.div_mod_eq n m); lia).
    rewrite Nat.Div0.mod_add. apply Nat.mod_small.
    pose proof (Nat.mod_upper_bound n m Hm). lia.
Qed.

(** Automation of the development: the order lemmas on distances and
    thresholds are registered here by the files that prove them. *)
Create HintDb facematch discriminated.

(** Equations of the file system and of the handlers, for [autorewrite]. *)
Create Rewrite HintDb facematch_rw.

(** Unfold the monad and reduce a handler applied to a state. *)
Ltac py_unfold :=
  unfold py_exec, py_bind, py_ret, py_get, py_modify, py_lift, py_when, py_try in *;
  cbn in *.

(** Close a conjunction of equations and bounds on the fields of a
    state. *)
Ltac solve_frame := repeat split; intros; (reflexivity || lia || congruence).

(** Case on the first [outcome] the goal matches on. *)
Ltac destruct_outcome :=
  match goal with
  | |- context [match ?o with Normal _ => _ | Raised _ => _ end] => destruct o
  end.
