(* ===== verification/Vision.v ===== *)
(** * Vision: the external collaborators of the application

    The three scripts call OpenCV, face_recognition, ultralytics' YOLO
    and DeepFace.  None of that code is in the repository: each library
    is a type class over the image type, holding the functions the
    scripts call, and a second class holds the contract of spec
    section 6 that the development relies on.  The file system the
    scripts read and write ([reference.jpg], [live_frame.jpg], the
    uploaded file) is the list of the writes, newest first, read as a
    map from paths to files: [fs_equiv] identifies two lists whose
    paths hold the same files, and every file operation is [Proper]
    for it.  A synthetic instance
    at the end, whose frames carry their faces and persons, lets the
    witnesses of the other files compute. *)

From Stdlib Require Import List QArith String.
From stdpp Require Import base list.
From S2P Require Import Prelude.
Import ListNotations.

(** A face box as face_recognition returns it: [(top, right, bottom, left)]. *)
Record Location : Type := mkLocation {
  loc_top : nat;
  loc_right : nat;
  loc_bottom : nat;
  loc_left : nat
}.

(** A face encoding: the 128 floats of a dlib descriptor, as rationals. *)
Definition Encoding : Type := list Q.

Definition encoding_dim : nat := 128.

(** The [cv2.cvtColor] codes the scripts use. *)
Inductive ColorConversion : Type :=
| COLOR_RGB2GRAY
| COLOR_GRAY2RGB
| COLOR_BGR2RGB.

(** A YOLO box of class 0 ("person"): corners and confidence. *)
Record PersonBox : Type := mkPersonBox {
  box_xyxy : nat * nat * nat * nat;
  box_conf : Q
}.

(** The OpenCV functions of the scripts, and numpy's [.shape]
    (rows, columns, channels). *)
Class OpenCV (Image : Type) : Type := {
  cvtColor : Image -> ColorConversion -> Image;
  equalizeHist : Image -> Image;
  bilateralFilter : Image -> nat -> nat -> nat -> Image;
  resize : Image -> Q -> Q -> Image;
  img_shape : Image -> nat * nat * nat
}.

(** The face_recognition functions.  [face_encodings img locs] returns
    one encoding per location. *)
Class FaceRecognition (Image : Type) : Type := {
  face_locations : Image -> list Location;
  face_encodings : Image -> list Location -> list Encoding
}.

(** [yolo_model.predict(source=frame, conf=c, classes=[0])]: one result
    per source image, each a list of person boxes. *)
Class PersonDetector (Image : Type) : Type := {
  predict : Image -> Q -> list (list PersonBox)
}.

(** [DeepFace.verify(img1, img2, model_name="Facenet",
    enforce_detection=False)], reduced to its ["verified"] field; it
    may raise. *)
Class DeepFaceModel (Image : Type) : Type := {
  deepface_verify : Image -> Image -> outcome bool
}.

(** The contracts of spec sections 4.1 and 6 on the collaborators. *)
Class VisionLaws (Image : Type) `{OpenCV Image} `{FaceRecognition Image} : Prop := {
  rgb2gray_shape : forall img h w,
    img_shape img = (h, w, 3) -> img_shape (cvtColor img COLOR_RGB2GRAY) = (h, w, 1);
  gray2rgb_shape : forall img h w,
    img_shape img = (h, w, 1) -> img_shape (cvtColor img COLOR_GRAY2RGB) = (h, w, 3);
  equalizeHist_shape : forall img, img_shape (equalizeHist img) = img_shape img;
  bilateralFilter_shape : forall img d sc ss,
    img_shape (bilateralFilter img d sc ss) = img_shape img;
  face_encodings_length : forall img locs,
    length (face_encodings img locs) = length locs;
  face_encodings_dim : forall img locs e,
    In e (face_encodings img locs) -> length e = encoding_dim
}.

(** [predict] on one frame returns one result. *)
Class DetectorLaws (Image : Type) `{PersonDetector Image} : Prop := {
  predict_one_result : forall img conf, length (predict img conf) = 1
}.

(** A file on disk: a picture, or bytes that do not decode. *)
Inductive FileData (Image : Type) : Type :=
| Picture (img : Image)
| NotAnImage.
Arguments Picture {Image} img.
Arguments NotAnImage {Image}.

(** The file system, as the list of the files written, newest first. *)
Definition FileSystem (Image : Type) : Type := list (string * FileData Image).

Definition fs_lookup {Image : Type} (fs : FileSystem Image) (path : string)
  : option (FileData Image) :=
  match find (fun pf => String.eqb (fst pf) path) fs with
  | Some (_, d) => Some d
  | None => None
  end.

(** [cv2.imwrite(path, img)] *)
Definition imwrite {Image : Type} (fs : FileSystem Image) (path : string) (img : Image)
  : FileSystem Image :=
  (path, Picture img) :: fs.

(** [face_recognition.load_image_file(path)]: PIL raises when the file
    is missing or does not decode. *)
Definition load_image_file {Image : Type} (fs : FileSystem Image) (path : string)
  : outcome Image :=
  match fs_lookup fs path with
  | None => Raised FileNotFoundError
  | Some NotAnImage => Raised UnidentifiedImageError
  | Some (Picture img) => Normal img
  end.

(** [cv2.imread(path)] returns [None] instead of raising. *)
Definition imread {Image : Type} (fs : FileSystem Image) (path : string) : option Image :=
  match fs_lookup fs path with
  | Some (Picture img) => Some img
  | _ => None
  end.

(** [os.path.exists(path)] *)
Definition path_exists {Image : Type} (fs : FileSystem Image) (path : string) : bool :=
  match fs_lookup fs path with
  | Some _ => true
  | None => false
  end.

(** Two file systems are equivalent when every path holds the same
    file: the list of writes is a history, and what the program sees of
    it is the last write of each path. *)
Definition fs_equiv {Image : Type} (fs1 fs2 : FileSystem Image) : Prop :=
  forall path, fs_lookup fs1 path = fs_lookup fs2 path.

#[export] Instance Location_eq_dec : EqDecision Location.
Proof. solve_decision. Defined.

(** ** A synthetic instance

    A frame that carries its own ground truth: its shape, the faces in
    it with their encodings and the persons a detector finds.  The
    OpenCV functions change the shape as the real ones do and keep the
    content; [face_encodings] looks the location up and fits the
    encoding to 128 components. *)
Record SynthFrame : Type := mkSynthFrame {
  sf_rows : nat;
  sf_cols : nat;
  sf_channels : nat;
  sf_faces : list (Location * Encoding);
  sf_persons : list PersonBox
}.

Definition fit_dim (e : Encoding) : Encoding :=
  firstn encoding_dim (e ++ repeat 0%Q encoding_dim).

Definition synth_set_channels (img : SynthFrame) (c : nat) : SynthFrame :=
  mkSynthFrame (sf_rows img) (sf_cols img) c (sf_faces img) (sf_persons img).

Definition synth_cvtColor (img : SynthFrame) (code : ColorConversion) : SynthFrame :=
  match code with
  | COLOR_RGB2GRAY => synth_set_channels img 1
  | COLOR_GRAY2RGB => synth_set_channels img 3
  | COLOR_BGR2RGB => img
  end.

#[export] Instance synth_opencv : OpenCV SynthFrame := {
  cvtColor := synth_cvtColor;
  equalizeHist := fun img => img;
  bilateralFilter := fun img _ _ _ => img;
  resize := fun img _ _ => img;
  img_shape := fun img => (sf_rows img, sf_cols img, sf_channels img)
}.

Definition synth_encoding_at (img : SynthFrame) (l : Location) : Encoding :=
  match find (fun fe => bool_decide (fst fe = l)) (sf_faces img) with
  | Some (_, e) => fit_dim e
  | None => repeat 0%Q encoding_dim
  end.

#[export] Instance synth_face_recognition : FaceRecognition SynthFrame := {
  face_locations := fun img => map fst (sf_faces img);
  face_encodings := fun img locs => map (synth_encoding_at img) locs
}.

#[export] Instance synth_detector : PersonDetector SynthFrame := {
  predict := fun img c => [filter (fun b => Qle_bool c (box_conf b)) (sf_persons img)]
}.

(** DeepFace on synthetic frames: a frame with no rows makes the model
    raise; otherwise the first faces are compared (with
    [enforce_detection=False], a frame without a face is not
    verified). *)
Definition synth_same_face (e1 e2 : Encoding) : bool :=
  Nat.eqb (length e1) (length e2) && forallb (fun ab => Qeq_bool (fst ab) (snd ab)) (combine e1 e2).

Definition synth_verify (img1 img2 : SynthFrame) : outcome bool :=
  if Nat.eqb (sf_rows img1) 0 || Nat.eqb (sf_rows img2) 0 then Raised LibraryError else
  match sf_faces img1, sf_faces img2 with
  | (_, e1) :: _, (_, e2) :: _ => Normal (synth_same_face e1 e2)
  | _, _ => Normal false
  end.

#[export] Instance synth_deepface : DeepFaceModel SynthFrame := {
  deepface_verify := synth_verify
}.

Lemma fit_dim_length (e : Encoding) : length (fit_dim e) = encoding_dim.
Proof.
  unfold fit_dim. rewrite length_firstn, length_app, repeat_length. lia.
Qed.

Lemma synth_encoding_at_length img l : length (synth_encoding_at img l) = encoding_dim.
Proof.
  unfold synth_encoding_at.
  destruct (find _ _) as [[? e]|]; [apply fit_dim_length | apply repeat_length].
Qed.

#[export] Instance synth_vision_laws : VisionLaws SynthFrame.
Proof.
  split; cbn.
  - intros img h w [= <- <- _]. reflexivity.
  - intros img h w [= <- <- _]. reflexivity.
  - reflexivity.
  - reflexivity.
  - intros img locs. apply length_map.
  - intros img locs e (l & <- & _)%in_map_iff. apply synth_encoding_at_length.
Qed.

#[export] Instance synth_detector_laws : DetectorLaws SynthFrame.
Proof. split. reflexivity. Qed.

(** ** Files written and read back *)

Lemma fs_lookup_imwrite {Image : Type} (fs : FileSystem Image) (path : string) (img : Image) :
  fs_lookup (imwrite fs path img) path = Some (Picture img).
Proof. unfold fs_lookup, imwrite. cbn. rewrite String.eqb_refl. reflexivity. Qed.

Lemma fs_lookup_imwrite_other {Image : Type} (fs : FileSystem Image) (p q : string) (img : Image) :
  p <> q -> fs_lookup (imwrite fs p img) q = fs_lookup fs q.
Proof.
  intros Hpq. unfold fs_lookup, imwrite. cbn.
  destruct (String.eqb_spec p q) as [E|_]; [contradiction|reflexivity].
Qed.

Lemma load_image_file_imwrite {Image : Type} (fs : FileSystem Image) (path : string) (img : Image) :
  load_image_file (imwrite fs path img) path = Normal img.
Proof. unfold load_image_file. rewrite fs_lookup_imwrite. reflexivity. Qed.

Lemma imread_imwrite {Image : Type} (fs : FileSystem Image) (path : string) (img : Image) :
  imread (imwrite fs path img) path = Some img.
Proof. unfold imread. rewrite fs_lookup_imwrite. reflexivity. Qed.

Lemma imread_imwrite_other {Image : Type} (fs : FileSystem Image) (p q : string) (img : Image) :
  p <> q -> imread (imwrite fs p img) q = imread fs q.
Proof. intros Hpq. unfold imread. rewrite fs_lookup_imwrite_other by exact Hpq. reflexivity. Qed.

Lemma path_exists_imwrite {Image : Type} (fs : FileSystem Image) (path : string) (img : Image) :
  path_exists (imwrite fs path img) path = true.
Proof. unfold path_exists. rewrite fs_lookup_imwrite. reflexivity. Qed.

Lemma path_exists_imwrite_mono {Image : Type} (fs : FileSystem Image) (p q : string) (img : Image) :
  path_exists fs p = true -> path_exists (imwrite fs q img) p = true.
Proof.
  intros He. destruct (String.eqb_spec q p) as [<-|Hqp]; [apply path_exists_imwrite|].
  unfold path_exists in *. rewrite fs_lookup_imwrite_other by exact Hqp. exact He.
Qed.

#[export] Hint Rewrite @fs_lookup_imwrite @load_image_file_imwrite @imread_imwrite
  @path_exists_imwrite : facematch_rw.

(** ** The file system up to equivalence

    [fs_equiv] is an equivalence, every file operation respects it, and
    a write hides the earlier writes of its path: these instances let
    [rewrite] replace a file system by an equivalent one under the
    reads of the handlers. *)

#[export] Instance fs_equiv_equivalence {Image : Type} : Equivalence (@fs_equiv Image).
Proof. split; [intros fs p | intros fs1 fs2 H p | intros fs1 fs2 fs3 H1 H2 p]; congruence. Qed.

#[export] Instance fs_lookup_proper {Image : Type} :
  Proper (fs_equiv ==> eq ==> eq) (@fs_lookup Image).
Proof. intros fs1 fs2 Hfs p ? <-. apply Hfs. Qed.

#[export] Instance imwrite_proper {Image : Type} :
  Proper (fs_equiv ==> eq ==> eq ==> fs_equiv) (@imwrite Image).
Proof.
  intros fs1 fs2 Hfs p ? <- img ? <- q. unfold fs_lookup, imwrite. cbn.
  destruct (String.eqb p q); [reflexivity | apply Hfs].
Qed.

#[export] Instance load_image_file_proper {Image : Type} :
  Proper (fs_equiv ==> eq ==> eq) (@load_image_file Image).
Proof. intros fs1 fs2 Hfs p ? <-. unfold load_image_file. rewrite Hfs. reflexivity. Qed.

#[export] Instance imread_proper {Image : Type} :
  Proper (fs_equiv ==> eq ==> eq) (@imread Image).
Proof. intros fs1 fs2 Hfs p ? <-. unfold imread. rewrite Hfs. reflexivity. Qed.

#[export] Instance path_exists_proper {Image : Type} :
  Proper (fs_equiv ==> eq ==> eq) (@path_exists Image).
Proof. intros fs1 fs2 Hfs p ? <-. unfold path_exists. rewrite Hfs. reflexivity. Qed.

(** Writing a path twice leaves what writing it once with the second
    picture leaves. *)
Lemma imwrite_imwrite_same {Image : Type} (fs : FileSystem Image) (path : string) (a b : Image) :
  fs_equiv (imwrite (imwrite fs path a) path b) (imwrite fs path b).
Proof.
  intros q. unfold fs_lookup, imwrite. cbn. destruct (String.eqb path q); reflexivity.
Qed.
