(* ===== verification/Distance.v ===== *)
(** * Distance: face_recognition's distance and the match test

    [face_recognition.face_distance(known, e)] is
    [np.linalg.norm(known - e, axis=1)] and [compare_faces(known, e,
    tolerance=0.6)] is [face_distance(known, e) <= tolerance].  The
    distance [sqrt s] is kept as its square [s], a rational, so that
    comparing it with a rational threshold computes ([dist_lt],
    [dist_le]); [dist_value] is the real number it stands for, and the
    refinement lemmas [dist_lt_sqrt] and [dist_le_spec] relate the two.
    Calling [face_distance] with [[None]] (no reference) raises
    [TypeError]; vectors that numpy cannot broadcast raise [ValueError].

    [same_person_test_at] is the test of FinalProject.py lines 132-135
    (and FaceMatching.py lines 112-117): [match and face_distance < thr]. *)

From Stdlib Require Import List QArith Qpower Qreals Reals Lra Lia SetoidList Morphisms.
From S2P Require Import Prelude Vision.
Import ListNotations.

Local Open Scope py_scope.
Local Open Scope Q_scope.

(** [sum((a - b) ** 2)]: the squared Euclidean norm of [a - b]. *)
Fixpoint sq_norm_diff (a b : Encoding) : Q :=
  match a, b with
  | x :: a', y :: b' => (x - y) * (x - y) + sq_norm_diff a' b'
  | _, _ => 0
  end.

(** A non-negative float produced by [np.linalg.norm], represented by
    its square. *)
Record Distance : Type := mkDistance { dist_sq : Q }.

Definition dist_value (d : Distance) : R := sqrt (Q2R (dist_sq d)).

(** The real Euclidean distance of two encodings. *)
Definition euclidean_distance (a b : Encoding) : R := sqrt (Q2R (sq_norm_diff a b)).

Definition Qltb (x y : Q) : bool :=
  match Qcompare x y with Lt => true | _ => false end.

(** [d < t] for a distance and a rational threshold. *)
Definition dist_lt (d : Distance) (t : Q) : bool :=
  Qltb 0 t && Qltb (dist_sq d) (t * t).

(** [d <= t] *)
Definition dist_le (d : Distance) (t : Q) : bool :=
  Qle_bool 0 t && Qle_bool (dist_sq d) (t * t).

(** [sum((k - e) ** 2)] for a row [k] of [face_encodings] after numpy
    broadcasting: equal lengths subtract componentwise, a row or a probe
    of length 1 is repeated, any other pair does not broadcast. *)
Definition broadcast_sq_norm_diff (k e : Encoding) : option Q :=
  if Nat.eqb (length k) (length e) then Some (sq_norm_diff k e)
  else match k, e with
       | [x], _ => Some (sq_norm_diff (repeat x (length e)) e)
       | _, [y] => Some (sq_norm_diff k (repeat y (length k)))
       | _, _ => None
       end.

(** One row of [np.linalg.norm(face_encodings - face_to_compare, axis=1)]:
    [None - float] raises [TypeError], shapes that do not broadcast
    raise [ValueError]. *)
Definition row_distance (known : option Encoding) (e : Encoding) : outcome Distance :=
  match known with
  | None => Raised TypeError
  | Some k =>
      match broadcast_sq_norm_diff k e with
      | Some s => Normal (mkDistance s)
      | None => Raised ValueError
      end
  end.

Fixpoint rows_distance (known : list (option Encoding)) (e : Encoding)
  : outcome (list Distance) :=
  match known with
  | [] => Normal []
  | k :: ks =>
      let? d := row_distance k e in
      let? ds := rows_distance ks e in
      Normal (d :: ds)
  end.

(** [face_distance(face_encodings, face_to_compare)]: an empty list of
    known encodings gives [np.empty((0))]. *)
Definition face_distance (known : list (option Encoding)) (e : Encoding)
  : outcome (list Distance) :=
  match known with
  | [] => Normal []
  | _ => rows_distance known e
  end.

(** The default tolerance of [compare_faces]. *)
Definition compare_faces_tolerance : Q := 6 # 10.

(** [compare_faces(known_face_encodings, face_encoding_to_check, tolerance=0.6)] *)
Definition compare_faces (known : list (option Encoding)) (e : Encoding) (tolerance : Q)
  : outcome (list bool) :=
  omap (map (fun d => dist_le d tolerance)) (face_distance known e).

(** The literal threshold [0.6] of [face_distance < 0.6]. *)
Definition match_threshold : Q := 6 # 10.

(** [face_distance = face_distance([ref], enc)[0];
     match = compare_faces([ref], enc)[0];
     match and face_distance < thr] *)
Definition same_person_test_at (thr : Q) (ref : option Encoding) (e : Encoding)
  : outcome bool :=
  let? ds := face_distance [ref] e in
  let? ms := compare_faces [ref] e compare_faces_tolerance in
  match ds, ms with
  | d :: _, m :: _ => Normal (m && dist_lt d thr)
  | _, _ => Raised IndexError
  end.

Definition same_person_test : option Encoding -> Encoding -> outcome bool :=
  same_person_test_at match_threshold.

(** ** Helper lemmas *)

Lemma Qltb_spec (x y : Q) : Qltb x y = true <-> x < y.
Proof.
  unfold Qltb. rewrite Qlt_alt. destruct (x ?= y); split; congruence.
Qed.

Lemma sqrt_lt_iff (x y : R) : (0 < y)%R -> (sqrt x < y <-> x < y * y)%R.
Proof.
  intros Hy. destruct (Rlt_or_le x 0) as [Hx|Hx].
  - rewrite (sqrt_neg_0 x) by lra. split; intros; nra.
  - rewrite <- (sqrt_square y) at 1 by lra. split; intros H.
    + apply sqrt_lt_0_alt. exact H.
    + apply sqrt_lt_1_alt. lra.
Qed.

Lemma sqrt_le_iff (x y : R) : (0 <= y)%R -> (sqrt x <= y <-> x <= y * y)%R.
Proof.
  intros Hy. destruct (Rlt_or_le x 0) as [Hx|Hx].
  - rewrite (sqrt_neg_0 x) by lra. split; intros; nra.
  - rewrite <- (sqrt_square y) at 1 by lra. split; intros H.
    + apply sqrt_le_0; nra.
    + apply sqrt_le_1_alt. exact H.
Qed.

Lemma sq_norm_diff_nonneg (a b : Encoding) : 0 <= sq_norm_diff a b.
Proof.
  revert b. induction a as [|x a IH]; intros [|y b]; cbn; try apply Qle_refl.
  specialize (IH b). pose proof (Qsqr_nonneg (x - y)) as Hs. cbn in Hs.
  apply Qle_trans with (0 + 0); [apply Qle_refl | apply Qplus_le_compat; assumption].
Qed.

Lemma sq_norm_diff_refl (a : Encoding) : sq_norm_diff a a == 0.
Proof. induction a as [|x a IH]; cbn; [reflexivity|]. rewrite IH. ring. Qed.

Lemma sq_norm_diff_sym (a b : Encoding) : sq_norm_diff a b == sq_norm_diff b a.
Proof.
  revert b. induction a as [|x a IH]; intros [|y b]; cbn; try reflexivity.
  rewrite IH. ring.
Qed.

#[export] Instance sq_norm_diff_proper :
  Proper (eqlistA Qeq ==> eqlistA Qeq ==> Qeq) sq_norm_diff.
Proof.
  intros a a' Ha. induction Ha as [|x x' a a' Hx Ha IH]; intros b b' Hb.
  - destruct Hb; reflexivity.
  - destruct Hb as [|y y' b b' Hy Hb]; [reflexivity|]. cbn.
    rewrite Hx, Hy, (IH _ _ Hb). reflexivity.
Qed.

(** Broadcasting is symmetric: both orders fail, or both give the same
    squared norm. *)
Lemma broadcast_sq_norm_diff_sym (k e : Encoding) :
  (broadcast_sq_norm_diff k e = None /\ broadcast_sq_norm_diff e k = None) \/
  exists s s', broadcast_sq_norm_diff k e = Some s /\ broadcast_sq_norm_diff e k = Some s' /\
               s == s'.
Proof.
  unfold broadcast_sq_norm_diff. rewrite Nat.eqb_sym.
  destruct (Nat.eqb (length e) (length k)).
  - right. do 2 eexists. split; [reflexivity|]. split; [reflexivity|]. apply sq_norm_diff_sym.
  - destruct k as [|x [|x' k]], e as [|y [|y' e]];
      first [ left; split; reflexivity
            | right; do 2 eexists; split; [reflexivity|]; split; [reflexivity|];
              apply sq_norm_diff_sym ].
Qed.

Lemma Qltb_compat (x x' y y' : Q) : x == x' -> y == y' -> Qltb x y = Qltb x' y'.
Proof.
  intros Hx Hy. apply Bool.eq_iff_eq_true. rewrite !Qltb_spec, Hx, Hy. reflexivity.
Qed.

Lemma Qle_bool_compat (x x' y y' : Q) : x == x' -> y == y' -> Qle_bool x y = Qle_bool x' y'.
Proof.
  intros Hx Hy. apply Bool.eq_iff_eq_true. rewrite !Qle_bool_iff, Hx, Hy. reflexivity.
Qed.

Lemma Q2R_sq (t : Q) : Q2R (t * t) = (Q2R t * Q2R t)%R.
Proof. apply Q2R_mult. Qed.

#[export] Hint Resolve sq_norm_diff_nonneg : facematch.

(** [same_person_test_at] computes one row distance and compares it
    twice: the [compare_faces] call reuses the same distance. *)
Lemma same_person_test_at_eq (thr : Q) (ref : option Encoding) (e : Encoding) :
  same_person_test_at thr ref e =
  let? d := row_distance ref e in
  Normal (dist_le d compare_faces_tolerance && dist_lt d thr).
Proof.
  unfold same_person_test_at, compare_faces, face_distance, omap.
  destruct ref as [r|]; [|reflexivity]. cbn.
  destruct (broadcast_sq_norm_diff r e); reflexivity.
Qed.

Lemma row_distance_some (r e : Encoding) :
  length r = length e -> row_distance (Some r) e = Normal (mkDistance (sq_norm_diff r e)).
Proof. intros H. cbn. unfold broadcast_sq_norm_diff. rewrite H, Nat.eqb_refl. reflexivity. Qed.

Lemma Q2R_pos (t : Q) : 0 < t -> (0 < Q2R t)%R.
Proof. intros H. apply Qlt_Rlt in H. rewrite RMicromega.Q2R_0 in H. exact H. Qed.

Lemma Q2R_nonpos (t : Q) : t <= 0 -> (Q2R t <= 0)%R.
Proof. intros H. apply Qle_Rle in H. rewrite RMicromega.Q2R_0 in H. exact H. Qed.

Lemma Qsquare_le_mono (a b : Q) : 0 < a -> a <= b -> a * a <= b * b.
Proof.
  intros Ha Hab.
  apply Qmult_le_compat_nonneg; split; (apply Qlt_le_weak; assumption) || assumption.
Qed.

(** A strict comparison at a smaller threshold implies the
    non-strict one at a larger threshold. *)
Lemma dist_lt_le (d : Distance) (t t' : Q) :
  t <= t' -> dist_lt d t = true -> dist_le d t' = true.
Proof.
  unfold dist_lt, dist_le. rewrite !Bool.andb_true_iff, !Qltb_spec, !Qle_bool_iff.
  intros Htt [H0 Hd]. split.
  - apply Qlt_le_weak. apply Qlt_le_trans with t; assumption.
  - apply Qlt_le_weak. apply Qlt_le_trans with (t * t); [assumption|].
    apply Qsquare_le_mono; assumption.
Qed.

(** A distance below a threshold is below every larger one. *)
Lemma dist_lt_mono (d : Distance) (t t' : Q) :
  t <= t' -> dist_lt d t = true -> dist_lt d t' = true.
Proof.
  unfold dist_lt. rewrite !Bool.andb_true_iff, !Qltb_spec.
  intros Htt [H0 Hd]. split.
  - apply Qlt_le_trans with t; assumption.
  - apply Qlt_le_trans with (t * t); [assumption|]. apply Qsquare_le_mono; assumption.
Qed.

#[export] Hint Resolve dist_lt_le dist_lt_mono : facematch.

(** ** Refinement: the rational comparisons decide the real ones *)

(** The real comparison behind [dist_lt]. *)
Lemma dist_lt_sqrt (d : Distance) (t : Q) :
  dist_lt d t = true <-> (dist_value d < Q2R t)%R.
Proof.
  unfold dist_lt, dist_value. rewrite Bool.andb_true_iff, !Qltb_spec.
  destruct (Qlt_le_dec 0 t) as [Ht|Ht].
  - rewrite (sqrt_lt_iff _ _ (Q2R_pos t Ht)), <- Q2R_sq. split.
    + intros [_ H]. now apply Qlt_Rlt.
    + intros H. split; [exact Ht | now apply Rlt_Qlt].
  - apply Q2R_nonpos in Ht. pose proof (sqrt_pos (Q2R (dist_sq d))) as Hs. split.
    + intros [H0 _]. apply Q2R_pos in H0. lra.
    + intros H. lra.
Qed.

(** [dist_le] decides [sqrt s <= t]. *)
Theorem dist_le_spec (d : Distance) (t : Q) :
  dist_le d t = true <-> (dist_value d <= Q2R t)%R.
Proof.
  unfold dist_le, dist_value. rewrite Bool.andb_true_iff, !Qle_bool_iff.
  destruct (Qlt_le_dec t 0) as [Ht|Ht].
  - apply Qlt_Rlt in Ht. rewrite RMicromega.Q2R_0 in Ht.
    pose proof (sqrt_pos (Q2R (dist_sq d))) as Hs. split.
    + intros [H0 _]. apply Qle_Rle in H0. rewrite RMicromega.Q2R_0 in H0. lra.
    + intros H. lra.
  - assert (HtR : (0 <= Q2R t)%R)
      by (apply Qle_Rle in Ht; rewrite RMicromega.Q2R_0 in Ht; exact Ht).
    rewrite (sqrt_le_iff _ _ HtR), <- Q2R_sq. split.
    + intros [_ H]. now apply Qle_Rle.
    + intros H. split; [exact Ht | now apply Rle_Qle].
Qed.

(** ** The match test *)

(** On encodings of equal length, the test at a threshold within the
    tolerance is the strict comparison of the distance. *)
Lemma same_person_test_at_dist (thr : Q) (r e : Encoding) :
  thr <= compare_faces_tolerance -> length r = length e ->
  same_person_test_at thr (Some r) e = Normal (dist_lt (mkDistance (sq_norm_diff r e)) thr).
Proof.
  intros Hthr Hlen. rewrite same_person_test_at_eq. rewrite (row_distance_some r e Hlen). cbn.
  destruct (dist_lt _ thr) eqn:Hlt; [|now rewrite Bool.andb_false_r].
  erewrite dist_lt_le by eauto with facematch. reflexivity.
Qed.

(** C6. Equivalence: as long as the threshold does not exceed the
    tolerance of [compare_faces], the combined test
    [match and face_distance < thr] is the single strict test
    [face_distance < thr]: the [compare_faces] call is redundant. *)
Theorem same_person_test_at_strict (thr : Q) (r e : Encoding) :
  thr <= compare_faces_tolerance -> length r = length e ->
  same_person_test_at thr (Some r) e = Normal (dist_lt (mkDistance (sq_norm_diff r e)) thr).
Proof. exact (same_person_test_at_dist thr r e). Qed.

Lemma same_person_test_at_strict_witness :
  same_person_test_at (1 # 2) (Some [1; 2]) [1; 2] = Normal true.
Proof.
  rewrite same_person_test_at_strict; [reflexivity | discriminate | reflexivity].
Defined.

(** The test against the real Euclidean distance. *)
Lemma same_person_test_real (r e : Encoding) :
  length r = length e ->
  exists b, same_person_test (Some r) e = Normal b /\
            (b = true <-> (euclidean_distance r e < 6 / 10)%R).
Proof.
  intros Hlen. unfold same_person_test.
  rewrite same_person_test_at_dist by (discriminate || exact Hlen).
  eexists. split; [reflexivity|].
  rewrite dist_lt_sqrt. unfold dist_value, euclidean_distance, match_threshold. cbn.
  replace (Q2R (6 # 10)) with (6 / 10)%R by (unfold Q2R; cbn; lra). reflexivity.
Qed.

(** C7. Functional correctness of the test on encodings of equal length:
    it returns normally, and it answers [True] exactly when the real
    Euclidean distance of the two encodings is below 0.6. *)
Theorem same_person_test_correct (r e : Encoding) :
  length r = length e ->
  exists b, same_person_test (Some r) e = Normal b /\
            (b = true <-> (euclidean_distance r e < 6 / 10)%R).
Proof. exact (same_person_test_real r e). Qed.

Lemma same_person_test_correct_witness :
  exists b, same_person_test (Some [1; 2]) [1; 2 + (1 # 5)] = Normal b /\
            (b = true <-> (euclidean_distance [1%Q; 2%Q] [1%Q; (2 + (1 # 5))%Q] < 6 / 10)%R).
Proof. apply same_person_test_correct. reflexivity. Defined.

(** Error path: with no reference encoding ([reference_encoding is
    None]) the test raises [TypeError], whatever the probe. *)
Theorem same_person_test_no_reference (thr : Q) (e : Encoding) :
  same_person_test_at thr None e = Raised TypeError.
Proof. reflexivity. Qed.

(** Error path: encodings of different lengths, neither of length
    1 (which numpy would broadcast), raise [ValueError]. *)
Theorem same_person_test_length_mismatch (thr : Q) (r e : Encoding) :
  length r <> length e -> length r <> 1%nat -> length e <> 1%nat ->
  same_person_test_at thr (Some r) e = Raised ValueError.
Proof.
  intros H H1 H2. rewrite same_person_test_at_eq. cbn. unfold broadcast_sq_norm_diff.
  apply Nat.eqb_neq in H. rewrite H.
  destruct r as [|x [|x' r]]; [| cbn in H1; congruence |];
    (destruct e as [|y [|y' e]]; [reflexivity | cbn in H2; congruence | reflexivity]).
Qed.

Lemma same_person_test_length_mismatch_witness :
  same_person_test_at match_threshold (Some [1; 2]) [1; 2; 3] = Raised ValueError.
Proof. apply same_person_test_length_mismatch; discriminate. Defined.

(** Reflexivity (spec section 8): an encoding matched against itself
    is at distance 0 and is the same person. *)
Theorem same_person_test_refl (e : Encoding) :
  same_person_test (Some e) e = Normal true /\ euclidean_distance e e = 0%R.
Proof.
  split.
  - unfold same_person_test. rewrite same_person_test_at_dist by (discriminate || reflexivity).
    unfold dist_lt. cbn.
    rewrite (Qltb_compat (sq_norm_diff e e) 0 (match_threshold * match_threshold)
               (match_threshold * match_threshold));
      [reflexivity | apply sq_norm_diff_refl | reflexivity].
  - unfold euclidean_distance.
    replace (Q2R (sq_norm_diff e e)) with 0%R; [apply sqrt_0|].
    rewrite <- RMicromega.Q2R_0. apply Qeq_eqR. symmetry. apply sq_norm_diff_refl.
Qed.

(** Threshold monotonicity (spec section 8): whatever is verified
    under a threshold is verified under any larger one. *)
Theorem same_person_test_monotone (thr1 thr2 : Q) (ref : option Encoding) (e : Encoding) :
  thr1 <= thr2 ->
  same_person_test_at thr1 ref e = Normal true ->
  same_person_test_at thr2 ref e = Normal true.
Proof.
  rewrite !same_person_test_at_eq. intros Hthr H.
  destruct (row_distance ref e) as [d|exc]; cbn in *; [|discriminate].
  injection H as H. apply Bool.andb_true_iff in H as [Hle Hlt].
  rewrite Hle. cbn. f_equal. eauto with facematch.
Qed.

Lemma same_person_test_monotone_witness :
  same_person_test_at (7 # 10) (Some [1; 2]) [1; 2 + (1 # 2)] = Normal true.
Proof.
  apply (same_person_test_monotone (6 # 10)); [discriminate | vm_compute; reflexivity].
Defined.

(** The verdict does not depend on which encoding is the reference. *)
Theorem same_person_test_sym (thr : Q) (a b : Encoding) :
  same_person_test_at thr (Some a) b = same_person_test_at thr (Some b) a.
Proof.
  rewrite !same_person_test_at_eq. cbn.
  destruct (broadcast_sq_norm_diff_sym a b) as [[-> ->] | (sq & sq' & -> & -> & Hs)];
    [reflexivity|]. cbn. unfold dist_le, dist_lt. cbn.
  rewrite (Qle_bool_compat sq sq' _ _ Hs (Qeq_refl _)), (Qltb_compat sq sq' _ _ Hs (Qeq_refl _)).
  reflexivity.
Qed.
