(* ===== verification/Encode.v ===== *)
(** * Encode: preprocessing and reference encoding

    [preprocess_image] (FaceMatching.py and FinalProject.py, lines
    28-33 and 31-36): grey conversion, histogram equalisation, a
    bilateral filter of diameter 9 and sigmas 75, conversion back to
    three channels.  [encode_face] (lines 35-38 and 38-41): the first
    encoding face_recognition finds in the preprocessed image, or
    [None].  Called without locations, [face_encodings] locates the
    faces itself, which is [face_encodings img (face_locations img)].
    FaceMatching.py's own copies are [fm_preprocess_image] and
    [fm_encode_face]; they are the same functions, which is why the
    shared enrollment handlers of [Handlers] model both scripts. *)

From Stdlib Require Import List QArith.
From S2P Require Import Prelude Vision.
Import ListNotations.
Local Open Scope nat_scope.

Section Encode.

Context {Image : Type} `{OpenCV Image} `{FaceRecognition Image}.

(** [preprocess_image(image)] *)
Definition preprocess_image (image : Image) : Image :=
  let gray := cvtColor image COLOR_RGB2GRAY in
  let gray := equalizeHist gray in
  let filtered := bilateralFilter gray 9 75 75 in
  cvtColor filtered COLOR_GRAY2RGB.

(** [face_recognition.face_encodings(image)] with no known locations. *)
Definition face_encodings_all (image : Image) : list Encoding :=
  face_encodings image (face_locations image).

(** [encode_face(image)]: [encodings[0] if encodings else None]. *)
Definition encode_face (image : Image) : option Encoding :=
  let processed := preprocess_image image in
  let encodings := face_encodings_all processed in
  match encodings with
  | e :: _ => Some e
  | [] => None
  end.

(** FaceMatching.py has its own copies, lines 28-33 and 35-38, with
    the same statements. *)
Definition fm_preprocess_image (image : Image) : Image :=
  let gray := cvtColor image COLOR_RGB2GRAY in
  let gray := equalizeHist gray in
  let filtered := bilateralFilter gray 9 75 75 in
  cvtColor filtered COLOR_GRAY2RGB.

Definition fm_encode_face (image : Image) : option Encoding :=
  let processed := fm_preprocess_image image in
  let encodings := face_encodings_all processed in
  match encodings with
  | e :: _ => Some e
  | [] => None
  end.

(** The two scripts encode alike, so the enrollment handlers of
    [Handlers], written with [encode_face], model both. *)
Lemma fm_encode_face_shared (image : Image) : fm_encode_face image = encode_face image.
Proof. reflexivity. Qed.

Context `{!VisionLaws Image}.

(** Preprocessing keeps the frame's size and its three channels
    (spec section 4.1: a same-shape buffer). *)
Theorem preprocess_image_shape (image : Image) (h w : nat) :
  img_shape image = (h, w, 3) -> img_shape (preprocess_image image) = (h, w, 3).
Proof.
  intros Hs. unfold preprocess_image.
  apply gray2rgb_shape. rewrite bilateralFilter_shape, equalizeHist_shape.
  apply rgb2gray_shape, Hs.
Qed.

(** [encode_face] finds no encoding exactly when face_recognition finds
    no face in the preprocessed image. *)
Theorem encode_face_none_iff (image : Image) :
  encode_face image = None <-> face_locations (preprocess_image image) = [].
Proof.
  unfold encode_face, face_encodings_all.
  pose proof (face_encodings_length (preprocess_image image)
                (face_locations (preprocess_image image))) as Hl.
  destruct (face_encodings _ _), (face_locations _); cbn in *;
    split; congruence.
Qed.

(** An encoding [encode_face] returns has the 128 components of a dlib
    descriptor. *)
Theorem encode_face_dim (image : Image) (e : Encoding) :
  encode_face image = Some e -> length e = encoding_dim.
Proof.
  unfold encode_face, face_encodings_all. intros He.
  destruct (face_encodings _ _) as [|e' es] eqn:Hes; [discriminate|].
  injection He as ->. eapply face_encodings_dim. rewrite Hes. left. reflexivity.
Qed.

End Encode.

(** ** Witnesses on synthetic frames *)

Lemma preprocess_image_shape_witness :
  img_shape (preprocess_image (mkSynthFrame 480 640 3 [] [])) = (480, 640, 3).
Proof. apply preprocess_image_shape. reflexivity. Defined.

Lemma encode_face_none_iff_witness :
  encode_face (mkSynthFrame 480 640 3 [] []) = None <->
  face_locations (preprocess_image (mkSynthFrame 480 640 3 [] [])) = [].
Proof. apply encode_face_none_iff. Defined.

Lemma encode_face_dim_witness :
  length (fit_dim [1; 2]%Q) = encoding_dim.
Proof.
  apply (encode_face_dim (mkSynthFrame 480 640 3 [(mkLocation 1 2 3 0, [1; 2]%Q)] [])).
  vm_compute. reflexivity.
Defined.
