(* ===== verification/Decision.v ===== *)
(** * Decision: the per-frame verdict of each variant

    What [update_frame] writes into [result_label] for one frame, as a
    pure function of the frame's inputs, for the three scripts:

    - [classify_frame] (FinalProject.py lines 125-159): gated by the
      cached YOLO person count: 0 persons, more than one, or exactly one,
      in which case the first face's encoding is compared with the
      reference;
    - [classify_all_faces] (FaceMatching.py lines 105-136): every face of
      the frame is compared in turn and the last one's verdict stays,
      which [label_faces_last_verdict] proves against the reference
      semantics [verify_all];
    - [classify_deepface] (FaceMatching-UsingDeepface.py lines 95-113):
      [DeepFace.verify] on the two files, every exception caught.

    The embedding test and DeepFace both implement the
    [IdentityVerifier] interface of spec section 9; [verdict_label] is
    the label both give to a verdict. *)

From Stdlib Require Import List Arith Lia QArith Reals String.
From stdpp Require Import base decidable.
From S2P Require Import Prelude Vision Distance Encode.
Import ListNotations.

Local Open Scope py_scope.

(** The texts the scripts put into [result_label]. *)
Inductive Message : Type :=
| msg_empty
| msg_same_person
| msg_different_person
| msg_no_face
| msg_more_than_one
| msg_no_person
| msg_recognition_error
| msg_reference_captured
| msg_no_face_in_reference
| msg_reference_uploaded
| msg_no_face_in_upload
| msg_capture_failed
| msg_invalid_image
| msg_camera_stopped.

Definition message_text (m : Message) : string :=
  match m with
  | msg_empty => ""
  | msg_same_person => "Same Person"
  | msg_different_person => "Different Person"
  | msg_no_face => "No face detected"
  | msg_more_than_one => "More than one person detected!"
  | msg_no_person => "No person detected"
  | msg_recognition_error => "Error in recognition"
  | msg_reference_captured => "Reference photo captured"
  | msg_no_face_in_reference => "No face detected in reference photo"
  | msg_reference_uploaded => "Reference photo uploaded"
  | msg_no_face_in_upload => "No face detected in uploaded photo"
  | msg_capture_failed => "Failed to capture reference photo"
  | msg_invalid_image => "Invalid image selected"
  | msg_camera_stopped => "Camera stopped"
  end.

(** The [fg] colours of [result_label]. *)
Inductive Color : Type := black | green | red | gray | orange.

(** [result_label.config(text=..., fg=...)] *)
Record Label : Type := mkLabel { label_text : Message; label_color : Color }.

#[export] Instance Message_eq_dec : EqDecision Message.
Proof. solve_decision. Defined.
#[export] Instance Color_eq_dec : EqDecision Color.
Proof. solve_decision. Defined.
#[export] Instance Label_eq_dec : EqDecision Label.
Proof. solve_decision. Defined.

(** [label_text = ""; label_color = "black"] *)
Definition blank_label : Label := mkLabel msg_empty black.

(** The verdict of an identity comparison (spec section 9):
    [verify(reference, probe)] may raise. *)
Class IdentityVerifier (Ref Probe : Type) : Type :=
  verify : Ref -> Probe -> outcome bool.

#[export] Instance embedding_verifier : IdentityVerifier (option Encoding) Encoding :=
  same_person_test.

#[export] Instance deepface_verifier {Image : Type} `{DeepFaceModel Image}
  : IdentityVerifier Image Image :=
  deepface_verify.

(** [if verified: "Same Person", "green" else: "Different Person", "red"] *)
Definition verdict_label (verified : bool) : Label :=
  if verified then mkLabel msg_same_person green else mkLabel msg_different_person red.

Section Classify.

Context {Image : Type} `{FaceRecognition Image}.

(** FinalProject.py lines 125-159, on the processed frame [pf], the
    cached [current_person_count] and [reference_encoding]. *)
Definition classify_frame (current_person_count : nat) (reference_encoding : option Encoding)
    (pf : Image) : outcome Label :=
  if Nat.eqb current_person_count 1 then
    let locations := face_locations pf in
    let encodings := face_encodings pf locations in
    match encodings with
    | face_encoding :: _ =>
        let? verified := verify reference_encoding face_encoding in
        match locations with
        | [] => Raised IndexError
        | _ => Normal (verdict_label verified)
        end
    | [] => Normal (mkLabel msg_no_face gray)
    end
  else if Nat.ltb 1 current_person_count then Normal (mkLabel msg_more_than_one orange)
  else if Nat.eqb current_person_count 0 then Normal (mkLabel msg_no_person gray)
  else Normal blank_label.

(** The loop of FaceMatching.py lines 111-124: each face overwrites
    the label. *)
Fixpoint label_faces (reference_encoding : option Encoding)
    (faces : list (Location * Encoding)) (label : Label) : outcome Label :=
  match faces with
  | [] => Normal label
  | (_, face_encoding) :: rest =>
      let? verified := verify reference_encoding face_encoding in
      label_faces reference_encoding rest (verdict_label verified)
  end.

(** Reference semantics of the loop of FaceMatching.py lines 111-134: every face is
    compared in order and the first exception stops the frame. *)
Fixpoint verify_all (reference_encoding : option Encoding)
    (faces : list (Location * Encoding)) : outcome (list bool) :=
  match faces with
  | [] => Normal []
  | (_, face_encoding) :: rest =>
      let? verified := verify reference_encoding face_encoding in
      let? verdicts := verify_all reference_encoding rest in
      Normal (verified :: verdicts)
  end.

(** FaceMatching.py lines 105-136. *)
Definition classify_all_faces (reference_encoding : option Encoding) (pf : Image)
  : outcome Label :=
  let locations := face_locations pf in
  let encodings := face_encodings pf locations in
  label_faces reference_encoding (combine locations encodings) blank_label.

End Classify.

Section DeepFace.

Context {Image : Type} `{DeepFaceModel Image}.

Definition reference_image_path : string := "reference.jpg".
Definition live_frame_path : string := "live_frame.jpg".

(** [DeepFace.verify(img1_path=reference_image_path, img2_path=temp_path)]:
    DeepFace loads both files and raises when one does not load. *)
Definition deepface_verify_paths (fs : FileSystem Image) : outcome bool :=
  match imread fs reference_image_path, imread fs live_frame_path with
  | Some img1, Some img2 => verify img1 img2
  | _, _ => Raised LibraryError
  end.

(** FaceMatching-UsingDeepface.py lines 95-113, on the file system
    after [cv2.imwrite(temp_path, frame)] (line 93): every exception
    becomes ["Error in recognition"]. *)
Definition classify_deepface (fs : FileSystem Image) : Label :=
  match deepface_verify_paths fs with
  | Normal verified => verdict_label verified
  | Raised _ => mkLabel msg_recognition_error orange
  end.

End DeepFace.

(** Synthetic inputs of the witnesses. *)
Definition owner_encoding : Encoding := fit_dim [1; 2]%Q.

Definition frame_with_faces (faces : list (Location * Encoding)) : SynthFrame :=
  mkSynthFrame 240 320 3 faces [].

(** ** Gating of FinalProject.py *)

Section ClassifyTheory.

Context {Image : Type} `{OpenCV Image} `{FaceRecognition Image} `{!VisionLaws Image}.

(** With the first encoding known, the single-person branch is the
    verdict of the identity test on it. *)
Lemma classify_frame_single (ref : option Encoding) (pf : Image) (e : Encoding) es :
  face_encodings pf (face_locations pf) = e :: es ->
  classify_frame 1 ref pf = omap verdict_label (verify ref e).
Proof.
  intros Hes. unfold classify_frame. cbn. rewrite Hes.
  pose proof (face_encodings_length pf (face_locations pf)) as Hl. rewrite Hes in Hl.
  destruct (verify ref e); cbn; [|reflexivity].
  destruct (face_locations pf); [discriminate | reflexivity].
Qed.

(** The only exception of the classification: with a reference of
    the right shape, numpy's [ValueError] and the [IndexError] of
    [face_locations[0]] cannot happen, and what is left is the
    [TypeError] of a missing reference. *)
Lemma classify_frame_raises (n : nat) (ref : option Encoding) (pf : Image) (e : exn) :
  (forall r, ref = Some r -> length r = encoding_dim) ->
  classify_frame n ref pf = Raised e -> ref = None /\ e = TypeError.
Proof.
  intros Hwf. destruct (Nat.eqb_spec n 1) as [->|Hn].
  - destruct (face_encodings pf (face_locations pf)) as [|e1 es] eqn:Hes.
    + unfold classify_frame. cbn. rewrite Hes. discriminate.
    + rewrite (classify_frame_single ref pf e1 es Hes).
      assert (He1 : length e1 = encoding_dim)
        by (eapply face_encodings_dim; rewrite Hes; left; reflexivity).
      destruct ref as [r|].
      * destruct (same_person_test_real r e1) as (b & Hb & _);
          [rewrite (Hwf r eq_refl), He1; reflexivity|].
        unfold verify, embedding_verifier. rewrite Hb. discriminate.
      * intros [= <-]. split; reflexivity.
  - unfold classify_frame. destruct (Nat.eqb_spec n 1); [contradiction|].
    destruct (Nat.ltb 1 n); [discriminate|]. destruct (Nat.eqb n 0); discriminate.
Qed.

(** C1. Gate (spec section 8): when YOLO counted no person the label is
    ["No person detected"], whatever the reference and the faces. *)
Theorem classify_frame_no_person (ref : option Encoding) (pf : Image) :
  classify_frame 0 ref pf = Normal (mkLabel msg_no_person gray).
Proof. reflexivity. Qed.

(** C2. Gate (spec section 8): with more than one person counted the
    label is ["More than one person detected!"] and no face work is
    done: the result does not depend on the reference or the frame. *)
Theorem classify_frame_multiple (n : nat) (ref : option Encoding) (pf : Image) :
  1 < n -> classify_frame n ref pf = Normal (mkLabel msg_more_than_one orange).
Proof.
  intros Hn. unfold classify_frame.
  destruct (Nat.eqb_spec n 1); [lia|]. destruct (Nat.ltb_spec 1 n); [reflexivity | lia].
Qed.

(** Single person, no face found: ["No face detected"]. *)
Theorem classify_frame_no_face (ref : option Encoding) (pf : Image) :
  face_locations pf = [] -> classify_frame 1 ref pf = Normal (mkLabel msg_no_face gray).
Proof.
  intros Hl. unfold classify_frame. cbn.
  pose proof (face_encodings_length pf (face_locations pf)) as Hlen.
  rewrite Hl in Hlen |- *. destruct (face_encodings pf []); [reflexivity | discriminate].
Qed.

(** C3. Single person with a face and a reference of the same length:
    the label is a verdict, and it is ["Same Person"] exactly when the
    real distance of the first face's encoding to the reference is
    below 0.6. *)
Theorem classify_frame_verdict (r : Encoding) (pf : Image) (e : Encoding) es :
  face_encodings pf (face_locations pf) = e :: es -> length r = length e ->
  exists l, classify_frame 1 (Some r) pf = Normal l /\
    (label_text l = msg_same_person \/ label_text l = msg_different_person) /\
    (label_text l = msg_same_person <-> (euclidean_distance r e < 6 / 10)%R).
Proof.
  intros Hes Hlen. rewrite (classify_frame_single _ _ _ _ Hes).
  destruct (same_person_test_real r e Hlen) as (b & Hb & Hiff).
  unfold verify, embedding_verifier. rewrite Hb. exists (verdict_label b).
  split; [reflexivity|]. rewrite <- Hiff.
  destruct b; cbn; intuition congruence.
Qed.

(** C5. Error path: a single person with a face and no reference
    encoding makes the frame's computation raise [TypeError]; nothing
    catches it in FinalProject.py. *)
Theorem classify_frame_no_reference (pf : Image) (e : Encoding) es :
  face_encodings pf (face_locations pf) = e :: es ->
  classify_frame 1 None pf = Raised TypeError.
Proof. intros Hes. rewrite (classify_frame_single _ _ _ _ Hes). reflexivity. Qed.

(** C4. The person-count chain is exhaustive: a frame is never left
    with the blank label, and an identity verdict is only given when
    exactly one person was counted. *)
Theorem classify_frame_outcomes (n : nat) (ref : option Encoding) (pf : Image) (l : Label) :
  classify_frame n ref pf = Normal l ->
  label_text l <> msg_empty /\
  (label_text l = msg_same_person \/ label_text l = msg_different_person -> n = 1).
Proof.
  unfold classify_frame.
  destruct (Nat.eqb_spec n 1) as [->|Hn1].
  - cbn. destruct (face_encodings _ _) as [|e es].
    + intros [= <-]. cbn. split; [discriminate | auto].
    + destruct (verify ref e) as [b|]; cbn; [|discriminate].
      destruct (face_locations pf); [discriminate|].
      intros [= <-]. destruct b; cbn; split; (discriminate || auto).
  - destruct (Nat.ltb_spec 1 n); [|destruct (Nat.eqb_spec n 0); [|lia]];
      intros [= <-]; cbn; split; (discriminate || intros [? | ?]; discriminate).
Qed.

End ClassifyTheory.

(** ** FaceMatching.py: every face is compared, the last one wins *)

Section AllFacesTheory.

Context {Image : Type} `{FaceRecognition Image}.

(** In FaceMatching.py the label after the loop is the verdict of
    the last face, once the earlier faces were compared without
    raising. *)
Theorem label_faces_last (ref : option Encoding) (faces : list (Location * Encoding))
    (loc : Location) (e : Encoding) (l0 : Label) :
  label_faces ref (faces ++ [(loc, e)]) l0 =
  let? _ := label_faces ref faces l0 in omap verdict_label (verify ref e).
Proof.
  revert l0. induction faces as [|[loc' e'] faces IH]; intros l0; cbn.
  - destruct (verify ref e); reflexivity.
  - destruct (verify ref e'); [apply IH | reflexivity].
Qed.

(** C8. The loop of FaceMatching.py lines 111-134 overwrites [result_label] once per
    face: its outcome is that of comparing every face in order, the
    label being the last face's verdict, or the label before the loop
    when the frame has no face; an exception on any face is the
    frame's exception. *)
Theorem label_faces_last_verdict (ref : option Encoding)
    (faces : list (Location * Encoding)) (l0 : Label) :
  label_faces ref faces l0 =
  omap (fun verdicts => last (map verdict_label verdicts) l0) (verify_all ref faces).
Proof.
  revert l0. induction faces as [|[loc e] faces IH]; intros l0; [reflexivity|].
  cbn [label_faces verify_all]. destruct (verify ref e) as [b|exc]; [|reflexivity].
  cbn [obind omap]. rewrite IH. destruct (verify_all ref faces) as [bs|exc]; [|reflexivity].
  cbn [obind omap map]. rewrite last_cons_default. reflexivity.
Qed.

End AllFacesTheory.

(** ** The DeepFace variant *)

Section DeepFaceTheory.

Context {Image : Type} `{DeepFaceModel Image}.

(** C37. The DeepFace variant never lets an exception out of the
    frame: the label is a verdict, or ["Error in recognition"] exactly
    when [DeepFace.verify] raised. *)
Theorem classify_deepface_error_iff (fs : FileSystem Image) :
  (classify_deepface fs = mkLabel msg_recognition_error orange <->
   exists e, deepface_verify_paths fs = Raised e) /\
  (forall b, deepface_verify_paths fs = Normal b -> classify_deepface fs = verdict_label b).
Proof.
  unfold classify_deepface. split.
  - destruct (deepface_verify_paths fs) as [[|]|exc]; cbn; split; intros Hx;
      [discriminate | destruct Hx; discriminate | discriminate | destruct Hx; discriminate
      | eauto | reflexivity].
  - intros b ->. reflexivity.
Qed.

End DeepFaceTheory.

(** ** Witnesses on synthetic frames *)

Lemma classify_frame_multiple_witness :
  classify_frame 2 None (frame_with_faces []) = Normal (mkLabel msg_more_than_one orange).
Proof. apply classify_frame_multiple. lia. Defined.

Lemma classify_frame_no_face_witness :
  classify_frame 1 (Some owner_encoding) (frame_with_faces []) = Normal (mkLabel msg_no_face gray).
Proof. apply classify_frame_no_face. reflexivity. Defined.

Lemma classify_frame_verdict_witness :
  exists l,
    classify_frame 1 (Some owner_encoding)
      (frame_with_faces [(mkLocation 10 60 60 10, [1; 2]%Q)]) = Normal l /\
    (label_text l = msg_same_person \/ label_text l = msg_different_person) /\
    (label_text l = msg_same_person <-> (euclidean_distance owner_encoding owner_encoding < 6 / 10)%R).
Proof.
  apply (classify_frame_verdict _ _ owner_encoding []); vm_compute; reflexivity.
Defined.

Lemma classify_frame_no_reference_witness :
  classify_frame 1 None (frame_with_faces [(mkLocation 10 60 60 10, [1; 2]%Q)]) = Raised TypeError.
Proof. apply (classify_frame_no_reference _ owner_encoding []). vm_compute. reflexivity. Defined.

Lemma classify_frame_outcomes_witness :
  label_text (mkLabel msg_no_person gray) <> msg_empty /\
  (label_text (mkLabel msg_no_person gray) = msg_same_person \/
   label_text (mkLabel msg_no_person gray) = msg_different_person -> 0 = 1).
Proof. apply (classify_frame_outcomes 0 None (frame_with_faces [])). reflexivity. Defined.

(** FaceMatching.py gives an identity verdict on a frame with two
    people, and the verdict depends on the order face_recognition lists
    them: the owner listed last is ["Same Person"], listed first is
    ["Different Person"]. *)
Theorem classify_all_faces_two_people :
  classify_all_faces (Some owner_encoding)
    (frame_with_faces [(mkLocation 10 60 60 10, [3; 4]%Q); (mkLocation 10 160 60 110, [1; 2]%Q)])
  = Normal (mkLabel msg_same_person green) /\
  classify_all_faces (Some owner_encoding)
    (frame_with_faces [(mkLocation 10 160 60 110, [1; 2]%Q); (mkLocation 10 60 60 10, [3; 4]%Q)])
  = Normal (mkLabel msg_different_person red).
Proof. split; vm_compute; reflexivity. Qed.
