(* ===== verification/Cadence.v ===== *)
(** * Cadence: the YOLO person count, refreshed every fifth frame

    FinalProject.py keeps two globals for the detector: [frame_counter]
    and [current_person_count].  [update_frame] runs YOLO only when
    [frame_counter % 5 == 0] (lines 111-116) and sets the count to the
    number of boxes of the (single) result; the cached count gates every
    frame in between; [frame_counter += 1] comes last (line 170), so a
    frame whose processing raised is not counted.

    [Cache] is the pair of globals, [refresh_person_count] and
    [advance_counter] the two statements that change it, and
    [process_frame] one frame processed to the end.  The theorems show
    that the detector runs exactly once in every window of five
    processed frames and that the count gating a frame comes from a
    detection on one of the last five frames, or, when the run has not
    reached a multiple of five yet, from before the run. *)

From Stdlib Require Import List Arith Lia QArith.
From S2P Require Import Prelude Vision.
Import ListNotations.
Local Open Scope nat_scope.

Record Cache : Type := mkCache {
  frame_counter : nat;
  current_person_count : nat
}.

(** [frame_counter = 0; current_person_count = 0] (lines 15-16). *)
Definition initial_cache : Cache := mkCache 0 0.

(** The [5] of [frame_counter % 5 == 0]. *)
Definition detection_interval : nat := 5.

(** The [conf=0.3] of the [predict] call. *)
Definition person_conf : Q := 3 # 10.

Definition yolo_due (counter : nat) : bool :=
  Nat.eqb (counter mod detection_interval) 0.

(** [for result in results: current_person_count = len(boxes)] *)
Definition count_persons (results : list (list PersonBox)) (count : nat) : nat :=
  fold_left (fun _ boxes => length boxes) results count.

Section Cadence.

Context {Image : Type} `{PersonDetector Image}.

(** Lines 112-116. *)
Definition refresh_person_count (frame : Image) (c : Cache) : Cache :=
  if yolo_due (frame_counter c) then
    mkCache (frame_counter c)
            (count_persons (predict frame person_conf) (current_person_count c))
  else c.

(** Line 170. *)
Definition advance_counter (c : Cache) : Cache :=
  mkCache (S (frame_counter c)) (current_person_count c).

(** A frame that [update_frame] processes to its end. *)
Definition process_frame (frame : Image) (c : Cache) : Cache :=
  advance_counter (refresh_person_count frame c).

(** Successive frames processed to their end. *)
Definition run_frames (frames : list Image) (c : Cache) : Cache :=
  fold_left (fun c f => process_frame f c) frames c.

(** For each processed frame, whether YOLO ran on it. *)
Fixpoint detector_calls (frames : list Image) (c : Cache) : list bool :=
  match frames with
  | [] => []
  | f :: fs => yolo_due (frame_counter c) :: detector_calls fs (process_frame f c)
  end.

(** The count one detection on [frame] yields. *)
Definition persons_in (frame : Image) : nat :=
  count_persons (predict frame person_conf) 0.

End Cadence.

(** Synthetic frames showing [n] persons, for the witnesses. *)
Definition frame_with_persons (n : nat) : SynthFrame :=
  mkSynthFrame 240 320 3 [] (repeat (mkPersonBox (0, 0, 10, 10) (1 # 2)) n).

Definition seven_frames : list SynthFrame := map frame_with_persons [1; 2; 0; 1; 3; 2; 1].

(** ** Helper lemmas *)

Lemma yolo_due_shift (n j : nat) :
  yolo_due (n + j) = Nat.eqb ((n mod detection_interval + j) mod detection_interval) 0.
Proof. unfold yolo_due. rewrite Nat.Div0.add_mod_idemp_l. reflexivity. Qed.

(** Among five consecutive counters exactly one is a multiple of five. *)
Lemma window_one_due (n : nat) :
  count_occ Bool.bool_dec (map (fun j => yolo_due (n + j)) (seq 0 detection_interval)) true = 1.
Proof.
  change (seq 0 detection_interval) with [0; 1; 2; 3; 4]. cbn [map].
  rewrite !yolo_due_shift.
  assert (Hr : n mod detection_interval < 5) by (apply Nat.mod_upper_bound; discriminate).
  destruct (n mod detection_interval) as [|[|[|[|[|r]]]]]; [reflexivity .. | lia].
Qed.

Section CadenceTheory.

Context {Image : Type} `{PersonDetector Image}.

Lemma run_frames_snoc (frames : list Image) (f : Image) (c : Cache) :
  run_frames (frames ++ [f]) c = process_frame f (run_frames frames c).
Proof. unfold run_frames. rewrite fold_left_app. reflexivity. Qed.

Lemma process_frame_counter (f : Image) (c : Cache) :
  frame_counter (process_frame f c) = S (frame_counter c).
Proof. unfold process_frame, refresh_person_count. destruct (yolo_due _); reflexivity. Qed.

Lemma refresh_not_due (f : Image) (c : Cache) :
  yolo_due (frame_counter c) = false -> refresh_person_count f c = c.
Proof. unfold refresh_person_count. intros ->. reflexivity. Qed.

Lemma detector_calls_spec (frames : list Image) (c : Cache) :
  detector_calls frames c =
  map (fun j => yolo_due (frame_counter c + j)) (seq 0 (length frames)).
Proof.
  revert c. induction frames as [|f frames IH]; intros c;
    cbn [detector_calls seq map length]; [reflexivity|].
  rewrite Nat.add_0_r, IH, process_frame_counter, (map_seq_offset _ 1 (length frames)).
  f_equal. apply map_ext. intros j. f_equal. lia.
Qed.

(** Frame counting: [frame_counter] counts the frames processed to
    their end. *)
Theorem run_frames_counter (frames : list Image) (c : Cache) :
  frame_counter (run_frames frames c) = frame_counter c + length frames.
Proof.
  revert c. induction frames as [|f frames IH]; intros c; cbn; [lia|].
  unfold run_frames in IH. rewrite IH, process_frame_counter. lia.
Qed.

(** C9. Cadence bound (spec section 4.4 and 8): in every window of five
    consecutive processed frames the person detector runs exactly once. *)
Theorem detector_once_per_window (frames : list Image) (c : Cache) (i : nat) :
  i + detection_interval <= length frames ->
  count_occ Bool.bool_dec (firstn detection_interval (skipn i (detector_calls frames c))) true = 1.
Proof.
  intros Hi. rewrite detector_calls_spec, skipn_map, firstn_map, skipn_seq.
  rewrite firstn_seq_le by lia. rewrite Nat.add_0_l, map_seq_offset.
  rewrite (map_ext _ (fun j => yolo_due ((frame_counter c + i) + j)))
    by (intros j; f_equal; lia).
  apply window_one_due.
Qed.

Context `{!DetectorLaws Image}.

Lemma count_persons_single (results : list (list PersonBox)) (n m : nat) :
  length results = 1 -> count_persons results n = count_persons results m.
Proof. destruct results as [|r [|]]; [discriminate | reflexivity | discriminate]. Qed.

Lemma refresh_due (f : Image) (c : Cache) :
  yolo_due (frame_counter c) = true ->
  current_person_count (refresh_person_count f c) = persons_in f.
Proof.
  unfold refresh_person_count, persons_in. intros ->. cbn.
  apply count_persons_single, predict_one_result.
Qed.

(** C10. Staleness bound (spec section 4.4): after a run of frames, the
    cached person count, which gates the run's last frame, is YOLO's
    count on one of the last five frames of the run, namely the last one
    processed at a multiple of five; when no frame of the run was at a
    multiple of five, it is still the count from before the run. *)
Theorem run_frames_count_recent (frames : list Image) (c : Cache) :
  let k := length frames in
  let last := frame_counter c + k - 1 in
  0 < k ->
  (last mod detection_interval < k ->
   exists f, nth_error frames (k - 1 - last mod detection_interval) = Some f /\
             current_person_count (run_frames frames c) = persons_in f) /\
  (k <= last mod detection_interval ->
   current_person_count (run_frames frames c) = current_person_count c).
Proof.
  induction frames as [|f frames IH] using rev_ind; cbn zeta; [cbn; lia|].
  rewrite length_app, run_frames_snoc. cbn [length]. intros _.
  set (m := frame_counter c). set (k := length frames).
  pose proof (run_frames_counter frames c) as Hcnt. fold m k in Hcnt.
  unfold process_frame. cbn [current_person_count advance_counter].
  replace (m + (k + 1) - 1) with (m + k) by lia.
  destruct (yolo_due (frame_counter (run_frames frames c))) eqn:Hdue.
  - rewrite refresh_due by exact Hdue. rewrite Hcnt in Hdue.
    unfold yolo_due in Hdue. apply Nat.eqb_eq in Hdue. rewrite Hdue.
    split; [|lia]. intros _. exists f. rewrite nth_error_app2 by lia.
    fold k. replace (k + 1 - 1 - 0 - k) with 0 by lia. split; reflexivity.
  - rewrite refresh_not_due by exact Hdue. rewrite Hcnt in Hdue.
    unfold yolo_due in Hdue. apply Nat.eqb_neq in Hdue.
    destruct k as [|k'] eqn:Hk.
    + destruct frames; [|discriminate]. split; [intros Hlt; exfalso; lia | intros _; reflexivity].
    + destruct IH as [IH1 IH2]; [lia|]. fold m k in IH1, IH2. rewrite Hk in IH1, IH2.
      replace (m + S k') with (S (m + S k' - 1)) in Hdue |- * by lia.
      destruct (mod_succ_cases (m + S k' - 1) detection_interval) as [E|E];
        [discriminate | lia | ]; rewrite E in Hdue |- *.
      split.
      * intros Hlt. destruct IH1 as (f' & Hf' & Hc); [lia|]. exists f'. split; [|exact Hc].
        replace (S k' + 1 - 1 - S ((m + S k' - 1) mod detection_interval))
          with (S k' - 1 - (m + S k' - 1) mod detection_interval) by lia.
        rewrite nth_error_app1 by (apply nth_error_Some; rewrite Hf'; discriminate).
        exact Hf'.
      * intros Hge. apply IH2. lia.
Qed.

End CadenceTheory.

Lemma detector_once_per_window_witness :
  count_occ Bool.bool_dec
    (firstn detection_interval (skipn 2 (detector_calls seven_frames initial_cache))) true = 1.
Proof. apply detector_once_per_window. vm_compute. lia. Defined.

Lemma run_frames_count_recent_witness :
  exists f, nth_error seven_frames 5 = Some f /\
            current_person_count (run_frames seven_frames initial_cache) = persons_in f.
Proof.
  apply (proj1 (run_frames_count_recent seven_frames initial_cache ltac:(vm_compute; lia))).
  vm_compute. lia.
Defined.
