(* ===== verification/TkLoop.v ===== *)
(** * TkLoop: the Tk main loop that drives every variant

    The three scripts end with the same four buttons and the same
    [window.mainloop()] (FinalProject.py lines 180-196, FaceMatching.py
    lines 153-169, FaceMatching-UsingDeepface.py lines 135-151).  The
    loop runs a button's [command] when it is pressed, and runs
    [update_frame] when a timer set by [video_label.after(10,
    update_frame)] expires.  A handler's exception is printed and
    dropped ([py_exec]).

    [TkApp] is what a variant provides to the loop: its four commands,
    its timer callback, its start-up states and the count of pending
    timers; [TkAppLaws] is what the loop assumes of the timer count.
    The loop itself ([dispatch], [step], [reachable], [run_events]) is
    written once against the interface, and so are its generic facts:
    [dispatch] and [step] describe the same transitions, the closure
    [steps] of [step] and [run_events] describe the same runs,
    [run_events] stays in the reachable states, timers are inert once the callback
    is, a timer chain whose callback consumes a finite resource
    ends, and the loop is a bisimulation for any relation on states
    that its callbacks respect (Section [LoopBisim]). *)

From Stdlib Require Import List Arith Lia String ZArith Relations Morphisms RelationClasses.
From S2P Require Import Prelude.
Import ListNotations.

(** What happens in the Tk main loop: a press of one of the four
    buttons (with what the capture window's keyboard and the file
    dialog deliver: the key codes [cv2.waitKey] will return, the path
    [askopenfilename] returns) or the expiry of a pending timer. *)
Inductive Event : Type :=
| EvCapture (keys : list Z)
| EvUpload (choice : option string)
| EvStart
| EvStop
| EvTimer.

(** The commands of the buttons and the timer callback of a variant. *)
Class TkApp (St : Type) : Type := {
  on_capture : list Z -> PyM St unit;
  on_upload : option string -> PyM St unit;
  on_start : PyM St unit;
  on_stop : PyM St unit;
  on_timer : PyM St unit;
  app_init : St -> Prop;
  timers : St -> nat;
  set_timers : nat -> St -> St
}.

Class TkAppLaws (St : Type) `{TkApp St} : Prop := {
  timers_set : forall n st, timers (set_timers n st) = n;
  set_timers_same : forall st, set_timers (timers st) st = st;
  set_timers_twice : forall n m st, set_timers n (set_timers m st) = set_timers n st
}.

Section Loop.

Context {St : Type} `{TkApp St}.

(** The main loop on one event: buttons run their command, a timer
    can only expire when one is pending. *)
Definition dispatch (ev : Event) (st : St) : option St :=
  match ev with
  | EvCapture keys => Some (py_exec (on_capture keys) st)
  | EvUpload choice => Some (py_exec (on_upload choice) st)
  | EvStart => Some (py_exec on_start st)
  | EvStop => Some (py_exec on_stop st)
  | EvTimer =>
      match timers st with
      | 0 => None
      | S n => Some (py_exec on_timer (set_timers n st))
      end
  end.

Inductive step : St -> St -> Prop :=
| step_capture keys st : step st (py_exec (on_capture keys) st)
| step_upload choice st : step st (py_exec (on_upload choice) st)
| step_start st : step st (py_exec on_start st)
| step_stop st : step st (py_exec on_stop st)
| step_timer st n : timers st = S n -> step st (py_exec on_timer (set_timers n st)).

Inductive reachable : St -> Prop :=
| reachable_init st : app_init st -> reachable st
| reachable_step st st' : reachable st -> step st st' -> reachable st'.

(** A sequence of events; an event that cannot happen is skipped. *)
Fixpoint run_events (evs : list Event) (st : St) : St :=
  match evs with
  | [] => st
  | ev :: evs' =>
      match dispatch ev st with
      | Some st' => run_events evs' st'
      | None => run_events evs' st
      end
  end.

(** Zero or more events of the loop, one [step] each. *)
Inductive steps : St -> St -> Prop :=
| steps_refl st : steps st st
| steps_step st st' st'' : step st st' -> steps st' st'' -> steps st st''.

(** The loop when "Start Recognition" is only pressed while no timer
    is pending. *)
Inductive step_guarded : St -> St -> Prop :=
| guarded_capture keys st : step_guarded st (py_exec (on_capture keys) st)
| guarded_upload choice st : step_guarded st (py_exec (on_upload choice) st)
| guarded_start st : timers st = 0 -> step_guarded st (py_exec on_start st)
| guarded_stop st : step_guarded st (py_exec on_stop st)
| guarded_timer st n : timers st = S n -> step_guarded st (py_exec on_timer (set_timers n st)).

Inductive reachable_guarded : St -> Prop :=
| reachable_guarded_init st : app_init st -> reachable_guarded st
| reachable_guarded_step st st' :
    reachable_guarded st -> step_guarded st st' -> reachable_guarded st'.

End Loop.

Arguments reachable {St _} st.
Arguments reachable_guarded {St _} st.

Section LoopTheory.

Context {St : Type} `{TkApp St} `{!TkAppLaws St}.

Lemma dispatch_step (ev : Event) (st st' : St) : dispatch ev st = Some st' -> step st st'.
Proof.
  destruct ev; cbn; try (intros [= <-]; constructor).
  destruct (timers st) eqn:Ht; [discriminate|]. intros [= <-]. constructor. exact Ht.
Qed.

Lemma step_dispatch (st st' : St) : step st st' -> exists ev, dispatch ev st = Some st'.
Proof.
  destruct 1 as [keys st|choice st|st|st|st n Ht].
  - exists (EvCapture keys). reflexivity.
  - exists (EvUpload choice). reflexivity.
  - exists EvStart. reflexivity.
  - exists EvStop. reflexivity.
  - exists EvTimer. cbn. rewrite Ht. reflexivity.
Qed.

Lemma run_events_app (evs1 evs2 : list Event) (st : St) :
  run_events (evs1 ++ evs2) st = run_events evs2 (run_events evs1 st).
Proof.
  revert st. induction evs1 as [|ev evs1 IH]; intros st; [reflexivity|].
  cbn. destruct (dispatch ev st); apply IH.
Qed.

Lemma run_events_reachable (evs : list Event) (st : St) :
  reachable st -> reachable (run_events evs st).
Proof.
  revert st. induction evs as [|ev evs IH]; intros st Hr; [exact Hr|].
  cbn. destruct (dispatch ev st) as [st'|] eqn:Hd; apply IH; [|exact Hr].
  eapply reachable_step; [exact Hr|]. eapply dispatch_step. exact Hd.
Qed.

Lemma steps_trans (st st' st'' : St) : steps st st' -> steps st' st'' -> steps st st''.
Proof. induction 1 as [|? ? ? Hs _ IH]; intros H'; [exact H' | eapply steps_step; eauto]. Qed.

(** The loop as a function and as a relation agree: the states
    reached from [st] by a sequence of steps are exactly the states
    [run_events] reaches from [st] on some list of button presses and
    timer expiries. *)
Theorem steps_iff_run_events (st st' : St) :
  steps st st' <-> exists evs, run_events evs st = st'.
Proof.
  split.
  - induction 1 as [st|st st1 st2 Hs _ (evs & <-)]; [exists []; reflexivity|].
    destruct (step_dispatch _ _ Hs) as (ev & Hd). exists (ev :: evs). cbn. rewrite Hd. reflexivity.
  - intros (evs & <-). revert st. induction evs as [|ev evs IH]; intros st; [constructor|].
    cbn. destruct (dispatch ev st) eqn:Hd; [|apply IH].
    eapply steps_step; [eapply dispatch_step; exact Hd | apply IH].
Qed.

(** The reachable states are the states some sequence of steps leads
    to from a start-up state. *)
Lemma reachable_iff_steps (st : St) :
  reachable st <-> exists st0, app_init st0 /\ steps st0 st.
Proof.
  split.
  - induction 1 as [st Hi|st st' _ (st0 & Hi & Hs) Hstep].
    + exists st. split; [exact Hi | constructor].
    + exists st0. split; [exact Hi|]. eapply steps_trans; [exact Hs|].
      eapply steps_step; [exact Hstep | constructor].
  - intros (st0 & Hi & Hs). assert (Hr : reachable st0) by (constructor; exact Hi).
    clear Hi. induction Hs as [|st1 st2 st3 Hstep _ IH]; [exact Hr|].
    apply IH. eapply reachable_step; eassumption.
Qed.

(** Without a pending timer, timer events cannot happen. *)
Lemma run_events_no_timers (st : St) (k : nat) :
  timers st = 0 -> run_events (repeat EvTimer k) st = st.
Proof.
  intros Ht. induction k as [|k IH]; [reflexivity|]. cbn. rewrite Ht. exact IH.
Qed.

(** Timers whose callback does nothing in the states [P] only count
    down. *)
Lemma timers_inert (P : St -> Prop) :
  (forall st, P st -> py_exec on_timer st = st) ->
  (forall n st, P st -> P (set_timers n st)) ->
  forall k st, P st -> run_events (repeat EvTimer k) st = set_timers (timers st - k) st.
Proof.
  intros Hinert HP k. induction k as [|k IH]; intros st Hst; cbn.
  - rewrite Nat.sub_0_r. symmetry. apply set_timers_same.
  - destruct (timers st) as [|n] eqn:Ht.
    + rewrite IH by exact Hst. rewrite Ht. reflexivity.
    + rewrite Hinert by (apply HP; exact Hst).
      rewrite IH by (apply HP; exact Hst).
      rewrite timers_set, set_timers_twice. reflexivity.
Qed.

(** A single timer chain ends when each run of the callback either
    sets no new timer or sets one and decreases the measure [mu] (the
    frames the camera has left): after more than [mu st] expiries no
    timer is pending. *)
Lemma timer_chain_ends (mu : St -> nat) :
  (forall n st, mu (set_timers n st) = mu st) ->
  (forall st, timers st = 0 ->
     timers (py_exec on_timer st) = 0 \/
     (timers (py_exec on_timer st) = 1 /\ mu (py_exec on_timer st) < mu st)) ->
  forall k st, timers st = 1 -> mu st < k -> timers (run_events (repeat EvTimer k) st) = 0.
Proof.
  intros Hmu Hdec k. induction k as [|k IH]; intros st Ht Hk; [lia|].
  cbn. rewrite Ht.
  destruct (Hdec (set_timers 0 st) (timers_set 0 st)) as [H0|[H1 Hlt]].
  - rewrite run_events_no_timers by exact H0. exact H0.
  - apply IH; [exact H1|]. rewrite Hmu in Hlt. lia.
Qed.

End LoopTheory.

(** ** The loop up to an equivalence of states

    When every callback respects a relation [R] on states and [R]
    fixes the number of pending timers, the loop cannot tell related
    states apart: a bisimulation, used for states whose file systems
    hold the same files. *)

Section LoopBisim.

Context {St : Type} `{TkApp St} (R : relation St).

Hypothesis capture_R : forall keys, Proper (R ==> R) (py_exec (on_capture keys)).
Hypothesis upload_R : forall choice, Proper (R ==> R) (py_exec (on_upload choice)).
Hypothesis start_R : Proper (R ==> R) (py_exec on_start).
Hypothesis stop_R : Proper (R ==> R) (py_exec on_stop).
Hypothesis timer_R : Proper (R ==> R) (py_exec on_timer).
Hypothesis timers_R : forall st1 st2, R st1 st2 -> timers st1 = timers st2.
Hypothesis set_timers_R : forall n, Proper (R ==> R) (set_timers n).

Lemma dispatch_bisim (ev : Event) (st1 st2 : St) :
  R st1 st2 ->
  match dispatch ev st1, dispatch ev st2 with
  | Some st1', Some st2' => R st1' st2'
  | None, None => True
  | _, _ => False
  end.
Proof.
  intros HR. destruct ev; cbn;
    [apply capture_R, HR | apply upload_R, HR | apply start_R, HR | apply stop_R, HR |].
  rewrite (timers_R st1 st2 HR). destruct (timers st2); [exact I|].
  apply timer_R, set_timers_R, HR.
Qed.

Lemma run_events_bisim (evs : list Event) : Proper (R ==> R) (run_events evs).
Proof.
  induction evs as [|ev evs IH]; intros st1 st2 HR; [exact HR|]. cbn.
  pose proof (dispatch_bisim ev st1 st2 HR) as Hd.
  destruct (dispatch ev st1), (dispatch ev st2); try contradiction; apply IH; assumption.
Qed.

End LoopBisim.
