(* ===== verification/Handlers.v ===== *)
(** * Handlers: the globals and button handlers of the embedding variants

    FinalProject.py and FaceMatching.py have the same globals
    [reference_encoding], [video_capture], [running] (FinalProject.py
    lines 10-13, FaceMatching.py lines 10-13), the same two widgets
    written by the handlers ([result_label], [video_label]), and the
    same text for four handlers:

    - [capture_reference_photo]: FinalProject.py lines 43-68,
      FaceMatching.py lines 40-65; its [while True] loop is
      [capture_loop], structural on the finite camera stream;
    - [upload_reference_photo]: lines 70-83 and 67-80;
    - [recognize_live]: lines 85-93 and 82-90; it calls the module's
      own [update_frame], its argument here;
    - [stop_camera]: lines 173-178 and 146-151;

    and the same first statements of [update_frame] ([read_frame]).
    The record [State X] holds those globals, the variant's own globals
    [X] (FinalProject's detector cache; nothing for FaceMatching.py),
    the pending Tk timers, and the program's environment: the frames the
    webcam will deliver ([camera]) and the files on disk ([files]).
    The handlers are defined once here and proved once for every [X].
    [state_equiv] relates states that agree on every global and whose
    file systems hold the same files; every handler respects it, and so
    does the loop of a variant whose [update_frame] touches no file. *)

From Stdlib Require Import List Arith Lia QArith String ZArith.
From S2P Require Import Prelude Vision Encode Decision TkLoop.
Import ListNotations.

Local Open Scope py_scope.
Local Open Scope nat_scope.

(** The [cv2.VideoCapture] object held in [video_capture]. *)
Inductive Capture : Type :=
| CaptureOpen
| CaptureReleased.

Section Handlers.

Context {Image : Type} `{OpenCV Image} `{FaceRecognition Image} {X : Type}.

Record State : Type := mkState {
  reference_encoding : option Encoding;
  video_capture : option Capture;
  running : bool;
  extra : X;
  result_label : Label;
  video_frame : option Image;
  pending : nat;
  camera : list (option Image);
  files : FileSystem Image
}.

(** Start-up: every global at its initial value, [x0] for the
    variant's own. *)
Definition initial_state (x0 : X) (camera : list (option Image)) (files : FileSystem Image)
  : State :=
  mkState None None false x0 blank_label None 0 camera files.

Definition set_reference_encoding (r : option Encoding) (st : State) : State :=
  mkState r (video_capture st) (running st) (extra st) (result_label st)
          (video_frame st) (pending st) (camera st) (files st).

Definition set_video_capture (v : option Capture) (st : State) : State :=
  mkState (reference_encoding st) v (running st) (extra st) (result_label st)
          (video_frame st) (pending st) (camera st) (files st).

Definition set_running (b : bool) (st : State) : State :=
  mkState (reference_encoding st) (video_capture st) b (extra st) (result_label st)
          (video_frame st) (pending st) (camera st) (files st).

Definition set_extra (x : X) (st : State) : State :=
  mkState (reference_encoding st) (video_capture st) (running st) x (result_label st)
          (video_frame st) (pending st) (camera st) (files st).

Definition set_result_label (l : Label) (st : State) : State :=
  mkState (reference_encoding st) (video_capture st) (running st) (extra st) l
          (video_frame st) (pending st) (camera st) (files st).

Definition set_video_frame (f : option Image) (st : State) : State :=
  mkState (reference_encoding st) (video_capture st) (running st) (extra st) (result_label st)
          f (pending st) (camera st) (files st).

Definition set_pending (n : nat) (st : State) : State :=
  mkState (reference_encoding st) (video_capture st) (running st) (extra st) (result_label st)
          (video_frame st) n (camera st) (files st).

Definition set_camera (c : list (option Image)) (st : State) : State :=
  mkState (reference_encoding st) (video_capture st) (running st) (extra st) (result_label st)
          (video_frame st) (pending st) c (files st).

Definition set_files (fs : FileSystem Image) (st : State) : State :=
  mkState (reference_encoding st) (video_capture st) (running st) (extra st) (result_label st)
          (video_frame st) (pending st) (camera st) fs.

(** [ret, frame = video_capture.read()]: the device's next frame; a
    released capture and an exhausted or failing device give
    [ret = False]; with no capture object the call raises. *)
Definition read_frame : PyM State (option Image) :=
  fun st =>
    match video_capture st with
    | None => (Raised AttributeError, st)
    | Some CaptureReleased => (Normal None, st)
    | Some CaptureOpen =>
        match camera st with
        | [] => (Normal None, st)
        | r :: rest => (Normal r, set_camera rest st)
        end
    end.

(** [recognize_live()]: refused without a reference; otherwise opens
    the camera, sets [running] and calls the module's [update_frame]. *)
Definition recognize_live (update_frame : PyM State unit) : PyM State unit :=
  st <- py_get ;;
  match reference_encoding st with
  | None => py_ret tt
  | Some _ =>
      py_modify (set_video_capture (Some CaptureOpen)) ;;
      py_modify (set_running true) ;;
      update_frame
  end.

(** [stop_camera()]: [if video_capture:] releases the capture. *)
Definition stop_camera : PyM State unit :=
  py_modify (set_running false) ;;
  st <- py_get ;;
  match video_capture st with
  | Some _ =>
      py_modify (set_video_capture (Some CaptureReleased)) ;;
      py_modify (set_result_label (mkLabel msg_camera_stopped black))
  | None => py_ret tt
  end.

(** [cv2.waitKey(1)]: the next key event of the capture window, or
    [-1] when no key is pressed within the millisecond. *)
Definition wait_key (keys : list Z) : Z * list Z :=
  match keys with
  | [] => ((-1)%Z, [])
  | k :: rest => (k, rest)
  end.

(** [cv2.waitKey(1) & 0xFF == ord('c')] *)
Definition key_c_pressed (k : Z) : bool := Z.eqb (Z.land k 255) 99%Z.

(** The [while True] loop of capture_reference_photo: read frames
    until the read fails or 'c' is pressed ([keys]: the key codes the
    window receives, one [waitKey] per frame shown), writing the frame
    to [reference.jpg] in the latter case.  Returns the rest of the
    camera stream and the file system. *)
Fixpoint capture_loop (cam : list (option Image)) (keys : list Z) (fs : FileSystem Image)
  : list (option Image) * FileSystem Image :=
  match cam with
  | [] => ([], fs)
  | None :: rest => (rest, fs)
  | Some frame :: rest =>
      let (k, keys') := wait_key keys in
      if key_c_pressed k then (rest, imwrite fs reference_image_path frame)
      else capture_loop rest keys' fs
  end.

(** [reference_encoding = encode_face(image)] and the label that
    reports it. *)
Definition set_reference (image : Image) (found notfound : Message) : PyM State unit :=
  let enc := encode_face image in
  py_modify (set_reference_encoding enc) ;;
  match enc with
  | Some _ => py_modify (set_result_label (mkLabel found green))
  | None => py_modify (set_result_label (mkLabel notfound red))
  end.

(** [capture_reference_photo()]. *)
Definition capture_reference_photo (keys : list Z) : PyM State unit :=
  st <- py_get ;;
  let (cam, fs) := capture_loop (camera st) keys (files st) in
  py_modify (fun st => set_files fs (set_camera cam st)) ;;
  image <- py_lift (load_image_file fs reference_image_path) ;;
  set_reference image msg_reference_captured msg_no_face_in_reference.

(** [upload_reference_photo()]; [choice] is what the file dialog
    returned ([None] for [""], the dialog cancelled). *)
Definition upload_reference_photo (choice : option string) : PyM State unit :=
  match choice with
  | None => py_ret tt
  | Some file_path =>
      st <- py_get ;;
      image <- py_lift (load_image_file (files st) file_path) ;;
      set_reference image msg_reference_uploaded msg_no_face_in_upload
  end.

(** The reference, when set, has the 128 components of an encoding. *)
Definition reference_wf (st : State) : Prop :=
  forall r, reference_encoding st = Some r -> List.length r = encoding_dim.

(** Two states are equivalent when they agree on every global and
    their file systems hold the same files. *)
Definition state_equiv (st1 st2 : State) : Prop :=
  set_files [] st1 = set_files [] st2 /\ fs_equiv (files st1) (files st2).

(** No timer and no running loop without a capture object. *)
Definition session_inv (st : State) : Prop :=
  video_capture st = None -> running st = false /\ pending st = 0.

(** The buttons of the two embedding variants (FinalProject.py lines
    180-196, FaceMatching.py lines 153-169) and the timer of
    [video_label.after(10, update_frame)], for the variant's
    [update_frame]; the program starts with every global at its
    initial value. *)
Definition embedding_app (x0 : X) (update_frame : PyM State unit) : TkApp State := {|
  on_capture := capture_reference_photo;
  on_upload := upload_reference_photo;
  on_start := recognize_live update_frame;
  on_stop := stop_camera;
  on_timer := update_frame;
  app_init st := exists cam fs, st = initial_state x0 cam fs;
  timers := pending;
  set_timers := set_pending
|}.

(** What the event-loop theorems need of a variant's [update_frame]:
    it does nothing unless running, keeps the capture object, the flag
    and the reference, sets at most one timer, and sets one only when
    it consumes a camera frame. *)
Class UpdateFrameLaws (update_frame : PyM State unit) : Prop := {
  update_not_running : forall st, running st = false -> py_exec update_frame st = st;
  update_keeps : forall st,
    video_capture (py_exec update_frame st) = video_capture st /\
    running (py_exec update_frame st) = running st /\
    reference_encoding (py_exec update_frame st) = reference_encoding st;
  update_pending : forall st,
    pending st <= pending (py_exec update_frame st) <= S (pending st);
  update_consumes : forall st,
    pending (py_exec update_frame st) = S (pending st) ->
    List.length (camera (py_exec update_frame st)) < List.length (camera st)
}.

End Handlers.

Arguments State Image X : clear implicits.

(** ** Synthetic frames and files

    Frames and files for the concrete runs of the sessions: the owner
    alone, a stranger alone, two people, nobody; the owner's photo and
    a landscape on disk. *)

Definition person_box : PersonBox := mkPersonBox (0, 0, 100, 200) (9 # 10).
Definition left_face : Location := mkLocation 10 60 60 10.
Definition right_face : Location := mkLocation 10 160 60 110.

Definition owner_frame : SynthFrame :=
  mkSynthFrame 480 640 3 [(left_face, [1; 2]%Q)] [person_box].
Definition stranger_frame : SynthFrame :=
  mkSynthFrame 480 640 3 [(left_face, [3; 4]%Q)] [person_box].
Definition crowd_frame : SynthFrame :=
  mkSynthFrame 480 640 3 [(left_face, [1; 2]%Q); (right_face, [3; 4]%Q)] [person_box; person_box].
Definition empty_frame : SynthFrame := mkSynthFrame 480 640 3 [] [].

Definition demo_files : FileSystem SynthFrame :=
  [("owner.png"%string, Picture owner_frame); ("landscape.png"%string, Picture empty_frame)].

(** ** What each shared handler does to the state *)

Section HandlerTheory.

Context {Image : Type} `{OpenCV Image} `{FaceRecognition Image} {X : Type}.

Implicit Types st : State Image X.

Lemma set_pending_same st : set_pending (pending st) st = st.
Proof. destruct st; reflexivity. Qed.

Lemma set_pending_twice (n m : nat) st : set_pending n (set_pending m st) = set_pending n st.
Proof. reflexivity. Qed.

Lemma recognize_live_exec (update_frame : PyM (State Image X) unit) st :
  py_exec (recognize_live update_frame) st =
  match reference_encoding st with
  | None => st
  | Some _ => py_exec update_frame (set_running true (set_video_capture (Some CaptureOpen) st))
  end.
Proof. unfold recognize_live. py_unfold. destruct (reference_encoding st); reflexivity. Qed.

Lemma stop_camera_exec st :
  py_exec stop_camera st =
  match video_capture st with
  | Some _ => set_result_label (mkLabel msg_camera_stopped black)
                (set_video_capture (Some CaptureReleased) (set_running false st))
  | None => set_running false st
  end.
Proof. unfold stop_camera. py_unfold. destruct (video_capture st); reflexivity. Qed.

Lemma set_reference_exec (image : Image) (found notfound : Message) st :
  py_exec (set_reference image found notfound) st =
  set_result_label (match encode_face image with
                    | Some _ => mkLabel found green
                    | None => mkLabel notfound red
                    end)
    (set_reference_encoding (encode_face image) st).
Proof. unfold set_reference. py_unfold. destruct (encode_face image); reflexivity. Qed.

Lemma upload_reference_photo_exec (path : string) st :
  py_exec (upload_reference_photo (Some path)) st =
  match load_image_file (files st) path with
  | Normal image => py_exec (set_reference image msg_reference_uploaded msg_no_face_in_upload) st
  | Raised _ => st
  end.
Proof. unfold upload_reference_photo. py_unfold. destruct (load_image_file _ _); reflexivity. Qed.

Lemma capture_reference_photo_exec (keys : list Z) st :
  py_exec (capture_reference_photo keys) st =
  match capture_loop (camera st) keys (files st) with
  | (cam, fs) =>
      match load_image_file fs reference_image_path with
      | Normal image =>
          py_exec (set_reference image msg_reference_captured msg_no_face_in_reference)
            (set_files fs (set_camera cam st))
      | Raised _ => set_files fs (set_camera cam st)
      end
  end.
Proof.
  unfold capture_reference_photo. py_unfold.
  destruct (capture_loop _ _ _) as [cam fs]. cbn.
  destruct (load_image_file fs _); reflexivity.
Qed.

(** The globals the enrollment handlers leave alone. *)
Definition enrollment_frame st st' : Prop :=
  video_capture st' = video_capture st /\ running st' = running st /\
  pending st' = pending st /\ extra st' = extra st.

Lemma set_reference_frame (image : Image) (found notfound : Message) st :
  enrollment_frame st (py_exec (set_reference image found notfound) st).
Proof. rewrite set_reference_exec. repeat split. Qed.

Lemma capture_frame (keys : list Z) st :
  enrollment_frame st (py_exec (capture_reference_photo keys) st).
Proof.
  rewrite capture_reference_photo_exec. destruct (capture_loop _ _ _) as [cam fs].
  destruct (load_image_file fs _) as [image|]; [|repeat split].
  apply (set_reference_frame image msg_reference_captured msg_no_face_in_reference
           (set_files fs (set_camera cam st))).
Qed.

Lemma upload_frame (choice : option string) st :
  enrollment_frame st (py_exec (upload_reference_photo choice) st).
Proof.
  destruct choice as [path|]; [|repeat split]. rewrite upload_reference_photo_exec.
  destruct (load_image_file _ _); [apply set_reference_frame | repeat split].
Qed.

Lemma stop_camera_not_running st : running (py_exec stop_camera st) = false.
Proof. rewrite stop_camera_exec. destruct (video_capture st); reflexivity. Qed.

Lemma stop_camera_frame st :
  let st' := py_exec stop_camera st in
  reference_encoding st' = reference_encoding st /\ pending st' = pending st /\
  extra st' = extra st /\ camera st' = camera st /\ files st' = files st /\
  (video_capture st = None <-> video_capture st' = None).
Proof.
  rewrite stop_camera_exec. destruct st as [? [?|] ? ? ? ? ? ? ?]; cbn; repeat split; intros; congruence.
Qed.

Lemma enrollment_session_inv st st' :
  enrollment_frame st st' -> session_inv st -> session_inv st'.
Proof. intros (Hv & Hr & Hp & _) Hinv. unfold session_inv. rewrite Hv, Hr, Hp. exact Hinv. Qed.

Lemma stop_camera_session_inv st : session_inv st -> session_inv (py_exec stop_camera st).
Proof.
  unfold session_inv. destruct (stop_camera_frame st) as (_ & -> & _ & _ & _ & Hv).
  intros Hinv Hnone. split; [apply stop_camera_not_running|]. apply Hinv, Hv, Hnone.
Qed.

(** The key test masks the modifier bits away: a key code captures
    exactly when its low byte is ['c']. *)
Lemma key_c_pressed_spec (k : Z) : key_c_pressed k = true <-> (k mod 256 = 99)%Z.
Proof.
  unfold key_c_pressed. rewrite Z.eqb_eq. change 255%Z with (Z.ones 8).
  rewrite Z.land_ones by lia. reflexivity.
Qed.

(** The capture loop on good frames, 'c' pressed on the last one. *)
Lemma capture_loop_pressed (pre : list Image) (ks : list Z) (f : Image) (k : Z) rest
    (keys : list Z) (fs : FileSystem Image) :
  List.length ks = List.length pre -> Forall (fun k => (k mod 256 <> 99)%Z) ks ->
  (k mod 256 = 99)%Z ->
  capture_loop (map Some pre ++ Some f :: rest) (ks ++ k :: keys) fs =
  (rest, imwrite fs reference_image_path f).
Proof.
  intros Hlen Hks Hk. revert ks Hlen Hks.
  induction pre as [|g pre IH]; intros [|k' ks] Hlen Hks; try discriminate.
  - cbn [capture_loop wait_key map app]. apply key_c_pressed_spec in Hk. rewrite Hk. reflexivity.
  - inversion Hks as [|? ? Hk' Hks']; subst. cbn [capture_loop wait_key map app].
    destruct (key_c_pressed k') eqn:E; [apply key_c_pressed_spec in E; contradiction|].
    apply IH; [cbn in Hlen; lia | exact Hks'].
Qed.

(** The capture loop writes at most [reference.jpg]. *)
Lemma capture_loop_files (cam : list (option Image)) (keys : list Z) (fs : FileSystem Image) :
  snd (capture_loop cam keys fs) = fs \/
  exists f, snd (capture_loop cam keys fs) = imwrite fs reference_image_path f.
Proof.
  revert keys. induction cam as [|[f|] cam IH]; intros keys; cbn [capture_loop];
    [left; reflexivity| |left; reflexivity].
  destruct (wait_key keys) as [k keys']. destruct (key_c_pressed k); [|apply IH].
  first [left; reflexivity | right; exists f; reflexivity].
Qed.

Lemma capture_loop_path_exists (cam : list (option Image)) (keys : list Z)
    (fs : FileSystem Image) (p : string) :
  path_exists fs p = true -> path_exists (snd (capture_loop cam keys fs)) p = true.
Proof.
  intros He. destruct (capture_loop_files cam keys fs) as [->|[f ->]]; [exact He|].
  apply path_exists_imwrite_mono, He.
Qed.

(** Without a 'c' among the keys the window receives, the capture loop
    writes nothing, whatever frames the camera delivers. *)
Lemma capture_loop_no_key (cam : list (option Image)) (keys : list Z) (fs : FileSystem Image) :
  Forall (fun k => (k mod 256 <> 99)%Z) keys -> snd (capture_loop cam keys fs) = fs.
Proof.
  revert keys. induction cam as [|[f|] cam IH]; intros keys Hk; cbn [capture_loop];
    [reflexivity | | reflexivity].
  destruct keys as [|k keys]; cbn [wait_key].
  - apply IH. constructor.
  - inversion Hk as [|? ? Hk1 Hks]; subst.
    destruct (key_c_pressed k) eqn:Hc; [apply key_c_pressed_spec in Hc; contradiction|].
    apply IH, Hks.
Qed.

(** The capture loop respects equivalent file systems. *)
Lemma capture_loop_equiv (cam : list (option Image)) (keys : list Z) (fs1 fs2 : FileSystem Image) :
  fs_equiv fs1 fs2 ->
  fst (capture_loop cam keys fs1) = fst (capture_loop cam keys fs2) /\
  fs_equiv (snd (capture_loop cam keys fs1)) (snd (capture_loop cam keys fs2)).
Proof.
  intros Hfs. revert keys. induction cam as [|[f|] cam IH]; intros keys; cbn [capture_loop];
    [split; [reflexivity | exact Hfs] | | split; [reflexivity | exact Hfs]].
  destruct (wait_key keys) as [k keys']. destruct (key_c_pressed k); [|apply IH].
  split; [reflexivity | cbn; rewrite Hfs; reflexivity].
Qed.

End HandlerTheory.

(** ** The event loop of an embedding variant

    Proved once for every [update_frame] that satisfies
    [UpdateFrameLaws]; FinalProject.py and FaceMatching.py discharge
    the laws in their files. *)

#[export] Instance embedding_app_laws {Image : Type} `{OpenCV Image} `{FaceRecognition Image}
  {X : Type} (x0 : X) (update_frame : PyM (State Image X) unit) :
  @TkAppLaws (State Image X) (embedding_app x0 update_frame).
Proof. split; cbn; [reflexivity | apply set_pending_same | reflexivity]. Qed.

Section EmbeddingLoop.

Context {Image : Type} `{OpenCV Image} `{FaceRecognition Image} {X : Type}.
Context (x0 : X) (update_frame : PyM (State Image X) unit) `{!UpdateFrameLaws update_frame}.

#[local] Instance loop_app : TkApp (State Image X) := embedding_app x0 update_frame.

Implicit Types st : State Image X.

Lemma embedding_recognize_live st :
  let st' := py_exec (recognize_live update_frame) st in
  (reference_encoding st = None -> st' = st) /\
  (reference_encoding st <> None ->
   video_capture st' = Some CaptureOpen /\ running st' = true /\ pending st' <= S (pending st) /\
   reference_encoding st' = reference_encoding st).
Proof.
  cbn zeta. rewrite recognize_live_exec. destruct (reference_encoding st) as [r|] eqn:Hr.
  - set (st1 := set_running true (set_video_capture (Some CaptureOpen) st)).
    destruct (update_keeps st1) as (-> & -> & ->). pose proof (update_pending st1) as Hp.
    split; [discriminate|]. intros _. cbn in *. repeat split; [lia | exact Hr].
  - split; [reflexivity|]. intros Hn. contradiction Hn. reflexivity.
Qed.

Lemma embedding_reachable_inv st : reachable st -> session_inv st.
Proof.
  induction 1 as [st (cam & fs & ->)|st st' Hreach IH Hstep]; [intros _; split; reflexivity|].
  destruct Hstep as [keys st|choice st|st|st|st n Hp]; cbn in *.
  - exact (enrollment_session_inv _ _ (capture_frame keys st) IH).
  - exact (enrollment_session_inv _ _ (upload_frame choice st) IH).
  - destruct (embedding_recognize_live st) as (Hnone & Hsome).
    destruct (reference_encoding st) eqn:Hr.
    + intros Hv. destruct Hsome as (Hv' & _); [discriminate | congruence].
    + rewrite Hnone by reflexivity. exact IH.
  - apply stop_camera_session_inv, IH.
  - destruct (update_keeps (set_pending n st)) as (Hv & _). cbn in Hv.
    intros Hv'. rewrite Hv' in Hv. destruct (IH (eq_sym Hv)) as [_ Hp0]. congruence.
Qed.

Lemma embedding_guarded_pending_le_1 st : reachable_guarded st -> pending st <= 1.
Proof.
  induction 1 as [st (cam & fs & ->)|st st' Hreach IH Hstep]; [cbn; lia|].
  destruct Hstep as [keys st|choice st|st Hp|st|st n Hp]; cbn in *.
  - destruct (capture_frame keys st) as (_ & _ & -> & _). exact IH.
  - destruct (upload_frame choice st) as (_ & _ & -> & _). exact IH.
  - destruct (embedding_recognize_live st) as (Hnone & Hsome).
    destruct (reference_encoding st) eqn:Hr.
    + destruct Hsome as (_ & _ & Hle & _); [discriminate | lia].
    + rewrite Hnone by reflexivity. exact IH.
  - destruct (stop_camera_frame st) as (_ & -> & _). exact IH.
  - pose proof (update_pending (set_pending n st)) as Hle. cbn in Hle. lia.
Qed.

Lemma embedding_timers_after_stop st (k : nat) :
  run_events (repeat EvTimer k) (py_exec stop_camera st) =
  set_pending (pending st - k) (py_exec stop_camera st).
Proof.
  rewrite (timers_inert (fun st : State Image X => running st = false)).
  - cbn. destruct (stop_camera_frame st) as (_ & -> & _). reflexivity.
  - intros st0. apply update_not_running.
  - intros n st0 Hr. exact Hr.
  - apply stop_camera_not_running.
Qed.

Lemma embedding_loop_terminates st (k : nat) :
  pending st = 1 -> List.length (camera st) < k ->
  pending (run_events (repeat EvTimer k) st) = 0.
Proof.
  apply (@timer_chain_ends _ loop_app _ (fun st : State Image X => List.length (camera st)));
    [reflexivity|].
  intros st0 Hp. cbn in *. pose proof (update_pending st0) as Hle.
  destruct (pending (py_exec update_frame st0)) as [|[|]] eqn:E; [left; reflexivity | right | lia].
  split; [reflexivity|]. apply update_consumes. rewrite E, Hp. reflexivity.
Qed.

End EmbeddingLoop.

(** ** The shape of the reference along the loop *)

Section ReferenceShape.

Context {Image : Type} `{OpenCV Image} `{FaceRecognition Image} `{!VisionLaws Image} {X : Type}.

Implicit Types st : State Image X.

(** An enrollment handler leaves the reference alone or sets it to the
    encoding of some picture. *)
Lemma set_reference_wf (image : Image) (found notfound : Message) st :
  reference_wf (py_exec (set_reference image found notfound) st).
Proof.
  rewrite set_reference_exec. intros r Hr. apply (encode_face_dim image r), Hr.
Qed.

Lemma capture_reference_wf (keys : list Z) st :
  reference_wf st -> reference_wf (py_exec (capture_reference_photo keys) st).
Proof.
  intros Hwf. rewrite capture_reference_photo_exec. destruct (capture_loop _ _ _) as [cam fs].
  destruct (load_image_file fs _); [apply set_reference_wf | exact Hwf].
Qed.

Lemma upload_reference_wf (choice : option string) st :
  reference_wf st -> reference_wf (py_exec (upload_reference_photo choice) st).
Proof.
  intros Hwf. destruct choice as [path|]; [|exact Hwf]. rewrite upload_reference_photo_exec.
  destruct (load_image_file _ _); [apply set_reference_wf | exact Hwf].
Qed.

Context (x0 : X) (update_frame : PyM (State Image X) unit) `{!UpdateFrameLaws update_frame}.

#[local] Instance shape_app : TkApp (State Image X) := embedding_app x0 update_frame.

Lemma embedding_reachable_reference_wf st : reachable st -> reference_wf st.
Proof.
  induction 1 as [st (cam & fs & ->)|st st' Hreach IH Hstep]; [discriminate|].
  destruct Hstep as [keys st|choice st|st|st|st n Hp]; cbn in *.
  - apply capture_reference_wf, IH.
  - apply upload_reference_wf, IH.
  - destruct (embedding_recognize_live update_frame st) as (Hnone & Hsome).
    destruct (reference_encoding st) eqn:Hr.
    + destruct Hsome as (_ & _ & _ & Href); [discriminate|].
      unfold reference_wf in *. rewrite Href. intros r' [= <-]. apply IH, Hr.
    + rewrite Hnone by reflexivity. exact IH.
  - unfold reference_wf. destruct (stop_camera_frame st) as (-> & _). exact IH.
  - unfold reference_wf. destruct (update_keeps (set_pending n st)) as (_ & _ & ->). exact IH.
Qed.

End ReferenceShape.

(** ** The handlers up to equivalent file systems *)

(** Split a state and the guards of an [update_frame] ([running], the
    capture, the next camera read), closing the branches that return
    before the frame is classified. *)
Ltac update_frame_guards st :=
  destruct st as [?ref ?vc ?run ?x ?lbl ?vf ?p ?cam ?fs0]; cbn;
  destruct run, vc as [[]|], cam as [|[]]; cbn; try reflexivity.

Section FileEquiv.

Context {Image : Type} `{OpenCV Image} `{FaceRecognition Image} {X : Type}.

Implicit Types st : State Image X.

Lemma state_equiv_files_eq st1 st2 : state_equiv st1 st2 -> st2 = set_files (files st2) st1.
Proof. destruct st1, st2. intros [He _]. cbn in He. injection He. intros. subst. reflexivity. Qed.

Lemma state_equiv_set_files st (fs : FileSystem Image) :
  fs_equiv (files st) fs -> state_equiv st (set_files fs st).
Proof. destruct st. intros Hfs. split; [reflexivity | exact Hfs]. Qed.

Lemma state_equiv_set_files2 st (fs1 fs2 : FileSystem Image) :
  fs_equiv fs1 fs2 -> state_equiv (set_files fs1 st) (set_files fs2 st).
Proof. destruct st. intros Hfs. split; [reflexivity | exact Hfs]. Qed.

(** A handler that neither reads nor writes files respects the
    equivalence. *)
Lemma state_equiv_transparent (f : State Image X -> State Image X) :
  (forall fs st, f (set_files fs st) = set_files fs (f st)) ->
  (forall st, files (f st) = files st) ->
  forall st1 st2, state_equiv st1 st2 -> state_equiv (f st1) (f st2).
Proof.
  intros Hc Hfiles st1 st2 HR. rewrite (state_equiv_files_eq _ _ HR), Hc.
  apply state_equiv_set_files. rewrite Hfiles. apply HR.
Qed.

Lemma set_reference_set_files (image : Image) (found notfound : Message) fs st :
  py_exec (set_reference image found notfound) (set_files fs st) =
  set_files fs (py_exec (set_reference image found notfound) st).
Proof. rewrite !set_reference_exec. destruct st. reflexivity. Qed.

Lemma stop_camera_equiv st1 st2 :
  state_equiv st1 st2 -> state_equiv (py_exec stop_camera st1) (py_exec stop_camera st2).
Proof.
  apply state_equiv_transparent; intros; rewrite !stop_camera_exec;
    destruct st as [? []]; reflexivity.
Qed.

Lemma recognize_live_equiv (update_frame : PyM (State Image X) unit) :
  (forall fs st, py_exec update_frame (set_files fs st) = set_files fs (py_exec update_frame st)) ->
  (forall st, files (py_exec update_frame st) = files st) ->
  forall st1 st2, state_equiv st1 st2 ->
  state_equiv (py_exec (recognize_live update_frame) st1) (py_exec (recognize_live update_frame) st2).
Proof.
  intros Hc Hfiles. apply state_equiv_transparent; intros; rewrite !recognize_live_exec.
  - replace (reference_encoding (set_files fs st)) with (reference_encoding st)
      by (destruct st; reflexivity).
    destruct (reference_encoding st); [|reflexivity].
    rewrite <- Hc. f_equal; destruct st; reflexivity.
  - destruct (reference_encoding st); [|reflexivity]. rewrite Hfiles. destruct st. reflexivity.
Qed.

Lemma upload_reference_photo_equiv (choice : option string) st1 st2 :
  state_equiv st1 st2 ->
  state_equiv (py_exec (upload_reference_photo choice) st1)
              (py_exec (upload_reference_photo choice) st2).
Proof.
  intros HR. destruct choice as [path|]; [|exact HR].
  rewrite (state_equiv_files_eq _ _ HR), !upload_reference_photo_exec.
  replace (load_image_file (files (set_files (files st2) st1)) path)
    with (load_image_file (files st1) path)
    by (destruct st1; apply load_image_file_proper; [exact (proj2 HR) | reflexivity]).
  destruct (load_image_file (files st1) path) as [image|e];
    [rewrite set_reference_set_files, set_reference_exec|]; apply state_equiv_set_files;
    destruct st1; exact (proj2 HR).
Qed.

Lemma capture_reference_photo_equiv (keys : list Z) st1 st2 :
  state_equiv st1 st2 ->
  state_equiv (py_exec (capture_reference_photo keys) st1)
              (py_exec (capture_reference_photo keys) st2).
Proof.
  intros HR. rewrite (state_equiv_files_eq _ _ HR), !capture_reference_photo_exec.
  replace (camera (set_files (files st2) st1)) with (camera st1) by (destruct st1; reflexivity).
  replace (files (set_files (files st2) st1)) with (files st2) by (destruct st1; reflexivity).
  destruct (capture_loop_equiv (camera st1) keys (files st1) (files st2) (proj2 HR)) as [Hcam Hfs].
  destruct (capture_loop (camera st1) keys (files st1)) as [cam fs1],
           (capture_loop (camera st1) keys (files st2)) as [cam' fs2].
  cbn in Hcam, Hfs. subst cam'.
  replace (set_files fs2 (set_camera cam (set_files (files st2) st1)))
    with (set_files fs2 (set_camera cam st1)) by (destruct st1; reflexivity).
  rewrite <- (load_image_file_proper fs1 fs2 Hfs reference_image_path _ eq_refl).
  destruct (load_image_file fs1 reference_image_path) as [image|e];
    [rewrite !set_reference_set_files|]; apply state_equiv_set_files2, Hfs.
Qed.

(** The loop of an embedding variant whose [update_frame] neither reads
    nor writes files cannot tell equivalent states apart. *)
Context (x0 : X) (update_frame : PyM (State Image X) unit).

Hypothesis update_frame_set_files :
  forall fs st, py_exec update_frame (set_files fs st) = set_files fs (py_exec update_frame st).
Hypothesis update_frame_files : forall st, files (py_exec update_frame st) = files st.

Lemma embedding_run_events_equiv (evs : list Event) st1 st2 :
  state_equiv st1 st2 ->
  state_equiv (@run_events _ (embedding_app x0 update_frame) evs st1)
              (@run_events _ (embedding_app x0 update_frame) evs st2).
Proof.
  apply run_events_bisim; cbn.
  - intros keys st1' st2'. apply capture_reference_photo_equiv.
  - intros choice st1' st2'. apply upload_reference_photo_equiv.
  - exact (recognize_live_equiv update_frame update_frame_set_files update_frame_files).
  - intros st1' st2'. apply stop_camera_equiv.
  - exact (state_equiv_transparent _ update_frame_set_files update_frame_files).
  - intros st1' st2' [He _]. apply (f_equal pending) in He. destruct st1', st2'. exact He.
  - intros n. exact (state_equiv_transparent (set_pending n)
      (fun fs st => match st with mkState _ _ _ _ _ _ _ _ _ => eq_refl end)
      (fun st => match st with mkState _ _ _ _ _ _ _ _ _ => eq_refl end)).
Qed.

End FileEquiv.

#[export] Instance state_equiv_equivalence {Image : Type} `{OpenCV Image} `{FaceRecognition Image}
  {X : Type} : Equivalence (@state_equiv Image X).
Proof.
  split.
  - intros st. split; reflexivity.
  - intros st1 st2 [He Hf]. split; symmetry; assumption.
  - intros st1 st2 st3 [He1 Hf1] [He2 Hf2]. split; etransitivity; eassumption.
Qed.

Section HandlerClaims.

Context {Image : Type} `{OpenCV Image} `{FaceRecognition Image} {X : Type}.

Implicit Types st : State Image X.

(** Scenario A of the spec: without a reference, pressing
    "Start Recognition" changes nothing (an error box is shown),
    whatever the variant's [update_frame]. *)
Theorem recognize_live_without_reference (update_frame : PyM (State Image X) unit) st :
  reference_encoding st = None -> py_exec (recognize_live update_frame) st = st.
Proof. intros Hr. rewrite recognize_live_exec, Hr. reflexivity. Qed.

(** [stop_camera] is idempotent (spec section 4.3). *)
Theorem stop_camera_idempotent st :
  py_exec stop_camera (py_exec stop_camera st) = py_exec stop_camera st.
Proof. rewrite !stop_camera_exec. destruct st as [? [?|] ? ? ? ? ? ? ?]; reflexivity. Qed.

(** C20. Uploading a picture in which no face is found does not leave
    the previous reference in place, as spec section 4.2 asks: it sets
    [reference_encoding] to [None], and it does so even while
    recognition is running (no [EngineBusy] refusal, spec section 4.3). *)
Theorem upload_without_face_clears_reference st (path : string) (image : Image) :
  load_image_file (files st) path = Normal image -> encode_face image = None ->
  let st' := py_exec (upload_reference_photo (Some path)) st in
  reference_encoding st' = None /\ result_label st' = mkLabel msg_no_face_in_upload red /\
  running st' = running st /\ pending st' = pending st.
Proof.
  intros Hl He. rewrite upload_reference_photo_exec, Hl, set_reference_exec, He.
  repeat split.
Qed.

(** C22. When the camera read fails before 'c' is pressed, nothing is
    written, yet [capture_reference_photo] goes on to encode whatever
    [reference.jpg] already holds from an earlier capture: the old
    picture becomes the reference. *)
Theorem capture_after_read_failure_uses_old_file st (keys : list Z) rest (old : Image) :
  camera st = None :: rest -> load_image_file (files st) reference_image_path = Normal old ->
  let st' := py_exec (capture_reference_photo keys) st in
  reference_encoding st' = encode_face old /\ camera st' = rest /\ files st' = files st.
Proof.
  intros Hc Hl. rewrite capture_reference_photo_exec, Hc. cbn. rewrite Hl, set_reference_exec.
  repeat split.
Qed.

(** Enrollment idempotence (spec section 8): uploading the same
    file twice leaves the same state as uploading it once. *)
Theorem upload_idempotent st (path : string) :
  py_exec (upload_reference_photo (Some path)) (py_exec (upload_reference_photo (Some path)) st) =
  py_exec (upload_reference_photo (Some path)) st.
Proof.
  rewrite !upload_reference_photo_exec.
  destruct (load_image_file (files st) path) as [image|] eqn:Hl; [|rewrite Hl; reflexivity].
  rewrite !set_reference_exec. cbn. rewrite Hl, set_reference_exec. reflexivity.
Qed.

(** C26. Round trip through [reference.jpg]: when the key event
    shown with the frame [f] has ['c'] as its low byte ([waitKey(1) &
    0xFF == ord('c')], modifier bits ignored), after [pre] frames whose
    key events do not, the capture writes [f] to [reference.jpg], reads
    it back with [load_image_file], and the reference becomes [f]'s
    encoding; the frames after [f] are left to the camera. *)
Theorem capture_writes_pressed_frame st (pre : list Image) (f : Image) rest (ks : list Z) (k : Z)
    (keys : list Z) :
  camera st = map Some pre ++ Some f :: rest ->
  List.length ks = List.length pre -> Forall (fun k => (k mod 256 <> 99)%Z) ks ->
  (k mod 256 = 99)%Z ->
  let st' := py_exec (capture_reference_photo (ks ++ k :: keys)) st in
  reference_encoding st' = encode_face f /\ camera st' = rest /\
  files st' = imwrite (files st) reference_image_path f.
Proof.
  intros Hc Hlen Hks Hk.
  rewrite capture_reference_photo_exec, Hc, (capture_loop_pressed pre ks f k) by assumption.
  autorewrite with facematch_rw. rewrite set_reference_exec. repeat split.
Qed.

(** C21. Enrollment by upload (lines 70-83): a file that
    [load_image_file] decodes and in which a face is found becomes the
    reference, replacing any earlier one, with the label "Reference
    photo uploaded" in green; the loop state ([running], the pending
    timers) is left alone. *)
Theorem upload_with_face_sets_reference st (path : string) (image : Image) (e : Encoding) :
  load_image_file (files st) path = Normal image -> encode_face image = Some e ->
  let st' := py_exec (upload_reference_photo (Some path)) st in
  reference_encoding st' = Some e /\ result_label st' = mkLabel msg_reference_uploaded green /\
  running st' = running st /\ pending st' = pending st /\ files st' = files st.
Proof.
  intros Hl He. rewrite upload_reference_photo_exec, Hl, set_reference_exec, He.
  repeat split.
Qed.

(** C23. A capture in which 'c' is never pressed (no key the
    window receives has low byte [0x63]) writes nothing, whatever frames
    the camera delivers before it stops, yet the handler goes on (line
    59 reports the photo saved) to encode whatever [reference.jpg]
    already holds from an earlier run; when there is no such file,
    [load_image_file] raises and the old reference stays. *)
Theorem capture_without_c_writes_nothing st (keys : list Z) :
  Forall (fun k => (k mod 256 <> 99)%Z) keys ->
  let st' := py_exec (capture_reference_photo keys) st in
  files st' = files st /\
  (forall old, load_image_file (files st) reference_image_path = Normal old ->
     reference_encoding st' = encode_face old) /\
  (forall ex, load_image_file (files st) reference_image_path = Raised ex ->
     reference_encoding st' = reference_encoding st).
Proof.
  intros Hk. cbn zeta. rewrite capture_reference_photo_exec.
  pose proof (capture_loop_no_key (camera st) keys (files st) Hk) as Hfs.
  destruct (capture_loop (camera st) keys (files st)) as [cam fs]. cbn in Hfs. subst fs.
  split; [|split].
  - destruct (load_image_file _ _); [rewrite set_reference_exec|]; destruct st; reflexivity.
  - intros old Hl. rewrite Hl, set_reference_exec. reflexivity.
  - intros ex Hl. rewrite Hl. destruct st; reflexivity.
Qed.

End HandlerClaims.

(** ** Witnesses *)

Lemma recognize_live_without_reference_witness :
  py_exec (recognize_live (py_ret tt)) (initial_state tt [Some owner_frame] demo_files) =
  initial_state tt [Some owner_frame] demo_files.
Proof. apply recognize_live_without_reference. reflexivity. Defined.

Lemma upload_without_face_clears_reference_witness :
  let st := initial_state tt [Some owner_frame] demo_files in
  let st' := py_exec (upload_reference_photo (Some "landscape.png"%string)) st in
  reference_encoding st' = None /\ result_label st' = mkLabel msg_no_face_in_upload red /\
  running st' = running st /\ pending st' = pending st.
Proof. apply (upload_without_face_clears_reference _ _ empty_frame); reflexivity. Defined.

Lemma capture_after_read_failure_uses_old_file_witness :
  let st := initial_state tt [None; Some stranger_frame]
              (imwrite demo_files reference_image_path owner_frame) in
  let st' := py_exec (capture_reference_photo [99%Z]) st in
  reference_encoding st' = encode_face owner_frame /\ camera st' = [Some stranger_frame] /\
  files st' = files st.
Proof. cbn zeta. apply capture_after_read_failure_uses_old_file; reflexivity. Defined.

Lemma capture_writes_pressed_frame_witness :
  let st := initial_state tt [Some stranger_frame; Some owner_frame; None] demo_files in
  let st' := py_exec (capture_reference_photo ([-1] ++ 65635 :: [])%Z) st in
  reference_encoding st' = encode_face owner_frame /\ camera st' = [None] /\
  files st' = imwrite (files st) reference_image_path owner_frame.
Proof.
  assert (Hks : Forall (fun k => (k mod 256 <> 99)%Z) [(-1)%Z])
    by (repeat constructor; apply Z.eqb_neq; reflexivity).
  exact (capture_writes_pressed_frame
           (initial_state tt [Some stranger_frame; Some owner_frame; None] demo_files) [stranger_frame] owner_frame [None] [(-1)%Z] 65635%Z []
           eq_refl eq_refl Hks eq_refl).
Defined.

Lemma upload_with_face_sets_reference_witness :
  let st := initial_state tt [Some owner_frame] demo_files in
  let st' := py_exec (upload_reference_photo (Some "owner.png"%string)) st in
  reference_encoding st' = encode_face owner_frame /\
  result_label st' = mkLabel msg_reference_uploaded green /\
  running st' = running st /\ pending st' = pending st /\ files st' = files st.
Proof.
  cbn zeta. destruct (encode_face owner_frame) as [e|] eqn:He; [|vm_compute in He; discriminate].
  apply (upload_with_face_sets_reference _ _ owner_frame e); [reflexivity | exact He].
Defined.

Lemma capture_without_c_writes_nothing_witness :
  let st := initial_state tt [Some stranger_frame; Some stranger_frame]
              (imwrite demo_files reference_image_path owner_frame) in
  let st' := py_exec (capture_reference_photo [(-1)%Z; 356%Z]) st in
  files st' = files st /\
  (forall old, load_image_file (files st) reference_image_path = Normal old ->
     reference_encoding st' = encode_face old) /\
  (forall ex, load_image_file (files st) reference_image_path = Raised ex ->
     reference_encoding st' = reference_encoding st).
Proof.
  apply capture_without_c_writes_nothing.
  repeat (apply Forall_cons; [intros Hk; vm_compute in Hk; discriminate Hk|]). apply Forall_nil.
Defined.
