(* ===== verification/Session.v ===== *)
(** * Session: FinalProject.py as a whole

    The state is [Handlers.State] with FinalProject's own globals
    [frame_counter] and [current_person_count] (lines 15-16) as its
    variant part, the [Cache] of [Cadence]; [cache] names that part.
    The button handlers are the shared ones of [Handlers]
    ([capture_reference_photo] lines 43-68, [upload_reference_photo]
    lines 70-83, [recognize_live] lines 85-93, [stop_camera] lines
    173-178); this file adds FinalProject's [update_frame] (lines
    95-171) and wires the five callbacks into the Tk loop of [TkLoop]
    as the instance [fp_app] (the buttons of lines 180-196).

    The theorems give the exact effect of a processed frame and of its
    error paths, an invariant of the reachable states by rule
    induction, the shape of the reference in every reachable state and
    hence that a frame ends the loop only without a reference, the
    single-loop property of the guarded loop, the termination of the
    timer chain on a finite camera stream, the bisimulation of states
    whose file systems hold the same files, and the defects (a second
    loop after Start, a frame gated by a stale cached count, the count
    surviving Stop and Start) for every state in which they arise;
    witnesses instantiate them on synthetic frames. *)

From Stdlib Require Import List Arith Lia QArith String.
From S2P Require Import Prelude Vision Distance Encode Decision Cadence TkLoop Handlers.
Import ListNotations.

Local Open Scope py_scope.
Local Open Scope nat_scope.

(** FinalProject's own globals in the state. *)
Abbreviation cache := extra (only parsing).
Abbreviation set_cache := set_extra (only parsing).

Section Session.

Context {Image : Type} `{OpenCV Image} `{FaceRecognition Image} `{PersonDetector Image}.

(** [update_frame()], lines 95-171. *)
Definition update_frame : PyM (State Image Cache) unit :=
  st <- py_get ;;
  if negb (running st) then py_ret tt else
  r <- read_frame ;;
  match r with
  | None => py_ret tt
  | Some frame =>
      let frame_rgb := cvtColor frame COLOR_BGR2RGB in
      let small_frame := resize frame_rgb (1 # 2) (1 # 2) in
      let processed_frame := preprocess_image small_frame in
      py_modify (fun st => set_cache (refresh_person_count frame (cache st)) st) ;;
      st <- py_get ;;
      label <- py_lift (classify_frame (current_person_count (cache st))
                                       (reference_encoding st) processed_frame) ;;
      py_modify (set_result_label label) ;;
      py_modify (set_video_frame (Some frame)) ;;
      py_modify (fun st => set_cache (advance_counter (cache st)) st) ;;
      py_modify (fun st => set_pending (S (pending st)) st)
  end.

End Session.

(** The buttons of lines 180-196 and the timer of line 171; the
    program starts with every global at its value of lines 10-16. *)
#[export] Instance fp_app {Image : Type} `{OpenCV Image} `{FaceRecognition Image}
  `{PersonDetector Image} : TkApp (State Image Cache) :=
  embedding_app initial_cache update_frame.

#[export] Instance fp_app_laws {Image : Type} `{OpenCV Image} `{FaceRecognition Image}
  `{PersonDetector Image} : TkAppLaws (State Image Cache).
Proof. apply embedding_app_laws. Qed.

Ltac fp_unfold :=
  cbn [on_capture on_upload on_start on_stop on_timer app_init timers set_timers
       fp_app embedding_app] in *.

(** The synthetic session of the concrete runs. *)
Definition demo_session (cam : list (option SynthFrame)) : State SynthFrame Cache :=
  initial_state initial_cache cam demo_files.

(** ** What [update_frame] does to the state *)

Section SessionTheory.

Context {Image : Type} `{OpenCV Image} `{FaceRecognition Image} `{PersonDetector Image}.

Implicit Types st : State Image Cache.

(** The processed frame of lines 107-109. *)
Definition processed (frame : Image) : Image :=
  preprocess_image (resize (cvtColor frame COLOR_BGR2RGB) (1 # 2) (1 # 2)).

Lemma update_frame_exec st :
  py_exec update_frame st =
  if negb (running st) then st else
  match video_capture st with
  | Some CaptureOpen =>
      match camera st with
      | Some frame :: rest =>
          let st1 := set_cache (refresh_person_count frame (cache st)) (set_camera rest st) in
          match classify_frame (current_person_count (cache st1)) (reference_encoding st1)
                  (processed frame) with
          | Raised _ => st1
          | Normal label =>
              set_pending (S (pending st1))
                (set_cache (advance_counter (cache st1))
                   (set_video_frame (Some frame) (set_result_label label st1)))
          end
      | None :: rest => set_camera rest st
      | [] => st
      end
  | _ => st
  end.
Proof.
  unfold update_frame, read_frame, processed. py_unfold.
  destruct (running st); cbn; [|reflexivity].
  destruct (video_capture st) as [[|]|]; cbn; try reflexivity.
  destruct (camera st) as [|[frame|] rest]; cbn; try reflexivity.
  destruct (classify_frame _ _ _); reflexivity.
Qed.

Lemma update_frame_not_running st :
  running st = false -> py_exec update_frame st = st.
Proof. intros Hr. unfold update_frame. py_unfold. rewrite Hr. reflexivity. Qed.

(** Split [update_frame] on its guards and its read, closing the branches
    that return early. *)
Ltac update_frame_cases st :=
  unfold update_frame, read_frame; py_unfold;
  destruct (running st) eqn:?; cbn; [|solve_frame];
  destruct (video_capture st) as [[|]|] eqn:?; cbn; try solve_frame;
  destruct (camera st) as [|[?frame|] ?rest] eqn:?; cbn; try solve_frame.

Lemma update_frame_frame st :
  let st' := py_exec update_frame st in
  reference_encoding st' = reference_encoding st /\ video_capture st' = video_capture st /\
  running st' = running st /\ files st' = files st /\
  pending st <= pending st' <= S (pending st) /\
  frame_counter (cache st) <= frame_counter (cache st').
Proof.
  cbn zeta. update_frame_cases st.
  unfold refresh_person_count. destruct (yolo_due (frame_counter (cache st)));
    destruct_outcome; cbn; solve_frame.
Qed.

(** [update_frame] sets a timer only after reading a frame. *)
Lemma update_frame_consumes st :
  pending (py_exec update_frame st) = S (pending st) ->
  List.length (camera (py_exec update_frame st)) < List.length (camera st).
Proof.
  update_frame_cases st. destruct_outcome; cbn; solve_frame.
Qed.

(** [update_frame] neither reads nor writes a file. *)
Lemma update_frame_set_files (fs : FileSystem Image) st :
  py_exec update_frame (set_files fs st) = set_files fs (py_exec update_frame st).
Proof.
  rewrite !update_frame_exec. update_frame_guards st. destruct (classify_frame _ _ _); reflexivity.
Qed.

#[export] Instance update_frame_laws : UpdateFrameLaws update_frame.
Proof.
  split.
  - apply update_frame_not_running.
  - intros st. destruct (update_frame_frame st) as (? & ? & ? & _). repeat split; assumption.
  - intros st. apply (update_frame_frame st).
  - apply update_frame_consumes.
Qed.

Lemma recognize_live_counter st :
  frame_counter (cache st) <= frame_counter (cache (py_exec (recognize_live update_frame) st)).
Proof.
  rewrite recognize_live_exec. destruct (reference_encoding st); [|lia].
  apply (update_frame_frame (set_running true (set_video_capture (Some CaptureOpen) st))).
Qed.

(** C28. Scenario D of the spec: after "Stop Camera", every timer still
    pending expires without reading a frame or changing the label; the
    state is the stopped one with fewer timers pending. *)
Theorem timers_after_stop st (k : nat) :
  @run_events _ fp_app (repeat EvTimer k) (py_exec stop_camera st) =
  set_pending (pending st - k) (py_exec stop_camera st).
Proof. exact (embedding_timers_after_stop initial_cache update_frame st k). Qed.

(** The effect of a frame processed to its end. *)
Lemma update_frame_normal st (frame : Image) rest (label : Label) :
  running st = true -> video_capture st = Some CaptureOpen -> camera st = Some frame :: rest ->
  classify_frame (current_person_count (refresh_person_count frame (cache st)))
                 (reference_encoding st) (processed frame) = Normal label ->
  let st' := py_exec update_frame st in
  result_label st' = label /\ cache st' = process_frame frame (cache st) /\
  pending st' = S (pending st) /\ camera st' = rest /\ running st' = true.
Proof.
  intros Hr Hv Hc Hl. rewrite update_frame_exec, Hr, Hv, Hc. cbn. rewrite Hl.
  repeat split; assumption.
Qed.

(** C11. A frame processed to its end (lines 100-171): the label is the
    gated classification of the processed frame under the refreshed
    person count, the detector cache moves as [Cadence.process_frame]
    says, one new timer is pending and the session keeps running. *)
Theorem update_frame_processes_frame st (frame : Image) rest (label : Label) :
  running st = true -> video_capture st = Some CaptureOpen -> camera st = Some frame :: rest ->
  classify_frame (current_person_count (refresh_person_count frame (cache st)))
                 (reference_encoding st) (processed frame) = Normal label ->
  let st' := py_exec update_frame st in
  result_label st' = label /\ cache st' = process_frame frame (cache st) /\
  pending st' = S (pending st) /\ camera st' = rest /\ running st' = true.
Proof. apply update_frame_normal. Qed.

(** C18. Error path (a divergence from spec section 4.5): when the
    classification raises, [update_frame] stops before rescheduling
    itself: no timer is set, the frame is not counted and the label is
    not updated, while [running] stays true. *)
Theorem update_frame_exception st (frame : Image) rest (e : exn) :
  running st = true -> video_capture st = Some CaptureOpen -> camera st = Some frame :: rest ->
  classify_frame (current_person_count (refresh_person_count frame (cache st)))
                 (reference_encoding st) (processed frame) = Raised e ->
  let st' := py_exec update_frame st in
  pending st' = pending st /\ frame_counter (cache st') = frame_counter (cache st) /\
  result_label st' = result_label st /\ running st' = true.
Proof.
  intros Hr Hv Hc Hl. rewrite update_frame_exec, Hr, Hv, Hc. cbn. rewrite Hl. cbn.
  unfold refresh_person_count. destruct (yolo_due _); repeat split; assumption.
Qed.

(** C19. A failed camera read (spec section 6 says: skip the cycle) ends
    the loop instead: with one timer pending, the timer runs
    [update_frame], which returns before rescheduling; the session
    still reads as running but no timer is left, so no later frame is
    ever processed until "Start Recognition" is pressed again. *)
Theorem read_failure_ends_loop st rest :
  pending st = 1 -> running st = true -> video_capture st = Some CaptureOpen ->
  camera st = None :: rest ->
  exists st', @dispatch _ fp_app EvTimer st = Some st' /\
    running st' = true /\ pending st' = 0 /\
    forall k, run_events (repeat EvTimer k) st' = st'.
Proof.
  intros Hp Hr Hv Hc. cbn. rewrite Hp. eexists. split; [reflexivity|].
  rewrite update_frame_exec. cbn. rewrite Hr, Hv, Hc. cbn. repeat split; [assumption|].
  intros k. apply run_events_no_timers. reflexivity.
Qed.

(** C14. Invariant of the event loop, by rule induction on reachability:
    a loop that is running or a timer that is pending always comes with
    a capture object ([video_capture] is never [None] then). *)
Theorem reachable_session_inv st :
  @reachable _ fp_app st -> session_inv st.
Proof. exact (embedding_reachable_inv initial_cache update_frame st). Qed.

(** [frame_counter] never decreases along the event loop. *)
Theorem step_frame_counter_monotone st st' :
  step st st' -> frame_counter (cache st) <= frame_counter (cache st').
Proof.
  destruct 1 as [keys st|choice st|st|st|st n _]; fp_unfold.
  - destruct (capture_frame keys st) as (_ & _ & _ & ->). lia.
  - destruct (upload_frame choice st) as (_ & _ & _ & ->). lia.
  - apply recognize_live_counter.
  - destruct (stop_camera_frame st) as (_ & _ & -> & _). lia.
  - apply (update_frame_frame (set_pending n st)).
Qed.

(** C16. If "Start Recognition" is only pressed while no timer is
    pending, at most one [update_frame] loop exists: at most one timer
    is ever pending. *)
Theorem guarded_pending_le_1 st :
  @reachable_guarded _ fp_app st -> pending st <= 1.
Proof. exact (embedding_guarded_pending_le_1 initial_cache update_frame st). Qed.

(** C27. Termination of the recognition loop: the camera stream is
    finite, and every expiry of the one pending timer either consumes a
    frame and sets the next timer, or sets none; after more expiries
    than the camera has frames left, no timer is pending and the loop
    has ended. *)
Theorem recognition_loop_terminates st (k : nat) :
  pending st = 1 -> List.length (camera st) < k ->
  pending (@run_events _ fp_app (repeat EvTimer k) st) = 0.
Proof. exact (embedding_loop_terminates initial_cache update_frame st k). Qed.

(** Bisimulation up to the file system: FinalProject.py sees its
    files only through what a path holds ([load_image_file] at lines 62
    and 77, [cv2.imwrite] at line 54), so two states that agree on every
    global and whose file systems hold the same files (one of them may
    keep overwritten versions in its history) stay so under any
    sequence of events. *)
Lemma run_events_files_equiv (evs : list Event) st1 st2 :
  state_equiv st1 st2 ->
  state_equiv (@run_events _ fp_app evs st1) (@run_events _ fp_app evs st2).
Proof.
  apply embedding_run_events_equiv; [apply update_frame_set_files|].
  intros st. destruct (update_frame_frame st) as (_ & _ & _ & Hf & _). exact Hf.
Qed.

(** C17. Two [update_frame] loops (a defect): [recognize_live] (lines
    85-93) checks the reference but not [running], and calls
    [update_frame] directly.  In any state with a reference whose next
    camera frame classifies, pressing "Start Recognition" processes
    that frame and adds one pending timer to those already pending: a
    second press during a session, or Stop and Start before the pending
    timer expired, leaves two self-rescheduling loops. *)
Theorem start_adds_timer st (frame : Image) rest (label : Label) :
  reference_encoding st <> None -> camera st = Some frame :: rest ->
  classify_frame (current_person_count (refresh_person_count frame (cache st)))
                 (reference_encoding st) (processed frame) = Normal label ->
  let st' := py_exec (recognize_live update_frame) st in
  pending st' = S (pending st) /\ running st' = true /\ result_label st' = label.
Proof.
  intros Href Hc Hl. cbn zeta. rewrite recognize_live_exec.
  destruct (reference_encoding st) as [r|] eqn:Hr; [|contradiction].
  destruct st as [ref vc run x lbl vf p cam fs]; cbn in *. subst ref cam.
  destruct (update_frame_normal (mkState (Some r) (Some CaptureOpen) true x lbl vf p
              (Some frame :: rest) fs) frame rest label eq_refl eq_refl eq_refl Hl)
    as (E1 & _ & E2 & _ & E3).
  split; [exact E2 | split; [exact E3 | exact E1]].
Qed.

(** C24. Between two detections the label ignores the frame's persons
    (spec scenario C): when [frame_counter] is not a multiple of 5,
    YOLO does not run on the frame (line 112) and the gate uses the
    cached count; with a cached count of 0, every frame read, whatever
    persons it shows, is labelled "No person detected". *)
Theorem cached_count_gates_frame st (frame : Image) rest :
  running st = true -> video_capture st = Some CaptureOpen -> camera st = Some frame :: rest ->
  yolo_due (frame_counter (cache st)) = false -> current_person_count (cache st) = 0 ->
  let st' := py_exec update_frame st in
  result_label st' = mkLabel msg_no_person gray /\ pending st' = S (pending st) /\
  cache st' = advance_counter (cache st).
Proof.
  intros Hr Hv Hc Hdue Hzero. cbn zeta.
  assert (Hl : classify_frame (current_person_count (refresh_person_count frame (cache st)))
                 (reference_encoding st) (processed frame) = Normal (mkLabel msg_no_person gray))
    by (rewrite refresh_not_due, Hzero by exact Hdue; reflexivity).
  destruct (update_frame_normal st frame rest _ Hr Hv Hc Hl) as (E1 & E2 & E3 & _).
  unfold process_frame in E2. rewrite refresh_not_due in E2 by exact Hdue.
  repeat split; assumption.
Qed.

(** C25. Stop and Start keep the detector cache (lines 85-93 and
    173-178 never reset [frame_counter] or [current_person_count]):
    unless the counter is a multiple of 5, the first frame of the new
    session is gated by the count the previous session cached. *)
Theorem restart_keeps_cached_count st (frame : Image) rest (label : Label) :
  reference_encoding st <> None -> camera st = Some frame :: rest ->
  yolo_due (frame_counter (cache st)) = false ->
  classify_frame (current_person_count (cache st)) (reference_encoding st) (processed frame)
    = Normal label ->
  let st' := py_exec (recognize_live update_frame) (py_exec stop_camera st) in
  result_label st' = label /\ cache st' = advance_counter (cache st).
Proof.
  intros Href Hc Hdue Hl. cbn zeta.
  destruct (stop_camera_frame st) as (Hr' & _ & Hx & Hc' & _).
  rewrite recognize_live_exec, Hr'.
  destruct (reference_encoding st) as [r|] eqn:Hr; [|contradiction].
  remember (py_exec stop_camera st) as st1 eqn:Hst1.
  destruct st1 as [ref vc run x lbl vf p cam fs]; cbn in Hr', Hx, Hc' |- *.
  rewrite Hc in Hc'. subst ref cam x.
  rewrite <- (refresh_not_due frame (cache st) Hdue) in Hl.
  destruct (update_frame_normal (mkState (Some r) (Some CaptureOpen) true (cache st) lbl vf p
              (Some frame :: rest) fs) frame rest label eq_refl eq_refl eq_refl Hl)
    as (E1 & E2 & _).
  unfold process_frame in E2. rewrite refresh_not_due in E2 by exact Hdue.
  split; assumption.
Qed.

End SessionTheory.

(** ** The reference and the end of the loop *)

Section SessionShape.

Context {Image : Type} `{OpenCV Image} `{FaceRecognition Image} `{PersonDetector Image}
  `{!VisionLaws Image}.

Implicit Types st : State Image Cache.

(** C15. On a reachable state, a frame read from an open camera ends
    the loop (no new timer) only when no reference is set: the other
    exceptions of lines 125-159, numpy's shape error and the
    [IndexError] of [face_locations[0]], never happen. *)
Theorem reachable_loop_ends_only_without_reference st (frame : Image) rest :
  @reachable _ fp_app st -> running st = true -> video_capture st = Some CaptureOpen ->
  camera st = Some frame :: rest ->
  pending (py_exec update_frame st) = pending st -> reference_encoding st = None.
Proof.
  intros Hreach Hr Hv Hc. rewrite update_frame_exec, Hr, Hv, Hc. cbn.
  destruct (classify_frame _ _ _) as [label|e] eqn:Hcl; cbn; [lia|intros _].
  refine (proj1 (classify_frame_raises _ _ _ e _ Hcl)). intros r Hre. apply (embedding_reachable_reference_wf initial_cache update_frame st Hreach r Hre).
Qed.

End SessionShape.

(** ** A run of the event loop *)

(** Scenario B of the spec: enrolling from a one-face photo and
    starting recognition on a frame of the owner alone shows
    ["Same Person"]. *)
Theorem scenario_enroll_and_match :
  result_label (run_events [EvUpload (Some "owner.png"%string); EvStart]
                  (demo_session [Some owner_frame]))
  = mkLabel msg_same_person green.
Proof. vm_compute. reflexivity. Qed.

(** ** Witnesses *)

Lemma update_frame_processes_frame_witness :
  let st := run_events [EvUpload (Some "owner.png"%string)] (demo_session [Some owner_frame]) in
  let st := set_running true (set_video_capture (Some CaptureOpen) st) in
  let st' := py_exec update_frame st in
  result_label st' = mkLabel msg_same_person green /\
  cache st' = process_frame owner_frame (cache st) /\
  pending st' = S (pending st) /\ camera st' = [] /\ running st' = true.
Proof.
  cbn zeta. apply update_frame_processes_frame; vm_compute; reflexivity.
Defined.

Lemma update_frame_exception_witness :
  let st := set_running true (set_video_capture (Some CaptureOpen)
              (set_cache (mkCache 0 1) (demo_session [Some owner_frame]))) in
  let st' := py_exec update_frame st in
  pending st' = pending st /\ frame_counter (cache st') = frame_counter (cache st) /\
  result_label st' = result_label st /\ running st' = true.
Proof.
  cbn zeta. apply (update_frame_exception _ owner_frame [] TypeError); vm_compute; reflexivity.
Defined.

Lemma read_failure_ends_loop_witness :
  exists st', dispatch EvTimer
      (set_pending 1 (set_running true (set_video_capture (Some CaptureOpen)
         (demo_session [None; Some owner_frame])))) = Some st' /\
    running st' = true /\ pending st' = 0 /\
    forall k, run_events (repeat EvTimer k) st' = st'.
Proof. apply (read_failure_ends_loop _ [Some owner_frame]); reflexivity. Defined.

Lemma reachable_session_inv_witness : session_inv (demo_session [Some owner_frame]).
Proof.
  apply reachable_session_inv. apply reachable_init. exists [Some owner_frame], demo_files.
  reflexivity.
Defined.

Lemma step_frame_counter_monotone_witness :
  frame_counter (cache (demo_session [Some owner_frame])) <=
  frame_counter (cache (py_exec (recognize_live update_frame) (demo_session [Some owner_frame]))).
Proof. apply step_frame_counter_monotone. apply (@step_start _ fp_app). Defined.

Lemma guarded_pending_le_1_witness :
  pending (py_exec (recognize_live update_frame) (demo_session [Some owner_frame])) <= 1.
Proof.
  apply guarded_pending_le_1. eapply reachable_guarded_step.
  - apply reachable_guarded_init. exists [Some owner_frame], demo_files. reflexivity.
  - apply (@guarded_start _ fp_app). reflexivity.
Defined.


Lemma recognition_loop_terminates_witness :
  let st := run_events [EvUpload (Some "owner.png"%string); EvStart]
              (demo_session [Some owner_frame; Some stranger_frame; Some owner_frame]) in
  pending st = 1 /\ pending (run_events (repeat EvTimer 3) st) = 0.
Proof.
  cbn zeta. split; [vm_compute; reflexivity|].
  apply recognition_loop_terminates; vm_compute; [reflexivity | lia].
Defined.

Lemma reachable_loop_ends_only_without_reference_witness :
  let st := run_events [EvUpload (Some "owner.png"%string); EvStart;
                        EvUpload (Some "landscape.png"%string)]
              (demo_session (repeat (Some owner_frame) 3)) in
  pending (py_exec update_frame st) = pending st /\ reference_encoding st = None.
Proof.
  cbn zeta. split; [vm_compute; reflexivity|].
  apply (reachable_loop_ends_only_without_reference _ owner_frame [Some owner_frame]);
    [| vm_compute; reflexivity ..].
  apply run_events_reachable. apply reachable_init.
  exists (repeat (Some owner_frame) 3), demo_files. reflexivity.
Defined.


Lemma start_adds_timer_witness :
  let st := run_events [EvUpload (Some "owner.png"%string); EvStart]
              (demo_session (repeat (Some owner_frame) 4)) in
  let st' := py_exec (recognize_live update_frame) st in
  pending st' = S (pending st) /\ running st' = true /\
  result_label st' = mkLabel msg_same_person green.
Proof.
  cbn zeta. apply (start_adds_timer _ owner_frame (repeat (Some owner_frame) 2));
    [vm_compute; discriminate | vm_compute; reflexivity | vm_compute; reflexivity].
Defined.

Lemma cached_count_gates_frame_witness :
  let st := run_events [EvUpload (Some "owner.png"%string); EvStart]
              (demo_session [Some empty_frame; Some crowd_frame]) in
  let st' := py_exec update_frame st in
  result_label st' = mkLabel msg_no_person gray /\ pending st' = S (pending st) /\
  cache st' = advance_counter (cache st).
Proof. cbn zeta. apply (cached_count_gates_frame _ crowd_frame []); vm_compute; reflexivity. Defined.

Lemma restart_keeps_cached_count_witness :
  let st := run_events [EvUpload (Some "owner.png"%string); EvStart]
              (demo_session [Some owner_frame; Some crowd_frame]) in
  let st' := py_exec (recognize_live update_frame) (py_exec stop_camera st) in
  result_label st' = mkLabel msg_same_person green /\ cache st' = advance_counter (cache st).
Proof.
  cbn zeta. apply (restart_keeps_cached_count _ crowd_frame [] (mkLabel msg_same_person green));
    [vm_compute; discriminate | vm_compute; reflexivity ..].
Defined.
