(* ===== verification/SessionFM.v ===== *)
(** * SessionFM: FaceMatching.py as a whole

    FaceMatching.py has the globals of [Handlers] and nothing of its
    own ([State Image unit]); its four button handlers are the shared
    ones (their text is FinalProject's: [capture_reference_photo]
    lines 40-65, [upload_reference_photo] lines 67-80,
    [recognize_live] lines 82-90, [stop_camera] lines 146-151).  Its
    [update_frame] (lines 92-144) has no person detector: every face of
    the half-size frame is compared with the reference
    ([Decision.classify_all_faces]) and the last verdict, or an empty
    label when there is no face, is shown.  [fm_app] wires the
    handlers into the Tk loop (buttons of lines 153-169).

    The theorems give the effect of a processed frame, the cleared
    label on a frame without a face, the loop's end on the first face
    after the reference is lost, and the loop properties proved once in
    [Handlers]. *)

From Stdlib Require Import List Arith Lia QArith String ZArith.
From S2P Require Import Prelude Vision Distance Encode Decision TkLoop Handlers.
Import ListNotations.

Local Open Scope py_scope.
Local Open Scope nat_scope.

Section SessionFM.

Context {Image : Type} `{OpenCV Image} `{FaceRecognition Image}.

(** Start-up: lines 10-13 and the empty [result_label] of line 25. *)
Definition fm_initial_state (camera : list (option Image)) (files : FileSystem Image)
  : State Image unit :=
  initial_state tt camera files.

(** The shared handlers at FaceMatching.py's state. *)
Definition fm_capture_reference_photo (keys : list Z) : PyM (State Image unit) unit :=
  capture_reference_photo keys.

Definition fm_upload_reference_photo (choice : option string) : PyM (State Image unit) unit :=
  upload_reference_photo choice.

Definition fm_stop_camera : PyM (State Image unit) unit := stop_camera.

(** [update_frame()], lines 92-144: the frame is halved before it is
    converted to RGB (the other order from FinalProject.py). *)
Definition fm_update_frame : PyM (State Image unit) unit :=
  st <- py_get ;;
  if negb (running st) then py_ret tt else
  r <- read_frame ;;
  match r with
  | None => py_ret tt
  | Some frame =>
      let small_frame := resize frame (1 # 2) (1 # 2) in
      let rgb_small_frame := cvtColor small_frame COLOR_BGR2RGB in
      let processed_frame := fm_preprocess_image rgb_small_frame in
      st <- py_get ;;
      label <- py_lift (classify_all_faces (reference_encoding st) processed_frame) ;;
      py_modify (set_result_label label) ;;
      py_modify (set_video_frame (Some frame)) ;;
      py_modify (fun st => set_pending (S (pending st)) st)
  end.

Definition fm_recognize_live : PyM (State Image unit) unit := recognize_live fm_update_frame.

End SessionFM.

(** The buttons of lines 153-169 and the timer of line 144. *)
#[export] Instance fm_app {Image : Type} `{OpenCV Image} `{FaceRecognition Image}
  : TkApp (State Image unit) := {|
  on_capture := fm_capture_reference_photo;
  on_upload := fm_upload_reference_photo;
  on_start := fm_recognize_live;
  on_stop := fm_stop_camera;
  on_timer := fm_update_frame;
  app_init st := exists cam fs, st = fm_initial_state cam fs;
  timers := pending;
  set_timers := set_pending
|}.

#[export] Instance fm_app_laws {Image : Type} `{OpenCV Image} `{FaceRecognition Image}
  : TkAppLaws (State Image unit).
Proof. apply (embedding_app_laws tt fm_update_frame). Qed.

(** The synthetic session of the concrete runs. *)
Definition fm_demo (cam : list (option SynthFrame)) : State SynthFrame unit :=
  fm_initial_state cam demo_files.

(** ** What [fm_update_frame] does to the state *)

Section SessionFMTheory.

Context {Image : Type} `{OpenCV Image} `{FaceRecognition Image}.

Implicit Types st : State Image unit.

(** The processed frame of lines 101-103. *)
Definition fm_processed (frame : Image) : Image :=
  fm_preprocess_image (cvtColor (resize frame (1 # 2) (1 # 2)) COLOR_BGR2RGB).

Lemma fm_update_frame_exec st :
  py_exec fm_update_frame st =
  if negb (running st) then st else
  match video_capture st with
  | Some CaptureOpen =>
      match camera st with
      | Some frame :: rest =>
          match classify_all_faces (reference_encoding st) (fm_processed frame) with
          | Raised _ => set_camera rest st
          | Normal label =>
              set_pending (S (pending st))
                (set_video_frame (Some frame) (set_result_label label (set_camera rest st)))
          end
      | None :: rest => set_camera rest st
      | [] => st
      end
  | _ => st
  end.
Proof.
  unfold fm_update_frame, read_frame, fm_processed. py_unfold.
  destruct (running st); cbn; [|reflexivity].
  destruct (video_capture st) as [[|]|]; cbn; try reflexivity.
  destruct (camera st) as [|[frame|] rest]; cbn; try reflexivity.
  destruct (classify_all_faces _ _); reflexivity.
Qed.

Lemma fm_update_frame_frame st :
  let st' := py_exec fm_update_frame st in
  reference_encoding st' = reference_encoding st /\ video_capture st' = video_capture st /\
  running st' = running st /\ pending st <= pending st' <= S (pending st) /\
  (pending st' = S (pending st) -> List.length (camera st') < List.length (camera st)).
Proof.
  cbn zeta. rewrite fm_update_frame_exec. destruct (running st) eqn:Hr; cbn; [|solve_frame].
  destruct (video_capture st) as [[|]|] eqn:Hv; cbn; try solve_frame.
  destruct (camera st) as [|[frame|] rest] eqn:Hc; cbn; try solve_frame.
  destruct_outcome; cbn; solve_frame.
Qed.

#[export] Instance fm_update_frame_laws : UpdateFrameLaws fm_update_frame.
Proof.
  split; intros st; destruct (fm_update_frame_frame st) as (? & ? & ? & ? & ?); try solve_frame.
  intros Hr. rewrite fm_update_frame_exec, Hr. reflexivity.
Qed.

(** C29. A frame processed to its end (lines 97-144): the label is the
    verdict of the face loop on the processed frame (the last face's),
    the frame is shown and one new timer is pending; nothing gates the
    verdict on the number of persons. *)
Theorem fm_update_frame_processes_frame st (frame : Image) rest (label : Label) :
  running st = true -> video_capture st = Some CaptureOpen -> camera st = Some frame :: rest ->
  classify_all_faces (reference_encoding st) (fm_processed frame) = Normal label ->
  let st' := py_exec fm_update_frame st in
  result_label st' = label /\ video_frame st' = Some frame /\
  pending st' = S (pending st) /\ camera st' = rest /\ running st' = true.
Proof.
  intros Hr Hv Hc Hl. rewrite fm_update_frame_exec, Hr, Hv, Hc. cbn. rewrite Hl.
  repeat split; assumption.
Qed.

(** C30. A frame in which no face is located clears the label to the
    empty black text of lines 108-109 (the spec asks for "No face
    detected"), and the loop goes on, even when no reference is set:
    with no face the loop body, where [face_distance] raises, never
    runs. *)
Theorem fm_no_face_clears_label st (frame : Image) rest :
  running st = true -> video_capture st = Some CaptureOpen -> camera st = Some frame :: rest ->
  face_locations (fm_processed frame) = [] ->
  let st' := py_exec fm_update_frame st in
  result_label st' = blank_label /\ pending st' = S (pending st) /\ camera st' = rest.
Proof.
  intros Hr Hv Hc Hf. rewrite fm_update_frame_exec, Hr, Hv, Hc. cbn.
  unfold classify_all_faces. rewrite Hf. repeat split.
Qed.

(** The loop properties of [Handlers] for FaceMatching.py. *)
Lemma fm_reachable_session_inv st : reachable st -> session_inv st.
Proof. exact (embedding_reachable_inv tt fm_update_frame st). Qed.

Lemma fm_guarded_pending_le_1 st : reachable_guarded st -> pending st <= 1.
Proof. exact (embedding_guarded_pending_le_1 tt fm_update_frame st). Qed.

Lemma fm_timers_after_stop st (k : nat) :
  run_events (repeat EvTimer k) (py_exec fm_stop_camera st) =
  set_pending (pending st - k) (py_exec fm_stop_camera st).
Proof. exact (embedding_timers_after_stop tt fm_update_frame st k). Qed.

Lemma fm_recognition_loop_terminates st (k : nat) :
  pending st = 1 -> List.length (camera st) < k ->
  pending (run_events (repeat EvTimer k) st) = 0.
Proof. exact (embedding_loop_terminates tt fm_update_frame st k). Qed.

(** FaceMatching.py's [update_frame] touches no file either, so its
    loop is a bisimulation for [state_equiv] too. *)
Lemma fm_update_frame_set_files (fs : FileSystem Image) st :
  py_exec fm_update_frame (set_files fs st) = set_files fs (py_exec fm_update_frame st).
Proof.
  rewrite !fm_update_frame_exec. update_frame_guards st.
  destruct (classify_all_faces _ _); reflexivity.
Qed.

Lemma fm_update_frame_files st : files (py_exec fm_update_frame st) = files st.
Proof.
  rewrite fm_update_frame_exec. update_frame_guards st.
  destruct (classify_all_faces _ _); reflexivity.
Qed.

Lemma fm_run_events_files_equiv (evs : list Event) st1 st2 :
  state_equiv st1 st2 ->
  state_equiv (@run_events _ fm_app evs st1) (@run_events _ fm_app evs st2).
Proof.
  exact (embedding_run_events_equiv tt fm_update_frame fm_update_frame_set_files
           fm_update_frame_files evs st1 st2).
Qed.

End SessionFMTheory.

(** ** Frames without a reference *)

Section SessionFMNoReference.

Context {Image : Type} `{OpenCV Image} `{FaceRecognition Image} `{!VisionLaws Image}.

Implicit Types st : State Image unit.

(** C31. The loop without a reference (a divergence from spec section
    4.5): once [reference_encoding] is [None], as after an upload
    without a face during recognition, the first frame in which a face
    is located raises [TypeError] in [face_distance] (line 112), so
    [update_frame] returns before [video_label.after]: no timer is
    left, [running] still says true and the label is not updated. *)
Theorem fm_no_reference_face_ends_loop st (frame : Image) rest :
  running st = true -> video_capture st = Some CaptureOpen -> camera st = Some frame :: rest ->
  reference_encoding st = None -> face_locations (fm_processed frame) <> [] ->
  let st' := py_exec fm_update_frame st in
  pending st' = pending st /\ running st' = true /\ result_label st' = result_label st /\
  camera st' = rest.
Proof.
  intros Hr Hv Hc Hnone Hf. cbn zeta. rewrite fm_update_frame_exec, Hr, Hv, Hc, Hnone. cbn.
  unfold classify_all_faces.
  pose proof (face_encodings_length (fm_processed frame) (face_locations (fm_processed frame)))
    as Hlen.
  destruct (face_locations (fm_processed frame)) as [|l ls]; [contradiction|].
  destruct (face_encodings _ _) as [|e es]; [discriminate|].
  cbn. destruct st. repeat split; assumption.
Qed.

End SessionFMNoReference.

(** ** Witnesses *)

Lemma fm_update_frame_processes_frame_witness :
  let st := run_events [EvUpload (Some "owner.png"%string)] (fm_demo [Some crowd_frame]) in
  let st := set_running true (set_video_capture (Some CaptureOpen) st) in
  let st' := py_exec fm_update_frame st in
  result_label st' = mkLabel msg_different_person red /\ video_frame st' = Some crowd_frame /\
  pending st' = S (pending st) /\ camera st' = [] /\ running st' = true.
Proof.
  cbn zeta. apply fm_update_frame_processes_frame; vm_compute; reflexivity.
Defined.

Lemma fm_no_face_clears_label_witness :
  let st := set_running true (set_video_capture (Some CaptureOpen) (fm_demo [Some empty_frame])) in
  let st' := py_exec fm_update_frame st in
  result_label st' = blank_label /\ pending st' = S (pending st) /\ camera st' = [].
Proof. cbn zeta. apply (fm_no_face_clears_label _ empty_frame); reflexivity. Defined.

Lemma fm_no_reference_face_ends_loop_witness :
  let st := set_running true (set_video_capture (Some CaptureOpen) (fm_demo [Some owner_frame])) in
  let st' := py_exec fm_update_frame st in
  pending st' = pending st /\ running st' = true /\ result_label st' = result_label st /\
  camera st' = [].
Proof.
  cbn zeta. apply (fm_no_reference_face_ends_loop _ owner_frame []);
    [reflexivity | reflexivity | reflexivity | reflexivity | vm_compute; discriminate].
Defined.
