(* ===== verification/SessionDF.v ===== *)
(** * SessionDF: FaceMatching-UsingDeepface.py as a whole

    The DeepFace variant keeps no encoding: its globals are
    [video_capture], [running] and the flag [reference_set] (lines
    10-13), and the reference is the file [reference.jpg] itself, which
    [DeepFace.verify] reads on every frame together with the snapshot
    [live_frame.jpg] that [update_frame] writes (lines 92-99).  The
    record [DFState] holds the globals, the two widgets and the
    environment (camera stream, files).  The handlers:

    - [df_capture_reference_photo] (lines 28-50): the capture loop of
      [Handlers.capture_loop], then [os.path.exists(reference.jpg)];
    - [df_upload_reference_photo] (lines 52-68): [cv2.imread] of the
      chosen file and [cv2.imwrite] of it to [reference.jpg], inside a
      [try] whose handler only shows a message box;
    - [df_recognize_live] (lines 70-78), [df_update_frame] (lines
      80-126), whose [try]/[except] is [Decision.classify_deepface];
    - [df_stop_camera] (lines 128-133);

    and [df_app] wires them into the Tk loop (buttons of lines
    135-151).  Every handler reads the files only through what a path
    holds, so the loop is a bisimulation for [df_state_equiv]. *)

From Stdlib Require Import List Arith Lia QArith String ZArith.
From S2P Require Import Prelude Vision Encode Decision TkLoop Handlers.
Import ListNotations.

Local Open Scope py_scope.
Local Open Scope nat_scope.

Section SessionDF.

Context {Image : Type} `{DeepFaceModel Image}.

Record DFState : Type := mkDFState {
  df_video_capture : option Capture;
  df_running : bool;
  reference_set : bool;
  df_result_label : Label;
  df_video_frame : option Image;
  df_pending : nat;
  df_camera : list (option Image);
  df_files : FileSystem Image
}.

(** Start-up: lines 10-13 and the empty [result_label] of line 25. *)
Definition df_initial_state (camera : list (option Image)) (files : FileSystem Image) : DFState :=
  mkDFState None false false blank_label None 0 camera files.

Definition set_df_video_capture (v : option Capture) (st : DFState) : DFState :=
  mkDFState v (df_running st) (reference_set st) (df_result_label st) (df_video_frame st)
            (df_pending st) (df_camera st) (df_files st).

Definition set_df_running (b : bool) (st : DFState) : DFState :=
  mkDFState (df_video_capture st) b (reference_set st) (df_result_label st) (df_video_frame st)
            (df_pending st) (df_camera st) (df_files st).

Definition set_reference_set (b : bool) (st : DFState) : DFState :=
  mkDFState (df_video_capture st) (df_running st) b (df_result_label st) (df_video_frame st)
            (df_pending st) (df_camera st) (df_files st).

Definition set_df_result_label (l : Label) (st : DFState) : DFState :=
  mkDFState (df_video_capture st) (df_running st) (reference_set st) l (df_video_frame st)
            (df_pending st) (df_camera st) (df_files st).

Definition set_df_video_frame (f : option Image) (st : DFState) : DFState :=
  mkDFState (df_video_capture st) (df_running st) (reference_set st) (df_result_label st) f
            (df_pending st) (df_camera st) (df_files st).

Definition set_df_pending (n : nat) (st : DFState) : DFState :=
  mkDFState (df_video_capture st) (df_running st) (reference_set st) (df_result_label st)
            (df_video_frame st) n (df_camera st) (df_files st).

Definition set_df_camera (c : list (option Image)) (st : DFState) : DFState :=
  mkDFState (df_video_capture st) (df_running st) (reference_set st) (df_result_label st)
            (df_video_frame st) (df_pending st) c (df_files st).

Definition set_df_files (fs : FileSystem Image) (st : DFState) : DFState :=
  mkDFState (df_video_capture st) (df_running st) (reference_set st) (df_result_label st)
            (df_video_frame st) (df_pending st) (df_camera st) fs.

(** [ret, frame = video_capture.read()], line 85. *)
Definition df_read_frame : PyM DFState (option Image) :=
  fun st =>
    match df_video_capture st with
    | None => (Raised AttributeError, st)
    | Some CaptureReleased => (Normal None, st)
    | Some CaptureOpen =>
        match df_camera st with
        | [] => (Normal None, st)
        | r :: rest => (Normal r, set_df_camera rest st)
        end
    end.

(** [capture_reference_photo()], lines 28-50: the loop of lines 32-40,
    then the flag and the label from the existence of the file. *)
Definition df_capture_reference_photo (keys : list Z) : PyM DFState unit :=
  st <- py_get ;;
  let (cam, fs) := capture_loop (df_camera st) keys (df_files st) in
  py_modify (fun st => set_df_files fs (set_df_camera cam st)) ;;
  if path_exists fs reference_image_path then
    py_modify (set_reference_set true) ;;
    py_modify (set_df_result_label (mkLabel msg_reference_captured green))
  else
    py_modify (set_df_result_label (mkLabel msg_capture_failed red)).

(** [upload_reference_photo()], lines 52-68. *)
Definition df_upload_reference_photo (choice : option string) : PyM DFState unit :=
  match choice with
  | None => py_ret tt
  | Some file_path =>
      py_try
        (st <- py_get ;;
         match imread (df_files st) file_path with
         | Some img =>
             py_modify (fun st => set_df_files (imwrite (df_files st) reference_image_path img) st) ;;
             py_modify (set_reference_set true) ;;
             py_modify (set_df_result_label (mkLabel msg_reference_uploaded green))
         | None => py_modify (set_df_result_label (mkLabel msg_invalid_image red))
         end)
        (fun _ => py_ret tt)
  end.

(** [update_frame()], lines 80-126. *)
Definition df_update_frame : PyM DFState unit :=
  st <- py_get ;;
  if negb (df_running st) then py_ret tt else
  r <- df_read_frame ;;
  match r with
  | None => py_ret tt
  | Some frame =>
      py_modify (fun st => set_df_files (imwrite (df_files st) live_frame_path frame) st) ;;
      st <- py_get ;;
      let label := classify_deepface (df_files st) in
      py_modify (set_df_result_label label) ;;
      py_modify (set_df_video_frame (Some frame)) ;;
      py_modify (fun st => set_df_pending (S (df_pending st)) st)
  end.

(** [recognize_live()], lines 70-78. *)
Definition df_recognize_live : PyM DFState unit :=
  st <- py_get ;;
  if negb (reference_set st) then py_ret tt else
  py_modify (set_df_video_capture (Some CaptureOpen)) ;;
  py_modify (set_df_running true) ;;
  df_update_frame.

(** [stop_camera()], lines 128-133. *)
Definition df_stop_camera : PyM DFState unit :=
  py_modify (set_df_running false) ;;
  st <- py_get ;;
  match df_video_capture st with
  | Some _ =>
      py_modify (set_df_video_capture (Some CaptureReleased)) ;;
      py_modify (set_df_result_label (mkLabel msg_camera_stopped black))
  | None => py_ret tt
  end.

(** A [reference_set] flag always backed by a [reference.jpg] on disk,
    and no timer or running loop without a capture object. *)
Definition df_inv (st : DFState) : Prop :=
  (reference_set st = true -> path_exists (df_files st) reference_image_path = true) /\
  (df_video_capture st = None -> df_running st = false /\ df_pending st = 0).

(** Two states that agree on every global and whose file systems hold
    the same files. *)
Definition df_state_equiv (st1 st2 : DFState) : Prop :=
  set_df_files [] st1 = set_df_files [] st2 /\ fs_equiv (df_files st1) (df_files st2).

End SessionDF.

Arguments DFState Image : clear implicits.

(** The buttons of lines 135-151 and the timer of line 126. *)
#[export] Instance df_app {Image : Type} `{DeepFaceModel Image} : TkApp (DFState Image) := {|
  on_capture := df_capture_reference_photo;
  on_upload := df_upload_reference_photo;
  on_start := df_recognize_live;
  on_stop := df_stop_camera;
  on_timer := df_update_frame;
  app_init st := exists cam fs, st = df_initial_state cam fs;
  timers := df_pending;
  set_timers := set_df_pending
|}.

#[export] Instance df_app_laws {Image : Type} `{DeepFaceModel Image} : TkAppLaws (DFState Image).
Proof. split; cbn; [reflexivity | intros []; reflexivity | reflexivity]. Qed.

(** A frame the model cannot read: [DeepFace.verify] raises on it. *)
Definition broken_frame : SynthFrame := mkSynthFrame 0 0 3 [] [].

(** The synthetic session of the concrete runs. *)
Definition df_demo (cam : list (option SynthFrame)) : DFState SynthFrame :=
  df_initial_state cam demo_files.

(** ** What each handler does to the state *)

Section SessionDFTheory.

Context {Image : Type} `{DeepFaceModel Image}.

Implicit Types st : DFState Image.

Lemma df_update_frame_exec st :
  py_exec df_update_frame st =
  if negb (df_running st) then st else
  match df_video_capture st with
  | Some CaptureOpen =>
      match df_camera st with
      | Some frame :: rest =>
          let fs := imwrite (df_files st) live_frame_path frame in
          set_df_pending (S (df_pending st))
            (set_df_video_frame (Some frame)
               (set_df_result_label (classify_deepface fs) (set_df_files fs (set_df_camera rest st))))
      | None :: rest => set_df_camera rest st
      | [] => st
      end
  | _ => st
  end.
Proof.
  unfold df_update_frame, df_read_frame. py_unfold.
  destruct (df_running st); cbn; [|reflexivity].
  destruct (df_video_capture st) as [[|]|]; cbn; try reflexivity.
  destruct (df_camera st) as [|[frame|] rest]; reflexivity.
Qed.

Lemma df_capture_exec (keys : list Z) st :
  py_exec (df_capture_reference_photo keys) st =
  match capture_loop (df_camera st) keys (df_files st) with
  | (cam, fs) =>
      let st1 := set_df_files fs (set_df_camera cam st) in
      if path_exists fs reference_image_path
      then set_df_result_label (mkLabel msg_reference_captured green) (set_reference_set true st1)
      else set_df_result_label (mkLabel msg_capture_failed red) st1
  end.
Proof.
  unfold df_capture_reference_photo. py_unfold.
  destruct (capture_loop _ _ _) as [cam fs]. cbn. destruct (path_exists fs _); reflexivity.
Qed.

Lemma df_upload_exec (path : string) st :
  py_exec (df_upload_reference_photo (Some path)) st =
  match imread (df_files st) path with
  | Some img =>
      set_df_result_label (mkLabel msg_reference_uploaded green)
        (set_reference_set true (set_df_files (imwrite (df_files st) reference_image_path img) st))
  | None => set_df_result_label (mkLabel msg_invalid_image red) st
  end.
Proof. unfold df_upload_reference_photo. py_unfold. destruct (imread _ _); reflexivity. Qed.

Lemma df_recognize_exec st :
  py_exec df_recognize_live st =
  if reference_set st
  then py_exec df_update_frame (set_df_running true (set_df_video_capture (Some CaptureOpen) st))
  else st.
Proof. unfold df_recognize_live. py_unfold. destruct (reference_set st); reflexivity. Qed.

Lemma df_stop_exec st :
  py_exec df_stop_camera st =
  match df_video_capture st with
  | Some _ => set_df_result_label (mkLabel msg_camera_stopped black)
                (set_df_video_capture (Some CaptureReleased) (set_df_running false st))
  | None => set_df_running false st
  end.
Proof. unfold df_stop_camera. py_unfold. destruct (df_video_capture st); reflexivity. Qed.

(** The files only grow, and [update_frame] keeps the capture object,
    the flag and [running], and sets at most one timer, only after
    reading a frame. *)
Lemma df_update_frame_frame st :
  let st' := py_exec df_update_frame st in
  df_video_capture st' = df_video_capture st /\ df_running st' = df_running st /\
  reference_set st' = reference_set st /\
  (path_exists (df_files st) reference_image_path = true ->
   path_exists (df_files st') reference_image_path = true) /\
  df_pending st <= df_pending st' <= S (df_pending st) /\
  (df_pending st' = S (df_pending st) -> List.length (df_camera st') < List.length (df_camera st)).
Proof.
  cbn zeta. rewrite df_update_frame_exec. destruct (df_running st) eqn:Hr; cbn; [|solve_frame].
  destruct (df_video_capture st) as [[|]|] eqn:Hv; cbn; try solve_frame.
  destruct (df_camera st) as [|[frame|] rest] eqn:Hc; cbn; try solve_frame.
  repeat split; intros; try lia; try congruence. apply path_exists_imwrite_mono. assumption.
Qed.

(** ** The handlers up to equivalent file systems *)

Lemma df_state_equiv_files_eq st1 st2 :
  df_state_equiv st1 st2 -> st2 = set_df_files (df_files st2) st1.
Proof. destruct st1, st2. intros [He _]. cbn in He. injection He. intros. subst. reflexivity. Qed.

Lemma classify_deepface_equiv (fs1 fs2 : FileSystem Image) :
  fs_equiv fs1 fs2 -> classify_deepface fs1 = classify_deepface fs2.
Proof.
  intros Hfs. unfold classify_deepface, deepface_verify_paths. rewrite !(imread_proper _ _ Hfs _ _ eq_refl).
  reflexivity.
Qed.

(** A handler respects [df_state_equiv] when replacing the files of its
    argument by equivalent ones gives an equivalent result. *)
Definition df_respects (f : DFState Image -> DFState Image) : Prop :=
  forall st fs, fs_equiv (df_files st) fs -> df_state_equiv (f st) (f (set_df_files fs st)).

Lemma df_respects_equiv (f : DFState Image -> DFState Image) :
  df_respects f -> forall st1 st2, df_state_equiv st1 st2 -> df_state_equiv (f st1) (f st2).
Proof.
  intros Hf st1 st2 HR. rewrite (df_state_equiv_files_eq _ _ HR). apply Hf, HR.
Qed.

Lemma df_update_frame_respects : df_respects (py_exec df_update_frame).
Proof.
  intros [vc run rs lbl vf p cam fs1] fs2 Hfs. rewrite !df_update_frame_exec. cbn.
  destruct run, vc as [[]|], cam as [|[frame|] rest]; cbn; try (split; [reflexivity | exact Hfs]).
  rewrite (classify_deepface_equiv _ (imwrite fs2 live_frame_path frame)) by (rewrite Hfs; reflexivity).
  split; [reflexivity | cbn; rewrite Hfs; reflexivity].
Qed.

Lemma df_recognize_respects : df_respects (py_exec df_recognize_live).
Proof.
  intros [vc run rs lbl vf p cam fs1] fs2 Hfs. rewrite !df_recognize_exec. cbn.
  destruct rs; [|split; [reflexivity | exact Hfs]].
  exact (df_update_frame_respects (mkDFState (Some CaptureOpen) true true lbl vf p cam fs1) fs2 Hfs).
Qed.

Lemma df_stop_respects : df_respects (py_exec df_stop_camera).
Proof.
  intros [vc run rs lbl vf p cam fs1] fs2 Hfs. rewrite !df_stop_exec. cbn.
  destruct vc; split; (reflexivity || exact Hfs).
Qed.

Lemma df_upload_respects (choice : option string) :
  df_respects (py_exec (df_upload_reference_photo choice)).
Proof.
  intros [vc run rs lbl vf p cam fs1] fs2 Hfs. cbn in Hfs. destruct choice as [path|];
    [|split; [reflexivity | exact Hfs]].
  rewrite !df_upload_exec. cbn. rewrite <- (imread_proper _ _ Hfs path _ eq_refl).
  destruct (imread fs1 path); split; cbn; (reflexivity || exact Hfs || (rewrite Hfs; reflexivity)).
Qed.

Lemma df_capture_respects (keys : list Z) :
  df_respects (py_exec (df_capture_reference_photo keys)).
Proof.
  intros [vc run rs lbl vf p cam fs1] fs2 Hfs. cbn in Hfs. rewrite !df_capture_exec. cbn.
  destruct (capture_loop_equiv cam keys fs1 fs2 Hfs) as [Hcam Hfs'].
  destruct (capture_loop cam keys fs1) as [cam1 fs1'], (capture_loop cam keys fs2) as [cam2 fs2'].
  cbn in Hcam, Hfs'. subst cam2. rewrite <- (path_exists_proper _ _ Hfs' reference_image_path _ eq_refl).
  destruct (path_exists fs1' reference_image_path); split; (reflexivity || exact Hfs').
Qed.

(** The DeepFace loop cannot tell equivalent states apart. *)
Lemma df_run_events_files_equiv (evs : list Event) st1 st2 :
  df_state_equiv st1 st2 ->
  df_state_equiv (@run_events _ df_app evs st1) (@run_events _ df_app evs st2).
Proof.
  apply run_events_bisim; cbn.
  - intros keys. exact (df_respects_equiv _ (df_capture_respects keys)).
  - intros choice. exact (df_respects_equiv _ (df_upload_respects choice)).
  - exact (df_respects_equiv _ df_recognize_respects).
  - exact (df_respects_equiv _ df_stop_respects).
  - exact (df_respects_equiv _ df_update_frame_respects).
  - intros st1' st2' [He _]. apply (f_equal df_pending) in He. destruct st1', st2'. exact He.
  - intros n. refine (df_respects_equiv _ _). intros st fs Hfs. destruct st. split; [reflexivity | exact Hfs].
Qed.

End SessionDFTheory.

Section SessionDFClaims.

Context {Image : Type} `{DeepFaceModel Image}.

Implicit Types st : DFState Image.

(** C32. Every frame read is processed (lines 85-126): the snapshot is
    written to [live_frame.jpg], the label is DeepFace's verdict on the
    two files or ["Error in recognition"] when it raises, and the next
    timer is always set.  Unlike the embedding variants, no exception
    of the model ends the loop, as spec section 7 asks. *)
Theorem df_update_frame_processes_frame st (frame : Image) rest :
  df_running st = true -> df_video_capture st = Some CaptureOpen ->
  df_camera st = Some frame :: rest ->
  let st' := py_exec df_update_frame st in
  df_result_label st' = classify_deepface (imwrite (df_files st) live_frame_path frame) /\
  df_files st' = imwrite (df_files st) live_frame_path frame /\
  df_pending st' = S (df_pending st) /\ df_camera st' = rest /\ df_running st' = true.
Proof.
  intros Hr Hv Hc. rewrite df_update_frame_exec, Hr, Hv, Hc. repeat split. exact Hr.
Qed.

(** C33. Round trip of an upload through [reference.jpg]: after
    uploading a file that [cv2.imread] decodes to [img], whatever the
    picture shows (lines 59-64 only test [img is not None], with no
    face detection: the spec asks for [NoFaceFound]), the flag is set, the label says "Reference photo
    uploaded", [reference.jpg] reads back as [img], and on the next
    frame DeepFace compares [img] with that frame's snapshot. *)
Theorem df_upload_roundtrip st (path : string) (img frame : Image) :
  imread (df_files st) path = Some img ->
  let st' := py_exec (df_upload_reference_photo (Some path)) st in
  reference_set st' = true /\ df_result_label st' = mkLabel msg_reference_uploaded green /\
  imread (df_files st') reference_image_path = Some img /\
  deepface_verify_paths (imwrite (df_files st') live_frame_path frame) = deepface_verify img frame.
Proof.
  intros Hi. rewrite df_upload_exec, Hi. repeat split.
Qed.

(** A file that does not decode is refused ("Invalid image
    selected") and changes nothing else: the previous reference file
    and flag stay, as spec section 4.2 asks for [InvalidImage]. *)
Theorem df_invalid_upload_keeps_reference st (path : string) :
  imread (df_files st) path = None ->
  let st' := py_exec (df_upload_reference_photo (Some path)) st in
  reference_set st' = reference_set st /\ df_files st' = df_files st /\
  df_result_label st' = mkLabel msg_invalid_image red.
Proof. intros Hi. rewrite df_upload_exec, Hi. repeat split. Qed.

(** C34. A capture whose first camera read fails writes nothing, yet
    reports "Reference photo captured" and sets the flag whenever an
    older [reference.jpg] exists (lines 46-48 test the file, not the
    capture). *)
Theorem df_capture_after_read_failure_reports_captured st (keys : list Z) rest :
  df_camera st = None :: rest -> path_exists (df_files st) reference_image_path = true ->
  let st' := py_exec (df_capture_reference_photo keys) st in
  reference_set st' = true /\ df_result_label st' = mkLabel msg_reference_captured green /\
  df_files st' = df_files st /\ df_camera st' = rest.
Proof. intros Hc He. rewrite df_capture_exec, Hc. cbn. rewrite He. repeat split. Qed.

(** The invariant [df_inv] of the reachable states, by rule induction. *)
Lemma df_reachable_df_inv st : reachable st -> df_inv st.
Proof.
  induction 1 as [st (cam & fs & ->)|st st' Hreach [IHr IHv] Hstep];
    [split; [discriminate | intros _; split; reflexivity]|].
  destruct Hstep as [keys st|choice st|st|st|st n Hp]; cbn in *.
  - rewrite df_capture_exec. pose proof (capture_loop_path_exists (df_camera st) keys (df_files st))
      as Hmono.
    destruct (capture_loop _ _ _) as [cam fs]. cbn in Hmono.
    destruct (path_exists fs reference_image_path) eqn:He; split; cbn; auto.
  - destruct choice as [path|]; [|split; assumption]. rewrite df_upload_exec.
    destruct (imread _ _); split; cbn; auto.
  - rewrite df_recognize_exec. destruct (reference_set st) eqn:Hs.
    + destruct (df_update_frame_frame (set_df_running true (set_df_video_capture (Some CaptureOpen) st)))
        as (Hv & _ & Hs' & Hf & _). cbn in *.
      split; [intros _; apply Hf, IHr; reflexivity | congruence].
    + split; [intros; congruence | assumption].
  - rewrite df_stop_exec. destruct (df_video_capture st) eqn:Hv; (split; cbn; [exact IHr|]).
    + discriminate.
    + intros _. split; [reflexivity | apply IHv; reflexivity].
  - destruct (df_update_frame_frame (set_df_pending n st)) as (Hv & _ & Hs & Hf & _). cbn in *.
    split; [rewrite Hs; intros Hs'; apply Hf, IHr, Hs'|].
    intros Hv'. rewrite Hv' in Hv. destruct (IHv (eq_sym Hv)) as [_ Hp0]. congruence.
Qed.

(** C35. Invariant of the DeepFace event loop, by rule induction: the
    flag [reference_set] is only ever true when [reference.jpg] exists
    (files are never removed), and no loop runs and no timer is pending
    without a capture object. *)
Theorem df_reachable_inv st : reachable st -> df_inv st.
Proof. exact (df_reachable_df_inv st). Qed.

(** C36. Termination of the DeepFace recognition loop: with one timer
    pending, the chain ends after more expiries than the camera has
    frames left. *)
Theorem df_recognition_loop_terminates (st : DFState Image) (k : nat) :
  df_pending st = 1 -> List.length (df_camera st) < k ->
  df_pending (run_events (repeat EvTimer k) st) = 0.
Proof.
  apply (@timer_chain_ends _ df_app _ (fun st : DFState Image => List.length (df_camera st)));
    [reflexivity|].
  intros st0 Hp. cbn in *. destruct (df_update_frame_frame st0) as (_ & _ & _ & _ & Hle & Hc).
  destruct (df_pending (py_exec df_update_frame st0)) as [|[|]] eqn:E; [left; reflexivity | right | lia].
  split; [reflexivity|]. apply Hc. rewrite Hp. reflexivity.
Qed.

End SessionDFClaims.

(** ** Witnesses *)

Lemma df_update_frame_processes_frame_witness :
  let st := set_df_running true (set_df_video_capture (Some CaptureOpen)
              (run_events [EvUpload (Some "owner.png"%string)] (df_demo [Some broken_frame]))) in
  let st' := py_exec df_update_frame st in
  classify_deepface (imwrite (df_files st) live_frame_path broken_frame) =
    mkLabel msg_recognition_error orange /\
  (df_result_label st' = classify_deepface (imwrite (df_files st) live_frame_path broken_frame) /\
   df_files st' = imwrite (df_files st) live_frame_path broken_frame /\
   df_pending st' = S (df_pending st) /\ df_camera st' = [] /\ df_running st' = true).
Proof.
  cbn zeta. split; [vm_compute; reflexivity|].
  apply df_update_frame_processes_frame; reflexivity.
Defined.

Lemma df_upload_roundtrip_witness :
  let st' := py_exec (df_upload_reference_photo (Some "owner.png"%string)) (df_demo []) in
  reference_set st' = true /\ df_result_label st' = mkLabel msg_reference_uploaded green /\
  imread (df_files st') reference_image_path = Some owner_frame /\
  deepface_verify_paths (imwrite (df_files st') live_frame_path stranger_frame) =
    deepface_verify owner_frame stranger_frame.
Proof. apply df_upload_roundtrip. reflexivity. Defined.

Lemma df_invalid_upload_keeps_reference_witness :
  let st := df_demo [] in
  let st' := py_exec (df_upload_reference_photo (Some "missing.png"%string)) st in
  reference_set st' = reference_set st /\ df_files st' = df_files st /\
  df_result_label st' = mkLabel msg_invalid_image red.
Proof. apply df_invalid_upload_keeps_reference. reflexivity. Defined.

Lemma df_capture_after_read_failure_reports_captured_witness :
  let st := set_df_files (imwrite demo_files reference_image_path stranger_frame)
              (df_demo [None; Some owner_frame]) in
  let st' := py_exec (df_capture_reference_photo [99%Z]) st in
  reference_set st' = true /\ df_result_label st' = mkLabel msg_reference_captured green /\
  df_files st' = df_files st /\ df_camera st' = [Some owner_frame].
Proof. cbn zeta. apply df_capture_after_read_failure_reports_captured; reflexivity. Defined.

Lemma df_reachable_inv_witness : df_inv (df_demo [Some owner_frame]).
Proof.
  apply df_reachable_inv. apply reachable_init. exists [Some owner_frame], demo_files.
  reflexivity.
Defined.

Lemma df_recognition_loop_terminates_witness :
  let st := run_events [EvUpload (Some "owner.png"%string); EvStart]
              (df_demo [Some owner_frame; Some broken_frame; Some owner_frame]) in
  df_pending st = 1 /\ df_pending (run_events (repeat EvTimer 3) st) = 0.
Proof.
  cbn zeta. split; [vm_compute; reflexivity|].
  apply df_recognition_loop_terminates; vm_compute; [reflexivity | lia].
Defined.
