(* ===== verification/Engine.v ===== *)
(** * Engine: the engine state machine of spec section 4.3, and how
      the three variants refine it

    The specification describes the recognition engine as a state
    machine (sections 4.2 and 4.3): [Idle] until a reference is
    enrolled, [ReferenceReady], [Running] after start, [Stopped] after
    stop, with [Stopped] re-entrant.  Enrollment succeeds (the reference
    is replaced) or fails without effect, and it is refused with
    [EngineBusy] while running; start without a reference fails with
    [ReferenceNotSet]; stop is idempotent.  [Stopped] accepts the same
    inputs as [ReferenceReady], so both are the phase [Ready] here.

    The abstract state is the phase and the enrolled identity;
    [engine_step] is the machine as a relation labelled by the input.
    A variant's state is mapped to it by [engine_of] (the embedding
    variants: [running] and [reference_encoding]) or [df_engine_of]
    (the DeepFace variant: [running], [reference_set] and the file
    [reference.jpg]).  The refinement theorems say that every event of
    the Tk loop is a step of the machine on the abstract states, except
    the cases listed in the theorem, in which the code departs from the
    specification. *)

From Stdlib Require Import List Arith Lia QArith String ZArith.
From S2P Require Import Prelude Vision Encode Decision Cadence TkLoop Handlers.
From S2P Require Import Session SessionFM SessionDF.
Import ListNotations.

Local Open Scope nat_scope.

Inductive Phase : Type :=
| Idle
| Ready
| Running.

Record Engine (R : Type) : Type := mkEngine {
  phase : Phase;
  identity : option R
}.
Arguments mkEngine {R} phase identity.
Arguments phase {R} e.
Arguments identity {R} e.

(** The inputs of the machine: the enrollment operations, start, stop,
    and the processing of a frame. *)
Inductive EngineInput : Type :=
| Enroll
| Start
| Stop
| Tick.

(** The input a Tk event is. *)
Definition input_of (ev : Event) : EngineInput :=
  match ev with
  | EvCapture _ | EvUpload _ => Enroll
  | EvStart => Start
  | EvStop => Stop
  | EvTimer => Tick
  end.

(** The phase outside a session: [Idle] without a reference. *)
Definition ready_phase {R : Type} (r : option R) : Phase :=
  match r with
  | Some _ => Ready
  | None => Idle
  end.

Inductive engine_step {R : Type} : Engine R -> EngineInput -> Engine R -> Prop :=
| engine_enroll_ok e r :
    phase e <> Running -> engine_step e Enroll (mkEngine Ready (Some r))
| engine_enroll_refused e :
    engine_step e Enroll e
| engine_start r :
    engine_step (mkEngine Ready (Some r)) Start (mkEngine Running (Some r))
| engine_start_unset :
    engine_step (mkEngine Idle None) Start (mkEngine Idle None)
| engine_stop r :
    engine_step (mkEngine Running r) Stop (mkEngine (ready_phase r) r)
| engine_stop_idle e :
    phase e <> Running -> engine_step e Stop e
| engine_tick e :
    engine_step e Tick e.

(** The abstract state of an embedding variant. *)
Definition engine_of {Image X : Type} (st : State Image X) : Engine Encoding :=
  mkEngine (if running st then Running else ready_phase (reference_encoding st))
           (reference_encoding st).

(** The abstract state of the DeepFace variant: its reference is the
    file [reference.jpg] once [reference_set] is true. *)
Definition df_engine_of {Image : Type} (st : DFState Image) : Engine (FileData Image) :=
  let r := if reference_set st then fs_lookup (df_files st) reference_image_path else None in
  mkEngine (if df_running st then Running else ready_phase r) r.

(** ** Refinement for the embedding variants *)

Section EmbeddingRefinement.

Context {Image : Type} `{OpenCV Image} `{FaceRecognition Image} {X : Type}.
Context (x0 : X) (update_frame : PyM (State Image X) unit) `{!UpdateFrameLaws update_frame}.

#[local] Instance refine_app : TkApp (State Image X) := embedding_app x0 update_frame.

Implicit Types st : State Image X.

Lemma engine_of_not_running st : running st = false -> phase (engine_of st) <> Running.
Proof. intros Hr. unfold engine_of. rewrite Hr. destruct (reference_encoding st); discriminate. Qed.

(** An enrollment handler that keeps [running] is an enrollment of the
    machine unless it runs during a session or leaves no reference. *)
Lemma enrollment_refines st st' :
  running st' = running st ->
  engine_step (engine_of st) Enroll (engine_of st') \/
  running st = true \/ reference_encoding st' = None.
Proof.
  intros Hr. destruct (running st) eqn:Hrun; [right; left; reflexivity|].
  destruct (reference_encoding st') as [r|] eqn:Href; [left | right; right; reflexivity].
  replace (engine_of st') with (mkEngine Ready (Some r))
    by (unfold engine_of; rewrite Hr, Href; reflexivity).
  apply engine_enroll_ok, engine_of_not_running, Hrun.
Qed.

Lemma embedding_refines_engine (ev : Event) st st' :
  dispatch ev st = Some st' ->
  engine_step (engine_of st) (input_of ev) (engine_of st') \/
  (input_of ev = Enroll /\ (running st = true \/ reference_encoding st' = None)) \/
  (ev = EvStart /\ running st = true).
Proof.
  destruct ev as [keys|choice| | | ]; cbn; intros Hd.
  - injection Hd as <-. destruct (capture_frame keys st) as (_ & Hr & _).
    destruct (enrollment_refines st _ Hr) as [Hs|Hs]; [left; exact Hs | right; left; split; auto].
  - injection Hd as <-. destruct (upload_frame choice st) as (_ & Hr & _).
    destruct (enrollment_refines st _ Hr) as [Hs|Hs]; [left; exact Hs | right; left; split; auto].
  - injection Hd as <-. destruct (running st) eqn:Hr; [right; right; split; reflexivity|].
    left. destruct (embedding_recognize_live update_frame st) as (Hnone & Hsome).
    destruct (reference_encoding st) as [r|] eqn:Href.
    + destruct Hsome as (_ & Hrun' & _ & Href'); [discriminate|].
      unfold engine_of. rewrite Hr, Hrun', Href', Href. apply engine_start.
    + rewrite Hnone by reflexivity. unfold engine_of. rewrite Hr, Href. apply engine_start_unset.
  - injection Hd as <-. left. destruct (stop_camera_frame st) as (Href & _).
    set (r := reference_encoding st).
    replace (engine_of (py_exec stop_camera st)) with (mkEngine (ready_phase r) r)
      by (unfold engine_of; rewrite (stop_camera_not_running st), Href; reflexivity).
    destruct (running st) eqn:Hr.
    + unfold engine_of. rewrite Hr. apply engine_stop.
    + replace (mkEngine (ready_phase r) r) with (engine_of st)
        by (unfold engine_of; rewrite Hr; reflexivity).
      apply engine_stop_idle, engine_of_not_running, Hr.
  - destruct (pending st) as [|n] eqn:Hp; [discriminate|]. injection Hd as <-. left.
    destruct (update_keeps (set_pending n st)) as (_ & Hr & Href).
    replace (engine_of (py_exec update_frame (set_pending n st))) with (engine_of st)
      by (unfold engine_of; rewrite Hr, Href; reflexivity).
    apply engine_tick.
Qed.

End EmbeddingRefinement.

(** ** Refinement for the DeepFace variant *)

Section DFRefinement.

Context {Image : Type} `{DeepFaceModel Image}.

Implicit Types st : DFState Image.

Lemma df_engine_of_not_running st : df_running st = false -> phase (df_engine_of st) <> Running.
Proof.
  intros Hr. unfold df_engine_of. rewrite Hr. cbn.
  destruct (if reference_set st then _ else None); discriminate.
Qed.

(** A frame only writes [live_frame.jpg]: the abstract state stays. *)
Lemma df_update_frame_engine st : df_engine_of (py_exec df_update_frame st) = df_engine_of st.
Proof.
  rewrite df_update_frame_exec. destruct (df_running st); [|reflexivity].
  destruct (df_video_capture st) as [[|]|]; try reflexivity.
  destruct (df_camera st) as [|[frame|] rest]; reflexivity.
Qed.

(** An enrollment outside a session that sets the flag with the file
    [reference.jpg] on disk is an enrollment of the machine. *)
Lemma df_enrollment_ok st st' (d : FileData Image) :
  df_running st = false -> df_running st' = false -> reference_set st' = true ->
  fs_lookup (df_files st') reference_image_path = Some d ->
  engine_step (df_engine_of st) Enroll (df_engine_of st').
Proof.
  intros Hr Hr' Hs Hl.
  replace (df_engine_of st') with (mkEngine Ready (Some d))
    by (unfold df_engine_of; rewrite Hr', Hs, Hl; reflexivity).
  apply engine_enroll_ok, df_engine_of_not_running, Hr.
Qed.

Lemma df_refines_engine_aux (ev : Event) st st' :
  (reference_set st = true -> path_exists (df_files st) reference_image_path = true) ->
  dispatch ev st = Some st' ->
  engine_step (df_engine_of st) (input_of ev) (df_engine_of st') \/
  (input_of ev = Enroll /\ df_running st = true) \/
  (ev = EvStart /\ df_running st = true).
Proof.
  intros Hinv. destruct ev as [keys|[path|]| | | ];
    cbn [dispatch input_of on_capture on_upload on_start on_stop on_timer timers set_timers df_app];
    intros Hd.
  - assert (st' = py_exec (df_capture_reference_photo keys) st) as -> by congruence.
    destruct (df_running st) eqn:Hr; [right; left; split; reflexivity|].
    left. rewrite df_capture_exec.
    pose proof (capture_loop_files (df_camera st) keys (df_files st)) as Hf.
    destruct (capture_loop (df_camera st) keys (df_files st)) as [cam fs]. cbn in Hf.
    destruct (path_exists fs reference_image_path) eqn:He.
    + unfold path_exists in He.
      destruct (fs_lookup fs reference_image_path) as [d|] eqn:Hl; [|discriminate].
      apply (df_enrollment_ok _ _ d); [exact Hr | exact Hr | reflexivity | exact Hl].
    + destruct Hf as [->|[f ->]]; [|rewrite path_exists_imwrite in He; discriminate].
      exact (engine_enroll_refused (df_engine_of st)).
  - assert (st' = py_exec (df_upload_reference_photo (Some path)) st) as -> by congruence.
    destruct (df_running st) eqn:Hr; [right; left; split; reflexivity|].
    left. rewrite df_upload_exec. destruct (imread (df_files st) path) as [img|].
    + apply (df_enrollment_ok _ _ (Picture img)); [exact Hr | exact Hr | reflexivity |].
      apply fs_lookup_imwrite.
    + exact (engine_enroll_refused (df_engine_of st)).
  - assert (st' = st) as -> by (injection Hd as <-; reflexivity). left. exact (engine_enroll_refused (df_engine_of st)).
  - assert (st' = py_exec df_recognize_live st) as -> by congruence.
    destruct (df_running st) eqn:Hr; [right; right; split; reflexivity|].
    left. rewrite df_recognize_exec. destruct (reference_set st) eqn:Hs.
    + rewrite df_update_frame_engine. specialize (Hinv eq_refl). unfold path_exists in Hinv.
      destruct (fs_lookup (df_files st) reference_image_path) as [d|] eqn:Hl; [|discriminate].
      unfold df_engine_of, set_df_running, set_df_video_capture. cbn. rewrite Hr, Hs, Hl.
      apply engine_start.
    + unfold df_engine_of. rewrite Hr, Hs. apply engine_start_unset.
  - assert (st' = py_exec df_stop_camera st) as -> by congruence. left. rewrite df_stop_exec.
    destruct (df_running st) eqn:Hr;
      destruct (df_video_capture st); unfold df_engine_of; cbn; rewrite Hr.
    1, 2: apply engine_stop.
    all: apply engine_stop_idle; cbn; destruct (if reference_set st then _ else None); discriminate.
  - destruct (df_pending st) as [|n]; [discriminate|].
    assert (st' = py_exec df_update_frame (set_df_pending n st)) as -> by congruence. left.
    rewrite df_update_frame_engine. exact (engine_tick (df_engine_of st)).
Qed.

End DFRefinement.

(** ** The three variants against the machine *)

Section Variants.

Context {Image : Type} `{OpenCV Image} `{FaceRecognition Image} `{PersonDetector Image}
  `{DeepFaceModel Image}.

(** C12. Refinement of the engine state machine of spec section 4.3 by
    FinalProject.py: every event of the Tk loop is a step of the
    machine on the abstract state ([running], [reference_encoding]),
    except three departures from the specification: an enrollment
    during a session (it is not refused with [EngineBusy]), an
    enrollment that leaves no reference (a failed enrollment clears the
    old one), and Start during a session (it starts a second loop). *)
Theorem fp_refines_engine (ev : Event) (st st' : State Image Cache) :
  dispatch ev st = Some st' ->
  engine_step (engine_of st) (input_of ev) (engine_of st') \/
  (input_of ev = Enroll /\ (running st = true \/ reference_encoding st' = None)) \/
  (ev = EvStart /\ running st = true).
Proof. exact (embedding_refines_engine initial_cache update_frame ev st st'). Qed.

Lemma fm_refines_engine (ev : Event) (st st' : State Image unit) :
  dispatch ev st = Some st' ->
  engine_step (engine_of st) (input_of ev) (engine_of st') \/
  (input_of ev = Enroll /\ (running st = true \/ reference_encoding st' = None)) \/
  (ev = EvStart /\ running st = true).
Proof. exact (embedding_refines_engine tt fm_update_frame ev st st'). Qed.

(** C13. Refinement of the engine state machine by the DeepFace
    variant, from any state satisfying its invariant: every event is a
    step of the machine on the abstract state ([running],
    [reference_set] and the file [reference.jpg]), except an
    enrollment during a session (it rewrites [reference.jpg] while the
    loop reads it) and Start during a session.  Failed enrollments have
    no effect here, unlike the embedding variants. *)
Theorem df_refines_engine (ev : Event) (st st' : DFState Image) :
  df_inv st -> dispatch ev st = Some st' ->
  engine_step (df_engine_of st) (input_of ev) (df_engine_of st') \/
  (input_of ev = Enroll /\ df_running st = true) \/
  (ev = EvStart /\ df_running st = true).
Proof. intros [Hinv _]. apply df_refines_engine_aux, Hinv. Qed.

End Variants.

(** ** Witnesses *)

Lemma fp_refines_engine_witness :
  let st := run_events [EvUpload (Some "owner.png"%string)] (demo_session [Some owner_frame]) in
  let st' := py_exec (recognize_live update_frame) st in
  engine_step (engine_of st) (input_of EvStart) (engine_of st') \/
  (input_of EvStart = Enroll /\ (running st = true \/ reference_encoding st' = None)) \/
  (EvStart = EvStart /\ running st = true).
Proof. cbn zeta. apply fp_refines_engine. reflexivity. Defined.

Lemma df_refines_engine_witness :
  let st := run_events [EvUpload (Some "owner.png"%string)] (df_demo [Some owner_frame]) in
  let st' := py_exec df_recognize_live st in
  engine_step (df_engine_of st) (input_of EvStart) (df_engine_of st') \/
  (input_of EvStart = Enroll /\ df_running st = true) \/
  (EvStart = EvStart /\ df_running st = true).
Proof.
  cbn zeta. apply df_refines_engine; [split; intros _; [reflexivity | split; reflexivity] |].
  reflexivity.
Defined.
