(* ===== verification/Mainloop.v ===== *)
(** * Mainloop: [window.mainloop()] as an interaction tree

    The last line of every script (FinalProject.py line 196,
    FaceMatching.py line 169, FaceMatching-UsingDeepface.py line 151)
    hands control to Tk, which never returns: it waits for the next
    event (a button press or the expiry of a timer), runs its callback,
    and waits again.  [mainloop] is that program as an interaction tree
    over the one visible event [NextEvent st] (the window shows the
    state [st] and waits for the user or the clock), built with the
    library's [ITree.iter]; its result type is [void], so the tree can
    never return.

    [feed] observes the tree against a finite list of events, with fuel
    for its silent steps.  The lemmas tie the non-terminating tree to
    the finite semantics of [TkLoop] that the properties of the
    variants are stated on: fed a list of events, the tree shows
    exactly the state [run_events] computes, once the fuel exceeds
    [2 * length evs] and not before ([feed_mainloop_iff]), so every
    state the window shows is a reachable state of [TkLoop] and the
    invariants proved by rule induction on [reachable] hold of it. *)

From Stdlib Require Import List Arith Lia String.
From ITree Require Import ITree ITreeFacts.
From S2P Require Import Prelude TkLoop.
Import ListNotations.

(** The one thing the Tk loop waits for: the next event, while the
    window shows the state. *)
Variant TkE (St : Type) : Type -> Type :=
| NextEvent (st : St) : TkE St Event.
Arguments NextEvent {St} st.

Section Tree.

Context {St : Type} `{TkApp St}.

(** The state after one event: [dispatch], or no change for a timer
    that is not pending. *)
Definition next_state (ev : Event) (st : St) : St :=
  match dispatch ev st with
  | Some st' => st'
  | None => st
  end.

(** One turn of the loop: wait for an event, run its callback, go on. *)
Definition mainloop_body (st : St) : itree (TkE St) (St + void) :=
  ITree.bind (ITree.trigger (NextEvent st)) (fun ev => Ret (inl (next_state ev st))).

(** [window.mainloop()] *)
Definition mainloop (st : St) : itree (TkE St) void := ITree.iter mainloop_body st.

(** The state the window shows after the events [evs], if [fuel]
    silent and visible steps suffice to reach the next wait. *)
Fixpoint feed (fuel : nat) (evs : list Event) (t : itree (TkE St) void) : option St :=
  match fuel with
  | 0 => None
  | S fuel =>
      match observe t with
      | RetF v => match v with end
      | TauF t' => feed fuel evs t'
      | VisF e k =>
          match e in TkE _ T return (T -> itree (TkE St) void) -> option St with
          | NextEvent st => fun k =>
              match evs with
              | [] => Some st
              | ev :: evs' => feed fuel evs' (k ev)
              end
          end k
      end
  end.

End Tree.

Section TreeTheory.

Context {St : Type} `{TkApp St}.

(** The loop waits, runs the event's callback, and is the loop again,
    up to the silent step of [ITree.iter]. *)
Lemma mainloop_unfold (st : St) :
  mainloop st ≈ ITree.bind (ITree.trigger (NextEvent st)) (fun ev => mainloop (next_state ev st)).
Proof.
  unfold mainloop. rewrite unfold_iter. unfold mainloop_body. rewrite bind_bind.
  apply eutt_eq_bind. intros ev. rewrite bind_ret_l. cbn. rewrite tau_eutt. reflexivity.
Qed.

Lemma run_events_cons_next (ev : Event) (evs : list Event) (st : St) :
  run_events (ev :: evs) st = run_events evs (next_state ev st).
Proof. cbn. unfold next_state. destruct (dispatch ev st); reflexivity. Qed.

(** Fed the events [evs], the tree reaches its next wait exactly when
    the fuel exceeds [2 * length evs] (a visible and a silent step per
    event), and it then shows [run_events evs]. *)
Lemma feed_mainloop_iff (evs : list Event) (st st' : St) (fuel : nat) :
  feed fuel evs (mainloop st) = Some st' <-> 2 * List.length evs < fuel /\ st' = run_events evs st.
Proof.
  revert st fuel. induction evs as [|ev evs IH]; intros st [|[|fuel]]; cbn [List.length];
    try (split; [discriminate | intros [? _]; lia]).
  - split; [intros [= <-]; split; [lia | reflexivity] | intros [_ ->]; reflexivity].
  - split; [intros [= <-]; split; [lia | reflexivity] | intros [_ ->]; reflexivity].
  - rewrite run_events_cons_next. cbn - [next_state].
    change (ITree.iter mainloop_body (next_state ev st)) with (mainloop (next_state ev st)).
    rewrite IH. split; intros [? ?]; split; (lia || assumption).
Qed.

(** The states the window shows from a start-up state are reachable. *)
Lemma feed_mainloop_reachable (evs : list Event) (st0 st : St) (fuel : nat) :
  app_init st0 -> feed fuel evs (mainloop st0) = Some st -> reachable st.
Proof.
  intros Hinit Hfeed. apply feed_mainloop_iff in Hfeed as [_ ->].
  apply run_events_reachable, reachable_init, Hinit.
Qed.

End TreeTheory.
